(** * Notification, scoping and registration core of the exam-records backend

    A shallow embedding of the Python sources

      - [app/utils/bot.py]       (reminder scan, notifiers, registration FSM),
      - [app/services/exam.py]   (recipient resolver, exam list),
      - [app/services/group.py], [app/services/student.py],
        [app/services/curator.py] (scoped lists, lookup by full name,
        password + Telegram binding),
      - [app/services/mark.py]   (batch mark update, table import, delayed
        mark notifications),

    followed by the properties the specification states about them.

    Conventions of the embedding.
    - A Python [str] is a Rocq [string] holding its UTF-8 bytes.
    - Python exceptions are the [Raise] branch of [result]; [try/except] is
      [try_except] with a handler that selects the exception classes it takes.
    - Code that talks to the outside (Telegram transport, logger, FSM storage,
      database session) runs in the monad [M S], a state monad over [S] that
      also records the observable events it performs, in order.
    - Database queries are assumed not to raise [SQLAlchemyError]; every other
      exception the code can raise is modelled. *)

From Stdlib Require Import ZArith List String Ascii Bool Lia DecimalString.
Import ListNotations.

Local Open Scope string_scope.
Local Open Scope list_scope.
Local Open Scope Z_scope.

(* ================================================================== *)
(** * Python string operations used by the code *)
(* ================================================================== *)

Module PyStr.

Definition byte_val (c : ascii) : Z := Z.of_N (N_of_ascii c).

Definition byte_of (n : Z) : ascii := ascii_of_N (Z.to_N n).

(** [str.isspace] on the ASCII range: TAB..CR, FS..US and the blank. *)
Definition is_space (c : ascii) : bool :=
  let n := byte_val c in
  ((9 <=? n) && (n <=? 13)) || ((28 <=? n) && (n <=? 32)).

Fixpoint lstrip_l (s : list ascii) : list ascii :=
  match s with
  | c :: s' => if is_space c then lstrip_l s' else s
  | [] => []
  end.

Definition strip_l (s : list ascii) : list ascii :=
  rev (lstrip_l (rev (lstrip_l s))).

(** [s.strip()] *)
Definition strip (s : string) : string :=
  string_of_list_ascii (strip_l (list_ascii_of_string s)).

(** [s.split()]: maximal runs of non-blank characters. [cur] is the run
    being read, most recent character first. *)
Fixpoint split_l (cur : list ascii) (s : list ascii) : list (list ascii) :=
  match s with
  | [] => match cur with [] => [] | _ => [rev cur] end
  | c :: s' =>
      if is_space c
      then match cur with
           | [] => split_l [] s'
           | _ => rev cur :: split_l [] s'
           end
      else split_l (c :: cur) s'
  end.

Definition split (s : string) : list string :=
  map string_of_list_ascii (split_l [] (list_ascii_of_string s)).

(** [s.split(sep)] for a one-character separator: empty fields are kept. *)
Fixpoint split_on_l (sep : ascii) (cur : list ascii) (s : list ascii)
  : list (list ascii) :=
  match s with
  | [] => [rev cur]
  | c :: s' =>
      if Ascii.eqb c sep
      then rev cur :: split_on_l sep [] s'
      else split_on_l sep (c :: cur) s'
  end.

Definition split_on (sep : ascii) (s : string) : list string :=
  map string_of_list_ascii (split_on_l sep [] (list_ascii_of_string s)).

(** [s.lower()] on the letters the program meets: ASCII and the Cyrillic
    block U+0400..U+042F, whose UTF-8 encodings are [D0 80]..[D0 AF]. *)
Fixpoint lower_l (s : list ascii) : list ascii :=
  match s with
  | [] => []
  | c :: s' =>
      let n := byte_val c in
      if (65 <=? n) && (n <=? 90) then byte_of (n + 32) :: lower_l s'
      else if n =? 208 then
        match s' with
        | d :: s'' =>
            let m := byte_val d in
            if (128 <=? m) && (m <=? 143)
            then byte_of 209 :: byte_of (m + 16) :: lower_l s''
            else if (144 <=? m) && (m <=? 159)
            then byte_of 208 :: byte_of (m + 32) :: lower_l s''
            else if (160 <=? m) && (m <=? 175)
            then byte_of 209 :: byte_of (m - 32) :: lower_l s''
            else c :: d :: lower_l s''
        | [] => [c]
        end
      else c :: lower_l s'
  end.

Definition lower (s : string) : string :=
  string_of_list_ascii (lower_l (list_ascii_of_string s)).

(** [len(s)]: the number of code points, that is of bytes that are not
    UTF-8 continuation bytes. *)
Definition len (s : string) : Z :=
  Z.of_nat (List.length
    (filter (fun c => negb ((128 <=? byte_val c) && (byte_val c <? 192)))
            (list_ascii_of_string s))).

Definition digit_val (c : ascii) : option Z :=
  let n := byte_val c in
  if (48 <=? n) && (n <=? 57) then Some (n - 48) else None.

(** Decimal digits with single underscores between digits, as [int]
    accepts them. [prev] tells whether the previous character was a
    digit. *)
Fixpoint int_digits (acc : Z) (prev : bool) (s : list ascii) : option Z :=
  match s with
  | [] => if prev then Some acc else None
  | c :: s' =>
      match digit_val c with
      | Some d => int_digits (10 * acc + d) true s'
      | None =>
          if Ascii.eqb c "_"%char && prev
          then int_digits acc false s'
          else None
      end
  end.

(** [int(s)] for a string: [None] stands for [ValueError]. Decimal digits
    outside ASCII are not modelled. *)
Definition int (s : string) : option Z :=
  match strip_l (list_ascii_of_string s) with
  | "+"%char :: r => int_digits 0 false r
  | "-"%char :: r => option_map Z.opp (int_digits 0 false r)
  | r => int_digits 0 false r
  end.

(** [x in (a, b, ...)] for strings. *)
Definition mem (x : string) (l : list string) : bool :=
  existsb (String.eqb x) l.

Definition nl : string := String (byte_of 10) EmptyString.

End PyStr.

(* ================================================================== *)
(** * [datetime.date]: parsing, printing, difference in days *)
(* ================================================================== *)

Module PyDate.

Record date := mkdate { year : Z; month : Z; day : Z }.

Definition is_leap (y : Z) : bool :=
  (y mod 4 =? 0) && (negb (y mod 100 =? 0) || (y mod 400 =? 0)).

Definition days_in_month (y m : Z) : Z :=
  if m =? 2 then (if is_leap y then 29 else 28)
  else if (m =? 4) || (m =? 6) || (m =? 9) || (m =? 11) then 30
  else 31.

Definition days_before_year (y : Z) : Z :=
  let p := y - 1 in p * 365 + p / 4 - p / 100 + p / 400.

Fixpoint days_before_month_n (y : Z) (m : nat) : Z :=
  match m with
  | O => 0
  | S k => days_before_month_n y k + days_in_month y (Z.of_nat (S k))
  end.

Definition days_before_month (y m : Z) : Z :=
  days_before_month_n y (Z.to_nat (m - 1)).

(** [d.toordinal()]: 1 for 0001-01-01. *)
Definition toordinal (d : date) : Z :=
  days_before_year (year d) + days_before_month (year d) (month d) + day d.

(** [(a - b).days] *)
Definition days_between (a b : date) : Z := toordinal a - toordinal b.

(** The check of the [date] constructor. *)
Definition valid (y m d : Z) : bool :=
  (1 <=? y) && (y <=? 9999) && (1 <=? m) && (m <=? 12)
  && (1 <=? d) && (d <=? days_in_month y m).

Definition dig (c : ascii) : option Z := PyStr.digit_val c.

Definition in_range (c : ascii) (lo hi : Z) : bool :=
  match dig c with
  | Some v => (lo <=? v) && (v <=? hi)
  | None => false
  end.

Definition num2 (a b : ascii) : Z :=
  match dig a, dig b with
  | Some x, Some y => 10 * x + y
  | _, _ => 0
  end.

Definition num1 (a : ascii) : Z :=
  match dig a with Some x => x | None => 0 end.

(** The directive [%d] at the end of the format: the alternatives
    [3[0-1] | [1-2]\d | 0[1-9] | [1-9] | " "[1-9]], and nothing after. *)
Definition parse_day (s : list ascii) : option Z :=
  match s with
  | [a; b] =>
      if (Ascii.eqb a "3" && in_range b 0 1)
         || (in_range a 1 2 && in_range b 0 9)
         || (Ascii.eqb a "0" && in_range b 1 9)
      then Some (num2 a b)
      else if Ascii.eqb a " " && in_range b 1 9 then Some (num1 b)
      else None
  | [a] => if in_range a 1 9 then Some (num1 a) else None
  | _ => None
  end.

(** The directive [%m] followed by the literal [-]: the alternatives
    [1[0-2] | 0[1-9] | [1-9]]. Returns the month and what follows the
    dash. *)
Definition parse_month (s : list ascii) : option (Z * list ascii) :=
  match s with
  | a :: b :: "-"%char :: r =>
      if (Ascii.eqb a "1" && in_range b 0 2)
         || (Ascii.eqb a "0" && in_range b 1 9)
      then Some (num2 a b, r)
      else None
  | a :: "-"%char :: r =>
      if in_range a 1 9 then Some (num1 a, r) else None
  | _ => None
  end.

(** [datetime.strptime(s, "%Y-%m-%d").date()]; [None] stands for
    [ValueError] (no match, trailing data, or an impossible date). *)
Definition strptime (s : string) : option date :=
  match list_ascii_of_string s with
  | y1 :: y2 :: y3 :: y4 :: "-"%char :: r =>
      if in_range y1 0 9 && in_range y2 0 9
         && in_range y3 0 9 && in_range y4 0 9
      then
        match parse_month r with
        | Some (m, r') =>
            match parse_day r' with
            | Some d =>
                let y := 100 * num2 y1 y2 + num2 y3 y4 in
                if valid y m d then Some (mkdate y m d) else None
            | None => None
            end
        | None => None
        end
      else None
  | _ => None
  end.

Definition digit_char (n : Z) : ascii := PyStr.byte_of (48 + n mod 10).

Definition pad2 (n : Z) : string :=
  String (digit_char (n / 10)) (String (digit_char n) EmptyString).

Definition pad4 (n : Z) : string :=
  (pad2 (n / 100) ++ pad2 (n mod 100))%string.

(** [d.strftime("%Y-%m-%d")], for the years 1000 to 9999 (today's
    date). *)
Definition strftime (d : date) : string :=
  (pad4 (year d) ++ "-" ++ pad2 (month d) ++ "-" ++ pad2 (day d))%string.

End PyDate.

(* ================================================================== *)
(** * Exceptions, observable events and the effect monad *)
(* ================================================================== *)

Module Eff.

(** The exception classes the code distinguishes. [OtherError] is any
    other subclass of [Exception] (for instance aiogram's
    [TelegramForbiddenError] or [TelegramNetworkError], or an
    [AttributeError]). *)
Inductive exn : Type :=
| TelegramBadRequest
| ValueError
| HTTPException (status_code : Z)
| OtherError.

Inductive result (A : Type) : Type :=
| Ret (a : A)
| Raise (e : exn).

Arguments Ret {A} a.
Arguments Raise {A} e.

Inductive level : Type := INFO | WARNING | ERROR.

(** One constructor per [logger] call of the notification core. *)
Inductive log_msg : Type :=
| ReminderStart
| ReminderSent (tg_id : Z) (discipline : string)
| ReminderSendFailed (tg_id : Z)
| ReminderDateFormat (exam_id : Z)
| ReminderUnknown
| MarkNoTelegram (student_id : Z)
| MarkSent (student_id : Z)
| MarkSendFailed (student_id : Z)
| MarkUnknown (student_id : Z)
| NotificationFailed (student_id : Z)
| FioReceived (fio : string) (user_id : Z)
| PromptDeleteFailed
| FioLookupFailed
| PwdReceived (user_id : Z)
| RegistrationDone (login : option string) (user_id : Z)
| RegistrationFailed.

(** What an observer of the process sees. [SendMessage] is recorded when
    [bot.send_message] has returned, that is for a delivered message. *)
Inductive event : Type :=
| SendMessage (chat_id : Z) (text : string)
| Sleep (seconds : Z)
| Answer (text : string) (back_button : bool)
| AnswerPhoto (first_name : string)
| DeleteMessage (chat_id message_id : Z)
| AnswerCallback
| Log (lvl : level) (msg : log_msg).

Definition M (S A : Type) : Type := S -> result A * S * list event.

Definition ret {S A} (a : A) : M S A := fun s => (Ret a, s, []).

Definition raise {S A} (e : exn) : M S A := fun s => (Raise e, s, []).

Definition bind {S A B} (m : M S A) (k : A -> M S B) : M S B :=
  fun s =>
    match m s with
    | (Ret a, s1, ev1) =>
        match k a s1 with
        | (r, s2, ev2) => (r, s2, ev1 ++ ev2)
        end
    | (Raise e, s1, ev1) => (Raise e, s1, ev1)
    end.

Definition emit {S} (e : event) : M S unit := fun s => (Ret tt, s, [e]).

Definition get {S} : M S S := fun s => (Ret s, s, []).

Definition put {S} (s : S) : M S unit := fun _ => (Ret tt, s, []).

Definition modify {S} (f : S -> S) : M S unit := fun s => (Ret tt, f s, []).

(** A result computed without effects, its exception raised in [M]. *)
Definition lift {S A} (r : result A) : M S A :=
  match r with
  | Ret a => ret a
  | Raise e => raise e
  end.

(** [try: m  except ...: h]. The handler answers [None] for an exception
    no [except] clause matches, which then propagates. What [m] did before
    raising stays done. *)
Definition try_except {S A} (m : M S A) (h : exn -> option (M S A))
  : M S A :=
  fun s =>
    match m s with
    | (Ret a, s1, ev1) => (Ret a, s1, ev1)
    | (Raise e, s1, ev1) =>
        match h e with
        | Some k =>
            match k s1 with
            | (r, s2, ev2) => (r, s2, ev1 ++ ev2)
            end
        | None => (Raise e, s1, ev1)
        end
    end.

(** [try: m  finally: f] *)
Definition try_finally {S A} (m : M S A) (f : M S unit) : M S A :=
  fun s =>
    match m s with
    | (r, s1, ev1) =>
        match f s1 with
        | (Ret _, s2, ev2) => (r, s2, ev1 ++ ev2)
        | (Raise e, s2, ev2) => (Raise e, s2, ev1 ++ ev2)
        end
    end.

Definition log {S} (lvl : level) (msg : log_msg) : M S unit :=
  emit (Log lvl msg).

(** [await asyncio.sleep(n)] *)
Definition sleep {S} (n : Z) : M S unit := emit (Sleep n).

(** [for x in xs: body x] *)
Fixpoint for_each {S X} (xs : list X) (body : X -> M S unit) : M S unit :=
  match xs with
  | [] => ret tt
  | x :: xs' => bind (body x) (fun _ => for_each xs' body)
  end.

(** [except TelegramBadRequest: k] *)
Definition except_bad_request {S A} (k : M S A) : exn -> option (M S A) :=
  fun e => match e with TelegramBadRequest => Some k | _ => None end.

(** [except Exception: k] *)
Definition except_exception {S A} (k : M S A) : exn -> option (M S A) :=
  fun _ => Some k.

(** [except ValueError: k1  except Exception: k2] *)
Definition except_value_error_then {S A} (k1 k2 : M S A)
  : exn -> option (M S A) :=
  fun e => match e with ValueError => Some k1 | _ => Some k2 end.

(** [except TelegramBadRequest: k1  except Exception: k2] *)
Definition except_bad_request_then {S A} (k1 k2 : M S A)
  : exn -> option (M S A) :=
  fun e => match e with TelegramBadRequest => Some k1 | _ => Some k2 end.

Definition outcome {S A} (x : result A * S * list event) : result A :=
  fst (fst x).

Definition final {S A} (x : result A * S * list event) : S :=
  snd (fst x).

Definition events {S A} (x : result A * S * list event) : list event :=
  snd x.

(** The delivered messages of a trace, in order. *)
Fixpoint sent_messages (ev : list event) : list (Z * string) :=
  match ev with
  | [] => []
  | SendMessage c t :: ev' => (c, t) :: sent_messages ev'
  | _ :: ev' => sent_messages ev'
  end.

Definition is_failure_log (e : event) : bool :=
  match e with
  | Log WARNING _ | Log ERROR _ => true
  | _ => false
  end.

(** The failures a trace logs (warnings and errors), in order. *)
Definition logged_failures (ev : list event) : list event :=
  filter is_failure_log ev.

End Eff.

Import Eff.

Declare Scope eff_scope.
Delimit Scope eff_scope with eff.
Notation "x <- m ;; k" := (bind m (fun x => k))
  (at level 61, m at next level, right associativity) : eff_scope.
Notation "m ;; k" := (bind m (fun _ => k))
  (at level 61, right associativity) : eff_scope.
Local Open Scope eff_scope.

(* ================================================================== *)
(** * The tables ([app/models]) *)
(* ================================================================== *)

(** Columns no modelled function reads are left out. A nullable column is an
    [option]. *)

Module Curator.
Record t := mk
  { id : Z; login : string; password : string;
    first_name : string; last_name : string; patronymic : string }.
End Curator.

Module Group.
Record t := mk { id : Z; name : string; curator_id : Z }.
End Group.

Module Telegram.
Record t := mk { id : Z; telegram_id : Z }.
End Telegram.

Module Student.
Record t := mk
  { id : Z; login : option string; password : option string;
    first_name : string; last_name : string; patronymic : string;
    group_id : Z; telegram_id : option Z; verif : bool }.
End Student.

Module Exam.
Record t := mk
  { id : Z; type : string; semester : Z; course : Z;
    discipline : string; holding_date : string; link : option string;
    group_id : Z; curator_id : Z }.
End Exam.

Module Mark.
Record t := mk { mark : option Z; exam_id : Z; student_id : Z }.
End Mark.

Module DB.
Record t := mk
  { curators : list Curator.t;
    groups : list Group.t;
    telegrams : list Telegram.t;
    students : list Student.t;
    exams : list Exam.t;
    marks : list Mark.t }.

(** [result.scalars().first()] *)
Definition first {A} (rows : list A) : option A := hd_error rows.

(** [result.scalar_one_or_none()]. More than one row is
    [MultipleResultsFound], a [SQLAlchemyError], which every caller below
    turns into [HTTPException(500)]. *)
Definition scalar_one_or_none {A} (rows : list A) : result (option A) :=
  match rows with
  | [] => Ret None
  | [x] => Ret (Some x)
  | _ => Raise (HTTPException 500)
  end.

(** [x == y] on a nullable column: NULL equals nothing. *)
Definition eq_opt (x : option Z) (y : Z) : bool :=
  match x with Some v => v =? y | None => false end.

(** A many-to-one relationship attribute ([exam.curator],
    [student.telegram]): the referenced row, or [None]. *)
Definition curator_of (db : t) (e : Exam.t) : option Curator.t :=
  find (fun c => Curator.id c =? Exam.curator_id e) (curators db).

Definition group_of (db : t) (e : Exam.t) : option Group.t :=
  find (fun g => Group.id g =? Exam.group_id e) (groups db).

Definition telegram_of (db : t) (s : Student.t) : option Telegram.t :=
  match Student.telegram_id s with
  | Some k => find (fun x => Telegram.id x =? k) (telegrams db)
  | None => None
  end.

(** The primary keys are keys. *)
Definition no_dup_ids (ids : list Z) : bool :=
  (fix go (l : list Z) : bool :=
     match l with
     | [] => true
     | x :: l' => negb (existsb (Z.eqb x) l') && go l'
     end) ids.

End DB.

(* ================================================================== *)
(** * Roles and the verified caller ([app/utils/roles.py]) *)
(* ================================================================== *)

Module Role.
Definition ADMIN : string := "admin".
Definition CURATOR : string := "curator".
Definition STUDENT : string := "student".
End Role.

(** The dictionary [get_current_user] returns: the claims of the token,
    [{"sub": login, "role": role, "id": id}]. [current_user.get("id")] is
    [None] when the token carries no id. *)
Module CurrentUser.
Record t := mk { sub : string; role : string; id : option Z }.

(** [current_user.get("role") == Role.CURATOR] *)
Definition is_curator (u : t) : bool := String.eqb (role u) Role.CURATOR.

(** [column == current_user.get("id")]: comparing with [None] selects the
    rows where the column is NULL, and these columns are not nullable. *)
Definition owns (u : t) (owner : Z) : bool :=
  match id u with Some i => owner =? i | None => false end.
End CurrentUser.

(* ================================================================== *)
(** * [app/services/exam.py] *)
(* ================================================================== *)

Module ExamService.

(** [ExamService.get_telegram_ids_by_exam_id], the Recipient Resolver.
    The join [Telegram JOIN Student ON Student.telegram_id = Telegram.id]
    is read as a nested loop; SQL fixes no order. *)
Definition get_telegram_ids_by_exam_id (exam_id : Z) (db : DB.t)
  : result (list Z) :=
  match DB.scalar_one_or_none
          (filter (fun e => Exam.id e =? exam_id) (DB.exams db)) with
  | Raise e => Raise e
  | Ret None => Raise (HTTPException 404)
  | Ret (Some exam) =>
      Ret (flat_map
             (fun tg =>
                flat_map
                  (fun s =>
                     if DB.eq_opt (Student.telegram_id s) (Telegram.id tg)
                        && (Student.group_id s =? Exam.group_id exam)
                        && (match Student.telegram_id s with
                            | Some _ => true
                            | None => false
                            end)
                     then [Telegram.telegram_id tg]
                     else [])
                  (DB.students db))
             (DB.telegrams db))
  end.

(** [ExamService.get_exam_details] *)
Definition get_exam_details (exam_id : Z) (db : DB.t)
  : result (option Exam.t) :=
  DB.scalar_one_or_none
    (filter (fun e => Exam.id e =? exam_id) (DB.exams db)).

(** The statement [get_all_exams] executes: the exams of the asked type,
    and for a curator only those whose [curator_id] is the caller's id. *)
Definition select_exams (db : DB.t) (exam_type : string)
           (current_user : CurrentUser.t) : list Exam.t :=
  let stmt := filter (fun e => String.eqb (Exam.type e) exam_type)
                     (DB.exams db) in
  if CurrentUser.is_curator current_user
  then filter (fun e => CurrentUser.owns current_user (Exam.curator_id e))
              stmt
  else stmt.

Record exam_dict := mk_exam_dict
  { d_id : Z; d_type : string; d_semester : Z; d_course : Z;
    d_discipline : string; d_holding_date : string;
    d_link : option string; d_group_name : option string;
    d_group_id : Z; d_curator_full_name : option string }.

Definition to_dict (db : DB.t) (exam : Exam.t) : exam_dict :=
  mk_exam_dict
    (Exam.id exam) (Exam.type exam) (Exam.semester exam) (Exam.course exam)
    (Exam.discipline exam) (Exam.holding_date exam) (Exam.link exam)
    (option_map Group.name (DB.group_of db exam))
    (Exam.group_id exam)
    (option_map
       (fun c => (Curator.last_name c ++ " " ++ Curator.first_name c)%string)
       (DB.curator_of db exam)).

(** [ExamService.get_all_exams] *)
Definition get_all_exams (db : DB.t) (exam_type : string)
           (current_user : CurrentUser.t) : list exam_dict :=
  map (to_dict db) (select_exams db exam_type current_user).

End ExamService.

(* ================================================================== *)
(** * [app/services/group.py] *)
(* ================================================================== *)

Module GroupService.

Record group_dict := mk_group_dict
  { group_id : Z; name : string; curator_id : Z; students_count : Z }.

(** [GroupService.get_all_groups]: one row per group with the number of
    its students (outer join, grouped by the group's key). *)
Definition get_all_groups (db : DB.t) (current_user : CurrentUser.t)
  : list group_dict :=
  let counted g :=
    mk_group_dict
      (Group.id g) (Group.name g) (Group.curator_id g)
      (Z.of_nat (List.length
         (filter (fun s => Student.group_id s =? Group.id g)
                 (DB.students db)))) in
  if CurrentUser.is_curator current_user
  then map counted
           (filter (fun g => CurrentUser.owns current_user
                               (Group.curator_id g))
                   (DB.groups db))
  else map counted (DB.groups db).

End GroupService.

(* ================================================================== *)
(** * [app/services/student.py], [app/services/curator.py] *)
(* ================================================================== *)

(** The next value of a table's key sequence. *)
Definition next_id (ids : list Z) : Z := 1 + fold_right Z.max 0 ids.

Module StudentService.

Section WithCollaborators.

(** [column.ilike(pattern)] of the database, and [hash_password] of
    [app/utils/security.py]. *)
Variable ilike : string -> string -> bool.
Variable hash_password : string -> string.

(** [StudentService.get_student_by_fio] *)
Definition get_student_by_fio
           (first_name last_name patronymic : string) (db : DB.t)
  : result Student.t :=
  match DB.first
          (filter
             (fun s => ilike (Student.first_name s) first_name
                       && ilike (Student.last_name s) last_name
                       && ilike (Student.patronymic s) patronymic)
             (DB.students db)) with
  | Some student => Ret student
  | None => Raise (HTTPException 404)
  end.

(** [StudentService.get_all_students]: for a curator the students are
    joined with their group and kept when the caller owns it. *)
Definition get_all_students (db : DB.t) (current_user : CurrentUser.t)
  : list Student.t :=
  if CurrentUser.is_curator current_user
  then flat_map
         (fun s =>
            flat_map
              (fun g =>
                 if (Group.id g =? Student.group_id s)
                    && CurrentUser.owns current_user (Group.curator_id g)
                 then [s] else [])
              (DB.groups db))
         (DB.students db)
  else DB.students db.

(** [StudentService.get_students_by_group_id]: every student of the
    group with the mark for [exam_id] (or the first mark when no exam is
    given). The caller is not an argument. *)
Definition get_students_by_group_id
           (group_id : Z) (db : DB.t) (exam_id : option Z)
  : result (list (Student.t * option Z)) :=
  match DB.first (filter (fun g => Group.id g =? group_id)
                         (DB.groups db)) with
  | None => Raise (HTTPException 404)
  | Some group =>
      Ret (map
             (fun s =>
                let marks :=
                  filter (fun m => Mark.student_id m =? Student.id s)
                         (DB.marks db) in
                let grade :=
                  match exam_id with
                  | Some x =>
                      match find (fun m => Mark.exam_id m =? x) marks with
                      | Some m => Mark.mark m
                      | None => None
                      end
                  | None =>
                      match marks with
                      | m :: _ => Mark.mark m
                      | [] => None
                      end
                  end in
                (s, grade))
             (filter (fun s => Student.group_id s =? Group.id group)
                     (DB.students db)))
  end.

(** The Telegram row for a chat identifier: the existing one, else a new
    row, flushed so that it has its key. *)
Definition bind_telegram (telegram_id : Z) (db : DB.t)
  : Telegram.t * list Telegram.t :=
  match DB.first (filter (fun x => Telegram.telegram_id x =? telegram_id)
                         (DB.telegrams db)) with
  | Some telegram => (telegram, DB.telegrams db)
  | None =>
      let telegram :=
        Telegram.mk (next_id (map Telegram.id (DB.telegrams db)))
                    telegram_id in
      (telegram, DB.telegrams db ++ [telegram])
  end.

(** [StudentService.set_student_password_and_telegram] *)
Definition set_student_password_and_telegram
           (student_id : Z) (password : string) (telegram_id : Z)
           (db : DB.t) : result (Student.t * DB.t) :=
  match find (fun s => Student.id s =? student_id) (DB.students db) with
  | None => Raise (HTTPException 404)
  | Some student =>
      let '(telegram, telegrams) := bind_telegram telegram_id db in
      let student' :=
        Student.mk (Student.id student) (Student.login student)
                   (Some (hash_password password))
                   (Student.first_name student)
                   (Student.last_name student)
                   (Student.patronymic student)
                   (Student.group_id student)
                   (Some (Telegram.id telegram))
                   true in
      Ret (student',
           DB.mk (DB.curators db) (DB.groups db) telegrams
                 (map (fun s => if Student.id s =? student_id
                                then student' else s)
                      (DB.students db))
                 (DB.exams db) (DB.marks db))
  end.

End WithCollaborators.

End StudentService.

Module CuratorService.

Section WithCollaborators.

Variable ilike : string -> string -> bool.
Variable hash_password : string -> string.

(** [CuratorService.get_curator_by_fio] *)
Definition get_curator_by_fio
           (first_name last_name patronymic : string) (db : DB.t)
  : result Curator.t :=
  match DB.first
          (filter
             (fun c => ilike (Curator.first_name c) first_name
                       && ilike (Curator.last_name c) last_name
                       && ilike (Curator.patronymic c) patronymic)
             (DB.curators db)) with
  | Some curator => Ret curator
  | None => Raise (HTTPException 404)
  end.

(** [CuratorService.set_curator_password_and_telegram]. The curator
    table has no [telegram_id] column: the assignment
    [curator.telegram_id = telegram.id] sets a plain attribute of the
    object, and only the password and the Telegram row are stored. *)
Definition set_curator_password_and_telegram
           (curator_id : Z) (password : string) (telegram_id : Z)
           (db : DB.t) : result (Curator.t * DB.t) :=
  match find (fun c => Curator.id c =? curator_id) (DB.curators db) with
  | None => Raise (HTTPException 404)
  | Some curator =>
      let '(_, telegrams) :=
        StudentService.bind_telegram telegram_id db in
      let curator' :=
        Curator.mk (Curator.id curator) (Curator.login curator)
                   (hash_password password)
                   (Curator.first_name curator)
                   (Curator.last_name curator)
                   (Curator.patronymic curator) in
      Ret (curator',
           DB.mk (map (fun c => if Curator.id c =? curator_id
                                then curator' else c)
                      (DB.curators db))
                 (DB.groups db) telegrams (DB.students db)
                 (DB.exams db) (DB.marks db))
  end.

End WithCollaborators.

End CuratorService.

(* ================================================================== *)
(** * [app/utils/bot.py]: notifications *)
(* ================================================================== *)

(** [str(n)] for an integer. *)
Definition str_of_Z (n : Z) : string :=
  DecimalString.NilZero.string_of_int (Z.to_int n).

Module Bot.

Section WithTransport.

(** The messaging transport: [bot.send_message(chat_id, text)] either
    returns or raises, and may depend on, and change, a state [T] of the
    outside world (who blocked the bot, the rate limiter, the
    network). *)
Variable T : Type.
Variable send_message : T -> Z -> string -> result unit * T.

(** [await bot.send_message(chat_id=..., text=...)] *)
Definition bot_send_message (chat_id : Z) (text : string) : M T unit :=
  fun t =>
    match send_message t chat_id text with
    | (Ret _, t') => (Ret tt, t', [SendMessage chat_id text])
    | (Raise e, t') => (Raise e, t', [])
    end.

(** [f"{c.last_name} {c.first_name} {c.patronymic or ''}".strip()] *)
Definition curator_fio (c : Curator.t) : string :=
  PyStr.strip (Curator.last_name c ++ " " ++ Curator.first_name c
               ++ " " ++ Curator.patronymic c)%string.

(** ["Экзамен" if exam.type.lower() == "exam" else "Зачёт"] *)
Definition exam_type_text (exam : Exam.t) : string :=
  if String.eqb (PyStr.lower (Exam.type exam)) "exam"
  then "Экзамен" else "Зачёт".

(** ["завтра" if days_left == 1 else "через 3 дня"] *)
Definition when_text (days_left : Z) : string :=
  if days_left =? 1 then "завтра" else "через 3 дня".

(** The text of a reminder (lines 100-103). *)
Definition reminder_text
           (exam_type discipline when holding_date fio : string)
  : string :=
  ("⏰ Напоминание" ++ PyStr.nl
   ++ "📚 " ++ exam_type ++ " по <b>" ++ discipline ++ "</b> "
   ++ when ++ "!" ++ PyStr.nl
   ++ "📅 Дата: " ++ holding_date ++ PyStr.nl
   ++ "👨‍🏫 Преподаватель: " ++ fio)%string.

(** One turn of the loop over the recipients (lines 97-108): only
    [TelegramBadRequest] is caught per recipient. *)
Definition send_reminder (text discipline : string) (tg_id : Z)
  : M T unit :=
  try_except
    (bot_send_message tg_id text ;;
     log INFO (ReminderSent tg_id discipline) ;;
     sleep 10)
    (except_bad_request (log WARNING (ReminderSendFailed tg_id))).

(** The loop over the recipients of one exam (lines 96-108). *)
Definition send_reminder_loop
           (telegram_ids : list Z) (text discipline : string)
  : M T unit :=
  for_each telegram_ids (send_reminder text discipline).

(** The body of the [try] for one exam (lines 86-108). *)
Definition remind_exam (db : DB.t) (today : PyDate.date) (exam : Exam.t)
  : M T unit :=
  match PyDate.strptime (Exam.holding_date exam) with
  | None => raise ValueError
  | Some exam_date =>
      match DB.curator_of db exam with
      | None => raise OtherError
      | Some curator =>
          let fio := curator_fio curator in
          let days_left := PyDate.days_between exam_date today in
          if (days_left =? 1) || (days_left =? 3)
          then
            telegram_ids <-
              lift (ExamService.get_telegram_ids_by_exam_id
                      (Exam.id exam) db) ;;
            send_reminder_loop telegram_ids
              (reminder_text (exam_type_text exam) (Exam.discipline exam)
                             (when_text days_left)
                             (Exam.holding_date exam) fio)
              (Exam.discipline exam)
          else ret tt
      end
  end.

(** One turn of the loop over the exams (lines 84-112). *)
Definition scan_exam (db : DB.t) (today : PyDate.date) (exam : Exam.t)
  : M T unit :=
  try_except
    (remind_exam db today exam)
    (except_value_error_then
       (log ERROR (ReminderDateFormat (Exam.id exam)))
       (log ERROR ReminderUnknown)).

(** The exams the scan fetches:
    [Exam.holding_date >= today.strftime("%Y-%m-%d")], a comparison of
    strings, read here byte by byte. *)
Definition fetch_exams (db : DB.t) (today : PyDate.date) : list Exam.t :=
  filter (fun e => String.leb (PyDate.strftime today)
                              (Exam.holding_date e))
         (DB.exams db).

(** [send_exam_reminders], with the database and the day of the scan. *)
Definition send_exam_reminders (db : DB.t) (today : PyDate.date)
  : M T unit :=
  try_except
    (log INFO ReminderStart ;;
     for_each (fetch_exams db today) (scan_exam db today))
    (except_exception (log ERROR ReminderUnknown)).

(** [str(mark) if mark is not None else "н/а"] *)
Definition mark_text (mark : option Z) : string :=
  match mark with Some m => str_of_Z m | None => "н/а" end.

Definition mark_message (exam_name : string) (mark : option Z) : string :=
  ("🎓 Ваша оценка по предмету <b>" ++ exam_name ++ "</b> обновлена:"
   ++ PyStr.nl ++ "⭐ Оценка: <b>" ++ mark_text mark ++ "</b>")%string.

(** The chat identifier [notify_student_mark] writes to:
    [student.telegram.telegram_id], when the student, the binding and a
    non-zero identifier are all there. *)
Definition mark_recipient (db : DB.t) (student_id : Z) : option Z :=
  match DB.first (filter (fun s => Student.id s =? student_id)
                         (DB.students db)) with
  | None => None
  | Some student =>
      match DB.telegram_of db student with
      | None => None
      | Some tg =>
          if Telegram.telegram_id tg =? 0 then None
          else Some (Telegram.telegram_id tg)
      end
  end.

(** [notify_student_mark] *)
Definition notify_student_mark
           (db : DB.t) (student_id : Z) (exam_name : string)
           (mark : option Z) : M T unit :=
  try_except
    (match mark_recipient db student_id with
     | None => log WARNING (MarkNoTelegram student_id)
     | Some tg_id =>
         bot_send_message tg_id (mark_message exam_name mark) ;;
         log INFO (MarkSent student_id)
     end)
    (except_bad_request_then
       (log WARNING (MarkSendFailed student_id))
       (log ERROR (MarkUnknown student_id))).

End WithTransport.

End Bot.

(* ================================================================== *)
(** * [app/utils/bot.py]: the registration conversation *)
(* ================================================================== *)

Module User.
Record t := mk { id : Z; first_name : string }.
End User.

Module Message.
(** A text message: [from_user] is its sender, [chat_id] is
    [message.chat.id]. *)
Record t := mk { from_user : User.t; chat_id : Z; text : string }.
End Message.

Module CallbackQuery.
(** [from_user] is who pressed the button, [message] the message that
    carries the button. *)
Record t := mk { from_user : User.t; message : Message.t; data : string }.
End CallbackQuery.

Module Registration.

(** [class RegistrationStates(StatesGroup)] *)
Inductive RegistrationStates : Type :=
| choosing_role | fio | pwd | user_id | fio_prompt_msg_id
| login | password | start_data.

(** The data a conversation keeps ([state.update_data], [state.get_data]):
    the keys the handlers write. *)
Record data := mk_data
  { d_role : option string;
    d_fio_prompt_msg_id : option Z;
    d_fio : option string;
    d_user_id : option Z }.

Definition no_data : data := mk_data None None None None.

(** What a handler of one conversation works on: the conversation's
    [FSMContext] (state and data), the database, and the identifier the
    platform gives to the next message the bot sends. *)
Record world := mk_world
  { state : option RegistrationStates;
    fsm_data : data;
    db : DB.t;
    next_message_id : Z }.

(** [await state.clear()] *)
Definition state_clear : M world unit :=
  modify (fun w => mk_world None no_data (db w) (next_message_id w)).

(** [await state.set_state(s)] *)
Definition set_state (s : RegistrationStates) : M world unit :=
  modify (fun w => mk_world (Some s) (fsm_data w) (db w)
                            (next_message_id w)).

(** [await state.update_data(...)] *)
Definition update_data (f : data -> data) : M world unit :=
  modify (fun w => mk_world (state w) (f (fsm_data w)) (db w)
                            (next_message_id w)).

(** [await state.get_data()] *)
Definition get_data : M world data :=
  w <- get ;; ret (fsm_data w).

Definition set_db (d : DB.t) : M world unit :=
  modify (fun w => mk_world (state w) (fsm_data w) d (next_message_id w)).

(** [await message.answer(text, reply_markup=...)]: the sent message's
    identifier is returned. The replies of the handlers are assumed to be
    delivered. *)
Definition answer (text : string) (back_button : bool) : M world Z :=
  fun w =>
    (Ret (next_message_id w),
     mk_world (state w) (fsm_data w) (db w) (next_message_id w + 1),
     [Answer text back_button]).

Definition answer_photo (first_name : string) : M world Z :=
  fun w =>
    (Ret (next_message_id w),
     mk_world (state w) (fsm_data w) (db w) (next_message_id w + 1),
     [AnswerPhoto first_name]).

Definition already_registered_text : string :=
  "✅ Вы уже зарегистрированы!".

Definition fio_prompt_text : string :=
  "✍️ Введите своё ФИО (например: Иванов Иван Иванович)".

Definition fio_invalid_text : string :=
  ("<b>❌ ФИО набрано неверно</b>. Пожалуйста, попробуйте написать снова."
   ++ PyStr.nl ++ PyStr.nl
   ++ "<b>❓ Что не так?</b>" ++ PyStr.nl
   ++ "Убедитесь, что вы ввели ваше полное имя в правильном формате."
   ++ PyStr.nl ++ PyStr.nl
   ++ "Например:" ++ PyStr.nl
   ++ "Иванов Иван Иванович" ++ PyStr.nl ++ PyStr.nl
   ++ "💡 <b>Пожалуйста</b>, вводите данные без ошибок, <b>чтобы регистрация прошла успешно!</b>")%string.

Definition pwd_prompt_text : string :=
  "🔐 Введите пароль (минимум 4 символа):".

Definition not_found_text : string :=
  "❌ Студент не найден. Проверьте ФИО и попробуйте снова.".

Definition pwd_short_text : string :=
  "⚠️ Пароль должен содержать не менее 4 символов.".

Definition registration_failed_text : string :=
  "❌ Не удалось завершить регистрацию. Попробуйте позже.".

(** [str(login)] inside the f-string. *)
Definition login_text (l : option string) : string :=
  match l with Some s => s | None => "None" end.

Definition registration_done_text (l : option string) (pw : string)
  : string :=
  ("🌟 Регистрация прошла успешно! 🌟/" ++ PyStr.nl ++ PyStr.nl
   ++ "Мы зарегистрировали вас в системе. Вот ваши данные:" ++ PyStr.nl
   ++ "Ваш логин: <b>" ++ login_text l ++ "</b>" ++ PyStr.nl
   ++ "Ваш пароль: <tg-spoiler>" ++ pw ++ "</tg-spoiler>")%string.

(** [data.get("role") == r] *)
Definition role_is (role : option string) (r : string) : bool :=
  match role with
  | Some x => String.eqb x r
  | None => false
  end.

(** [validate_fio] *)
Definition validate_fio (fio : string) : bool :=
  Nat.eqb (List.length (PyStr.split fio)) 3.

Section WithCollaborators.

Variable ilike : string -> string -> bool.
Variable hash_password : string -> string.

(** [message.bot.delete_message(chat_id, message_id)], which the
    platform may refuse. *)
Variable delete_message : Z -> Z -> result unit.

(** [send_welcome_photo(user, state)] *)
Definition send_welcome_photo (user : Message.t) : M world unit :=
  state_clear ;;
  w <- get ;;
  let telegram_id := User.id (Message.from_user user) in
  let all_tg_ids := map Telegram.telegram_id (DB.telegrams (db w)) in
  if existsb (Z.eqb telegram_id) all_tg_ids
  then
    answer already_registered_text false ;;
    ret tt
  else
    answer_photo (User.first_name (Message.from_user user)) ;;
    set_state choosing_role.

(** [start_command], the handler of [/start]. *)
Definition start_command (message : Message.t) : M world unit :=
  send_welcome_photo message.

(** [menu_handler], the handler of the callback [menu]: the welcome is
    computed from [callback.message]. *)
Definition menu_handler (callback : CallbackQuery.t) : M world unit :=
  send_welcome_photo (CallbackQuery.message callback) ;;
  emit AnswerCallback.

(** [choose_role], the handler of the callbacks [role_...]. *)
Definition choose_role (callback : CallbackQuery.t) : M world unit :=
  let role := nth 1 (PyStr.split_on "_"%char (CallbackQuery.data callback))
                  "" in
  update_data (fun d => mk_data (Some role) (d_fio_prompt_msg_id d)
                                (d_fio d) (d_user_id d)) ;;
  set_state fio ;;
  msg_id <- answer fio_prompt_text false ;;
  update_data (fun d => mk_data (d_role d) (Some msg_id)
                                (d_fio d) (d_user_id d)) ;;
  emit AnswerCallback.

(** The lookup of [fio_handler] (lines 340-343): the principal of the
    chosen role with that full name; its [id]. *)
Definition find_user_id (role : option string) (split_fio : list string)
           (d : DB.t) : result Z :=
  let first_name := nth 1 split_fio "" in
  let last_name := nth 0 split_fio "" in
  let patronymic := nth 2 split_fio "" in
  if role_is role "student"
  then
    match StudentService.get_student_by_fio
            ilike first_name last_name patronymic d with
    | Ret user => Ret (Student.id user)
    | Raise e => Raise e
    end
  else
    match CuratorService.get_curator_by_fio
            ilike first_name last_name patronymic d with
    | Ret user => Ret (Curator.id user)
    | Raise e => Raise e
    end.

(** [fio_handler], the handler of a message in state [fio]. *)
Definition fio_handler (message : Message.t) : M world unit :=
  let fio_input := PyStr.strip (Message.text message) in
  log INFO (FioReceived fio_input (User.id (Message.from_user message))) ;;
  if negb (validate_fio fio_input)
  then
    answer fio_invalid_text true ;;
    ret tt
  else
    let split_fio := PyStr.split fio_input in
    update_data (fun d => mk_data (d_role d) (d_fio_prompt_msg_id d)
                                  (Some (PyStr.lower fio_input))
                                  (d_user_id d)) ;;
    data <- get_data ;;
    match d_fio_prompt_msg_id data with
    | Some prompt_msg_id =>
        if prompt_msg_id =? 0 then ret tt
        else
          try_except
            (lift (delete_message (Message.chat_id message)
                                  prompt_msg_id) ;;
             emit (DeleteMessage (Message.chat_id message)
                                 prompt_msg_id))
            (except_exception (log WARNING PromptDeleteFailed))
    | None => ret tt
    end ;;
    try_except
      (w <- get ;;
       uid <- lift (find_user_id (d_role data) split_fio (db w)) ;;
       update_data (fun d => mk_data (d_role d) (d_fio_prompt_msg_id d)
                                     (d_fio d) (Some uid)) ;;
       set_state pwd ;;
       answer pwd_prompt_text false ;;
       ret tt)
      (except_exception
         (log ERROR FioLookupFailed ;;
          answer not_found_text false ;;
          ret tt)).

(** The service call of [pwd_handler] (lines 377-392): the password and
    the chat identifier are stored; the principal's login. A missing
    [user_id] in the data finds nobody. *)
Definition register (role : option string) (uid : option Z)
           (pw : string) (telegram_id : Z) (d : DB.t)
  : result (option string * DB.t) :=
  match uid with
  | None => Raise (HTTPException 404)
  | Some i =>
      if role_is role "student"
      then
        match StudentService.set_student_password_and_telegram
                hash_password i pw telegram_id d with
        | Ret (student, d') => Ret (Student.login student, d')
        | Raise e => Raise e
        end
      else
        match CuratorService.set_curator_password_and_telegram
                hash_password i pw telegram_id d with
        | Ret (curator, d') => Ret (Some (Curator.login curator), d')
        | Raise e => Raise e
        end
  end.

(** [pwd_handler], the handler of a message in state [pwd]. *)
Definition pwd_handler (message : Message.t) : M world unit :=
  let pw := PyStr.strip (Message.text message) in
  let from_id := User.id (Message.from_user message) in
  log INFO (PwdReceived from_id) ;;
  if PyStr.len pw <? 4
  then
    answer pwd_short_text false ;;
    ret tt
  else
    data <- get_data ;;
    try_finally
      (try_except
         (w <- get ;;
          r <- lift (register (d_role data) (d_user_id data) pw from_id
                              (db w)) ;;
          set_db (snd r) ;;
          answer (registration_done_text (fst r) pw) false ;;
          log INFO (RegistrationDone (fst r) from_id))
         (except_exception
            (log ERROR RegistrationFailed ;;
             answer registration_failed_text false ;;
             ret tt)))
      state_clear.

End WithCollaborators.

End Registration.

(* ================================================================== *)
(** * [app/services/mark.py] *)
(* ================================================================== *)

Module MarkService.

(** [MarkUpdateItem]; the service itself takes any object, so [mark] may
    be [None]. *)
Record MarkUpdateItem := mk_item
  { student_id : Z; exam_id : Z; mark : option string }.

(** [MarkImportSchema] *)
Record MarkImportSchema := mk_entry
  { id : Z; last_fist_name : string; entry_mark : option string }.

(** A notification handed to [send_notifications_with_delay]:
    [(student_id, exam_name, mark)]. *)
Definition notification : Type := (Z * string * option Z)%type.

(** The session of one request. The factory is built with
    [autoflush=False]: a [SELECT] sees the rows of the table, with the
    attribute values the session has assigned to them, and does not see
    the objects passed to [db.add] until [commit]. *)
Record session := mk_session
  { rows : list Mark.t; pending : list Mark.t }.

Definition open_session (db : DB.t) : session :=
  mk_session (DB.marks db) [].

(** [await db.commit()] *)
Definition commit (db : DB.t) (s : session) : DB.t :=
  DB.mk (DB.curators db) (DB.groups db) (DB.telegrams db)
        (DB.students db) (DB.exams db) (rows s ++ pending s).

Definition same_pair (sid eid : Z) (m : Mark.t) : bool :=
  (Mark.student_id m =? sid) && (Mark.exam_id m =? eid).

(** [select(Mark).where(student_id == .., exam_id == ..)] then
    [.scalars().first()] *)
Definition existing_mark (s : session) (sid eid : Z) : option Mark.t :=
  DB.first (filter (same_pair sid eid) (rows s)).

(** [existing_mark.mark = v]: the assignment to the object [first]
    returned, the first row of the pair. *)
Fixpoint assign_first (sid eid : Z) (v : option Z) (l : list Mark.t)
  : list Mark.t :=
  match l with
  | [] => []
  | m :: l' =>
      if same_pair sid eid m
      then Mark.mk v (Mark.exam_id m) (Mark.student_id m) :: l'
      else m :: assign_first sid eid v l'
  end.

(** [a != b] on marks, either of which may be [None]. *)
Definition mark_neq (a b : option Z) : bool :=
  match a, b with
  | Some x, Some y => negb (x =? y)
  | None, None => false
  | _, _ => true
  end.

(** The value of a submitted mark in [batch_update_marks] (lines 66-78):
    [None] for an absent or "not graded" mark, else the integer, which
    must lie between 0 and 5. *)
Definition parse_mark (raw_mark : option string) : result (option Z) :=
  match raw_mark with
  | None => Ret None
  | Some s =>
      if PyStr.mem (PyStr.lower s) ["н/а"; "нет"; ""]
      then Ret None
      else
        match PyStr.int s with
        | Some m =>
            if (m <? 0) || (m >? 5)
            then Raise (HTTPException 400)
            else Ret (Some m)
        | None => Raise (HTTPException 400)
        end
  end.

Record batch := mk_batch
  { sess : session; updated_count : Z; notifications : list notification }.

(** [exam.discipline if exam else "Экзамен"] *)
Definition exam_name_of (exam : option Exam.t) : string :=
  match exam with
  | Some e => Exam.discipline e
  | None => "Экзамен"
  end.

(** One turn of the loop of [batch_update_marks] (lines 55-100). *)
Definition update_one (db : DB.t) (b : batch) (item : MarkUpdateItem)
  : result batch :=
  if (student_id item =? 0) || (exam_id item =? 0)
  then Raise (HTTPException 400)
  else
    match parse_mark (mark item) with
    | Raise e => Raise e
    | Ret v =>
        match ExamService.get_exam_details (exam_id item) db with
        | Raise e => Raise e
        | Ret exam =>
            let exam_name := exam_name_of exam in
            match existing_mark (sess b) (student_id item) (exam_id item)
            with
            | Some existing =>
                if mark_neq (Mark.mark existing) v
                then
                  Ret (mk_batch
                         (mk_session
                            (assign_first (student_id item) (exam_id item)
                                          v (rows (sess b)))
                            (pending (sess b)))
                         (updated_count b + 1)
                         (notifications b
                          ++ [(student_id item, exam_name, v)]))
                else Ret b
            | None =>
                Ret (mk_batch
                       (mk_session
                          (rows (sess b))
                          (pending (sess b)
                           ++ [Mark.mk v (exam_id item) (student_id item)]))
                       (updated_count b + 1)
                       (notifications b
                        ++ [(student_id item, exam_name, v)]))
            end
        end
    end.

(** The loop [for item in marks_data]. *)
Fixpoint update_all (db : DB.t) (b : batch) (items : list MarkUpdateItem)
  : result batch :=
  match items with
  | [] => Ret b
  | item :: items' =>
      match update_one db b item with
      | Ret b' => update_all db b' items'
      | Raise e => Raise e
      end
  end.

Record batch_result := mk_result
  { count : Z;                      (* the returned [updated_count] *)
    enqueued : list notification;   (* the argument of the created task *)
    committed : DB.t }.             (* the database after [commit] *)

(** [MarkService.batch_update_marks]. An exception is logged and raised
    again before [commit]: the database is then left as it was. *)
Definition batch_update_marks (marks_data : list MarkUpdateItem)
           (db : DB.t) : result batch_result :=
  match update_all db (mk_batch (open_session db) 0 []) marks_data with
  | Ret b =>
      Ret (mk_result (updated_count b) (notifications b)
                     (commit db (sess b)))
  | Raise e => Raise e
  end.

Inductive import_error : Type :=
| BadName (name : string)
| StudentNotFound (name : string)
| OutOfRange (mark : option string) (name : string)
| NotANumber (mark : option string) (name : string).

(** The value of a mark in [import_marks_from_table] (lines 233-246);
    [inr] is the message appended to [errors]. *)
Definition import_mark_value (e : MarkImportSchema)
  : option Z + import_error :=
  match option_map (fun s => PyStr.lower (PyStr.strip s)) (entry_mark e) with
  | None => inl None
  | Some raw_mark =>
      if String.eqb raw_mark "н/а" || String.eqb raw_mark "na"
      then inl None
      else
        match PyStr.int raw_mark with
        | Some v =>
            if (v =? 2) || (v =? 3) || (v =? 4) || (v =? 5)
            then inl (Some v)
            else inr (OutOfRange (entry_mark e) (last_fist_name e))
        | None => inr (NotANumber (entry_mark e) (last_fist_name e))
        end
  end.

Record import := mk_import
  { isess : session; imported_count : Z; errors : list import_error }.

Section WithCollaborators.

Variable ilike : string -> string -> bool.

(** One turn of the loop of [import_marks_from_table]
    (lines 211-266). *)
Definition import_one (db : DB.t) (st : import) (entry : MarkImportSchema)
  : import :=
  let failed err :=
    mk_import (isess st) (imported_count st) (errors st ++ [err]) in
  let name_parts := PyStr.split (PyStr.strip (last_fist_name entry)) in
  if (Z.of_nat (List.length name_parts) <? 2)
  then failed (BadName (last_fist_name entry))
  else
    let last_name := nth 0 name_parts "" in
    let first_name := nth 1 name_parts "" in
    match DB.first
            (filter (fun s => ilike (Student.first_name s) first_name
                              && ilike (Student.last_name s) last_name)
                    (DB.students db)) with
    | None => failed (StudentNotFound (last_fist_name entry))
    | Some student =>
        match import_mark_value entry with
        | inr err => failed err
        | inl mark_value =>
            let s := isess st in
            let s' :=
              match existing_mark s (Student.id student) (id entry) with
              | Some _ =>
                  mk_session
                    (assign_first (Student.id student) (id entry)
                                  mark_value (rows s))
                    (pending s)
              | None =>
                  mk_session
                    (rows s)
                    (pending s ++ [Mark.mk mark_value (id entry)
                                           (Student.id student)])
              end in
            mk_import s' (imported_count st + 1) (errors st)
        end
    end.

(** [MarkService.import_marks_from_table]: the count, the errors and
    the database after [commit]. *)
Definition import_marks_from_table (marks_data : list MarkImportSchema)
           (db : DB.t) : Z * list import_error * DB.t :=
  let st := fold_left (import_one db) marks_data
                      (mk_import (open_session db) 0 []) in
  (imported_count st, errors st, commit db (isess st)).

End WithCollaborators.

Section WithTransport.

Variable T : Type.
Variable send_message : T -> Z -> string -> result unit * T.

(** One turn of the loop of [send_notifications_with_delay]. *)
Definition send_notification (db : DB.t) (n : notification) : M T unit :=
  let '(student_id, exam_name, mark) := n in
  try_except
    (Bot.notify_student_mark T send_message db
                             student_id exam_name mark ;;
     sleep 10)
    (except_exception (log ERROR (NotificationFailed student_id))).

(** [send_notifications_with_delay], run as a task of its own on the
    database as it is when the task runs. *)
Definition send_notifications_with_delay
           (db : DB.t) (notifications : list notification) : M T unit :=
  for_each notifications (send_notification db).

End WithTransport.

End MarkService.

(* ================================================================== *)
(** * [app/services/exam.py]: the operations that write *)
(* ================================================================== *)

(** The inserts and deletes below are taken to be accepted by the database.
    A delete follows the schema's [ondelete="CASCADE"] foreign keys. *)

Module ExamWrites.

(** [CreateExam] *)
Record CreateExam := mk_create
  { type : string; semester : Z; course : Z; discipline : string;
    holding_date : string; link : option string;
    group_id : Z; curator_id : Z }.

(** [ExamService.create_exam]: the new row is built from every field of
    the request but [link], and gets the next key. *)
Definition create_exam (exam_data : CreateExam) (db : DB.t)
  : Exam.t * DB.t :=
  let new_exam :=
    Exam.mk (next_id (map Exam.id (DB.exams db)))
            (type exam_data) (semester exam_data) (course exam_data)
            (discipline exam_data) (holding_date exam_data) None
            (group_id exam_data) (curator_id exam_data) in
  (new_exam,
   DB.mk (DB.curators db) (DB.groups db) (DB.telegrams db)
         (DB.students db) (DB.exams db ++ [new_exam]) (DB.marks db)).

Definition set_link (new_link : option string) (e : Exam.t) : Exam.t :=
  Exam.mk (Exam.id e) (Exam.type e) (Exam.semester e) (Exam.course e)
          (Exam.discipline e) (Exam.holding_date e) new_link
          (Exam.group_id e) (Exam.curator_id e).

(** [ExamService.update_exam_link]: [None] when no exam has the
    identifier. *)
Definition update_exam_link (exam_id : Z) (new_link : option string)
           (db : DB.t) : result (option ExamService.exam_dict * DB.t) :=
  match DB.scalar_one_or_none
          (filter (fun e => Exam.id e =? exam_id) (DB.exams db)) with
  | Raise e => Raise e
  | Ret None => Ret (None, db)
  | Ret (Some exam) =>
      let db' :=
        DB.mk (DB.curators db) (DB.groups db) (DB.telegrams db)
              (DB.students db)
              (map (fun e => if Exam.id e =? exam_id
                             then set_link new_link e else e)
                   (DB.exams db))
              (DB.marks db) in
      Ret (Some (ExamService.to_dict db' (set_link new_link exam)), db')
  end.

(** [ExamService.delete_exam]: the exam goes, and with it its marks. *)
Definition delete_exam (exam_id : Z) (db : DB.t) : result (bool * DB.t) :=
  match DB.first (filter (fun e => Exam.id e =? exam_id) (DB.exams db)) with
  | None => Raise (HTTPException 404)
  | Some _ =>
      Ret (true,
           DB.mk (DB.curators db) (DB.groups db) (DB.telegrams db)
                 (DB.students db)
                 (filter (fun e => negb (Exam.id e =? exam_id))
                         (DB.exams db))
                 (filter (fun m => negb (Mark.exam_id m =? exam_id))
                         (DB.marks db)))
  end.

(** [StudentMark] *)
Record StudentMark := mk_student_mark
  { student_id : Z; student_full_name : string; mark : option Z }.

(** [ExamMarksResponse] *)
Record ExamMarksResponse := mk_marks_response
  { r_exam_id : Z; r_discipline : string; r_holding_date : string;
    students : list StudentMark }.

(** One entry of the answer of [get_exam_marks]; a mark whose student
    row is missing has no [mark.student] to read ([AttributeError]). *)
Definition student_mark (db : DB.t) (m : Mark.t) : result StudentMark :=
  match find (fun s => Student.id s =? Mark.student_id m)
             (DB.students db) with
  | Some s =>
      Ret (mk_student_mark
             (Student.id s)
             (Student.last_name s ++ " " ++ Student.first_name s)%string
             (Mark.mark m))
  | None => Raise OtherError
  end.

Fixpoint student_marks (db : DB.t) (ms : list Mark.t)
  : result (list StudentMark) :=
  match ms with
  | [] => Ret []
  | m :: ms' =>
      match student_mark db m with
      | Raise e => Raise e
      | Ret x =>
          match student_marks db ms' with
          | Raise e => Raise e
          | Ret xs => Ret (x :: xs)
          end
      end
  end.

(** [ExamService.get_exam_marks] *)
Definition get_exam_marks (exam_id : Z) (db : DB.t)
  : result ExamMarksResponse :=
  match DB.scalar_one_or_none
          (filter (fun e => Exam.id e =? exam_id) (DB.exams db)) with
  | Raise e => Raise e
  | Ret None => Raise (HTTPException 404)
  | Ret (Some exam) =>
      match student_marks
              db (filter (fun m => Mark.exam_id m =? Exam.id exam)
                         (DB.marks db)) with
      | Raise e => Raise e
      | Ret l =>
          Ret (mk_marks_response (Exam.id exam) (Exam.discipline exam)
                                 (Exam.holding_date exam) l)
      end
  end.

End ExamWrites.

(* ================================================================== *)
(** * [app/services/group.py]: the operations that write *)
(* ================================================================== *)

Module GroupWrites.

(** [CreateGroup] *)
Record CreateGroup := mk_create { name : string; curator_id : Z }.

(** [GroupResponse], as the service fills it. *)
Record GroupResponse := mk_response
  { r_group_id : Z; r_name : string; r_curator_id : Z }.

Definition curator_exists (db : DB.t) (cid : Z) : bool :=
  match DB.first (filter (fun c => Curator.id c =? cid) (DB.curators db))
  with
  | Some _ => true
  | None => false
  end.

(** [GroupService.create_group] *)
Definition create_group (group_data : CreateGroup) (db : DB.t)
  : result (GroupResponse * DB.t) :=
  if curator_exists db (curator_id group_data)
  then
    let new_group :=
      Group.mk (next_id (map Group.id (DB.groups db)))
               (name group_data) (curator_id group_data) in
    Ret (mk_response (Group.id new_group) (Group.name new_group)
                     (Group.curator_id new_group),
         DB.mk (DB.curators db) (DB.groups db ++ [new_group])
               (DB.telegrams db) (DB.students db) (DB.exams db)
               (DB.marks db))
  else Raise (HTTPException 400).

(** [GroupService.update_group]: the group is looked up first, then the
    curator. *)
Definition update_group (group_id : Z) (group_data : CreateGroup)
           (db : DB.t) : result (GroupResponse * DB.t) :=
  match DB.first (filter (fun g => Group.id g =? group_id) (DB.groups db))
  with
  | None => Raise (HTTPException 404)
  | Some group =>
      if curator_exists db (curator_id group_data)
      then
        let group' :=
          Group.mk (Group.id group) (name group_data)
                   (curator_id group_data) in
        Ret (mk_response (Group.id group') (Group.name group')
                         (Group.curator_id group'),
             DB.mk (DB.curators db)
                   (map (fun g => if Group.id g =? group_id
                                  then group' else g)
                        (DB.groups db))
                   (DB.telegrams db) (DB.students db) (DB.exams db)
                   (DB.marks db))
      else Raise (HTTPException 400)
  end.

(** [GroupService.delete_group]: the group goes, with its students and
    its exams, and with the marks of those students and of those exams. *)
Definition delete_group (group_id : Z) (db : DB.t)
  : result (bool * DB.t) :=
  match DB.first (filter (fun g => Group.id g =? group_id) (DB.groups db))
  with
  | None => Raise (HTTPException 404)
  | Some _ =>
      let gone_students :=
        filter (fun s => Student.group_id s =? group_id) (DB.students db) in
      let gone_exams :=
        filter (fun e => Exam.group_id e =? group_id) (DB.exams db) in
      Ret (true,
           DB.mk (DB.curators db)
                 (filter (fun g => negb (Group.id g =? group_id))
                         (DB.groups db))
                 (DB.telegrams db)
                 (filter (fun s => negb (Student.group_id s =? group_id))
                         (DB.students db))
                 (filter (fun e => negb (Exam.group_id e =? group_id))
                         (DB.exams db))
                 (filter
                    (fun m =>
                       negb (existsb
                               (fun s => Student.id s =? Mark.student_id m)
                               gone_students)
                       && negb (existsb
                                  (fun e => Exam.id e =? Mark.exam_id m)
                                  gone_exams))
                    (DB.marks db)))
  end.

End GroupWrites.

(* ================================================================== *)
(** * [app/utils/bot.py]: the notifications about an exam *)
(* ================================================================== *)

Module Notify.

(** One constructor per [logger] call of the two functions. *)
Inductive note : Type :=
| ExamNotFound (exam_id : Z)
| Delivered (tg_id : Z) (discipline : string)
| DeliveryFailed (tg_id : Z)
| NotifyFailed.

(** What an observer sees: a delivered message with its button, if any
    (the address the button opens), a pause, a line of the log. *)
Inductive event : Type :=
| SendMessage (chat_id : Z) (text : string) (button_url : option string)
| Sleep (seconds : Z)
| Log (lvl : level) (msg : note).

Definition run : Type -> Type := fun T => (result unit * T * list event)%type.

(** The text of [notify_students_about_exam_creation] (lines 188-194). *)
Definition creation_text
           (exam_type discipline fio holding_date : string) : string :=
  ("🆕 <b>Добавлен новый " ++ PyStr.lower exam_type ++ "!</b>"
   ++ PyStr.nl ++ PyStr.nl
   ++ "📚 Дисциплина: <b>" ++ discipline ++ "</b>" ++ PyStr.nl
   ++ "👨‍🏫 Преподаватель: <b>" ++ fio ++ "</b>" ++ PyStr.nl
   ++ "📅 Дата проведения: <b>" ++ holding_date ++ "</b>"
   ++ PyStr.nl ++ PyStr.nl
   ++ "📌 Проверь расписание и подготовься заранее!")%string.

(** The text of [notify_students_about_exam_link] (lines 141-148). *)
Definition link_text
           (exam_type discipline fio holding_date : string) : string :=
  ("📢 <b>Внимание!</b>" ++ PyStr.nl ++ PyStr.nl
   ++ "📚 " ++ exam_type ++ " по дисциплине <b>" ++ discipline ++ "</b>"
   ++ PyStr.nl
   ++ "👨‍🏫 Преподаватель: <b>" ++ fio ++ "</b>" ++ PyStr.nl
   ++ "📅 Дата: <b>" ++ holding_date ++ "</b>" ++ PyStr.nl ++ PyStr.nl
   ++ "🎫 Был прикреплён билет." ++ PyStr.nl ++ PyStr.nl
   ++ "🍀 Удачи на " ++ PyStr.lower exam_type ++ "е! 💪")%string.

Section WithTransport.

(** [bot.send_message(chat_id, text, reply_markup)] *)
Variable T : Type.
Variable send_message
  : T -> Z -> string -> option string -> result unit * T.

(** The loop over the recipients (lines 154-160 and 196-202), with the
    state of the transport passed along: a delivery is logged and
    followed by a pause of 10; a [TelegramBadRequest] is logged and the
    loop goes on; any other exception leaves the loop. *)
Fixpoint deliver (telegram_ids : list Z) (text : string)
         (button_url : option string) (discipline : string) (t : T)
  : run T :=
  match telegram_ids with
  | [] => (Ret tt, t, [])
  | tg_id :: rest =>
      match send_message t tg_id text button_url with
      | (Ret _, t1) =>
          match deliver rest text button_url discipline t1 with
          | (r, t2, ev) =>
              (r, t2,
               SendMessage tg_id text button_url
                 :: Log INFO (Delivered tg_id discipline)
                 :: Sleep 10 :: ev)
          end
      | (Raise TelegramBadRequest, t1) =>
          match deliver rest text button_url discipline t1 with
          | (r, t2, ev) =>
              (r, t2, Log WARNING (DeliveryFailed tg_id) :: ev)
          end
      | (Raise e, t1) => (Raise e, t1, [])
      end
  end.

(** The outer [try ... except Exception] of both functions. *)
Definition logged (x : run T) : run T :=
  match x with
  | (Ret _, t, ev) => (Ret tt, t, ev)
  | (Raise _, t, ev) => (Ret tt, t, ev ++ [Log ERROR NotifyFailed])
  end.

(** The common body: the recipients are resolved first, then the exam
    is read; [text] builds the message from the exam and its
    curator. *)
Definition notify
           (text : Exam.t -> Curator.t -> string)
           (button_url : option string)
           (exam_id : Z) (db : DB.t) (t : T) : run T :=
  logged
    match ExamService.get_telegram_ids_by_exam_id exam_id db with
    | Raise e => (Raise e, t, [])
    | Ret telegram_ids =>
        match ExamService.get_exam_details exam_id db with
        | Raise e => (Raise e, t, [])
        | Ret None => (Ret tt, t, [Log WARNING (ExamNotFound exam_id)])
        | Ret (Some exam) =>
            match DB.curator_of db exam with
            | None => (Raise OtherError, t, [])
            | Some curator =>
                deliver telegram_ids (text exam curator) button_url
                        (Exam.discipline exam) t
            end
        end
    end.

(** [notify_students_about_exam_creation] *)
Definition notify_students_about_exam_creation
           (exam_id : Z) (db : DB.t) (t : T) : run T :=
  notify (fun exam curator =>
            creation_text (Bot.exam_type_text exam) (Exam.discipline exam)
                          (Bot.curator_fio curator)
                          (Exam.holding_date exam))
         None exam_id db t.

(** [notify_students_about_exam_link], for a link that is there. *)
Definition notify_students_about_exam_link
           (exam_id : Z) (link : string) (db : DB.t) (t : T) : run T :=
  notify (fun exam curator =>
            link_text (Bot.exam_type_text exam) (Exam.discipline exam)
                      (Bot.curator_fio curator) (Exam.holding_date exam))
         (Some link) exam_id db t.

End WithTransport.

End Notify.

(* ================================================================== *)
(** * [app/utils/roles.py] and [app/api/v1/endpoints] *)
(* ================================================================== *)

Module Endpoints.

(** [require_roles(allowed_roles)], applied to the verified caller. *)
Definition require_roles (allowed_roles : list string)
           (current_user : CurrentUser.t) : result CurrentUser.t :=
  if PyStr.mem (CurrentUser.role current_user) allowed_roles
  then Ret current_user
  else Raise (HTTPException 403).

Definition staff : list string := [Role.ADMIN; Role.CURATOR].

(** A task handed to the event loop or to [BackgroundTasks]. *)
Inductive task : Type :=
| SendNotifications (ns : list MarkService.notification)
| NotifyCreation (exam_id : Z)
| NotifyLink (exam_id : Z) (link : option string).

(** The handlers end with [except Exception: raise HTTPException(500)];
    the ones that start with [except ValueError] answer 400 to that. *)
Definition to_500 {A} (r : result A) : result A :=
  match r with
  | Ret a => Ret a
  | Raise _ => Raise (HTTPException 500)
  end.

Definition to_400_or_500 {A} (r : result A) : result A :=
  match r with
  | Ret a => Ret a
  | Raise ValueError => Raise (HTTPException 400)
  | Raise _ => Raise (HTTPException 500)
  end.

(** The dependency runs before the handler; what it raises is the
    answer. *)
Definition guarded {A} (allowed_roles : list string)
           (current_user : CurrentUser.t) (handler : result A)
  : result A :=
  match require_roles allowed_roles current_user with
  | Raise e => Raise e
  | Ret _ => handler
  end.



(** [GET /exam/], [get_exams]; [exam_type] is a value of [ExamType]. *)
Definition get_exams (exam_type : string) (db : DB.t)
           (current_user : CurrentUser.t)
  : result (list ExamService.exam_dict) :=
  guarded staff current_user
    (to_500 (Ret (ExamService.get_all_exams db exam_type current_user))).

(** [GET /group/], [get_groups] *)
Definition get_groups (db : DB.t) (current_user : CurrentUser.t)
  : result (list GroupService.group_dict) :=
  guarded staff current_user
    (to_500 (Ret (GroupService.get_all_groups db current_user))).

(** [POST /exam/create], [create_exam] *)
Definition create_exam (exam : ExamWrites.CreateExam) (db : DB.t)
           (current_user : CurrentUser.t)
  : result (Exam.t * DB.t * list task) :=
  guarded staff current_user
    (to_400_or_500
       (let '(new_exam, db') := ExamWrites.create_exam exam db in
        Ret (new_exam, db', [NotifyCreation (Exam.id new_exam)]))).

(** [PATCH /exam/{exam_id}/link], [update_exam_link]: the handler's own
    404 is raised inside its [try]. *)
Definition update_exam_link (exam_id : Z) (link : option string)
           (db : DB.t) (current_user : CurrentUser.t)
  : result (ExamService.exam_dict * DB.t * list task) :=
  guarded staff current_user
    (to_500
       match ExamWrites.update_exam_link exam_id link db with
       | Raise e => Raise e
       | Ret (None, _) => Raise (HTTPException 404)
       | Ret (Some updated_exam, db') =>
           Ret (updated_exam, db',
                [NotifyLink exam_id (ExamService.d_link updated_exam)])
       end).

(** [DELETE /exam/delete/{exam_id}], [delete_exam] *)
Definition delete_exam (exam_id : Z) (db : DB.t)
           (current_user : CurrentUser.t) : result DB.t :=
  guarded staff current_user
    (to_500
       match ExamWrites.delete_exam exam_id db with
       | Raise e => Raise e
       | Ret (deleted, db') =>
           if deleted then Ret db' else Raise (HTTPException 404)
       end).

(** [POST /group/create], [create_group] *)
Definition create_group (group : GroupWrites.CreateGroup) (db : DB.t)
           (current_user : CurrentUser.t)
  : result (GroupWrites.GroupResponse * DB.t) :=
  guarded staff current_user
    (to_400_or_500 (GroupWrites.create_group group db)).

(** [GET /student/{group_id}/students], [get_students_by_id]: an empty
    answer of the service is taken for a missing group. *)
Definition get_students_by_id (group_id exam_id : Z) (db : DB.t)
           (current_user : CurrentUser.t)
  : result (list (Student.t * option Z)) :=
  guarded staff current_user
    (to_500
       match StudentService.get_students_by_group_id
               group_id db (Some exam_id) with
       | Raise e => Raise e
       | Ret [] => Raise (HTTPException 404)
       | Ret pairs => Ret pairs
       end).

End Endpoints.

(* ================================================================== *)
(** * Vocabulary of the specification *)
(* ================================================================== *)

Module Spec.

(** [x] is the external chat identifier of a student of group [gid] who
    has a linked chat handle. *)
Definition linked_handle (db : DB.t) (gid x : Z) : Prop :=
  exists s tg,
    In s (DB.students db) /\ In tg (DB.telegrams db)
    /\ Student.group_id s = gid
    /\ Student.telegram_id s = Some (Telegram.id tg)
    /\ Telegram.telegram_id tg = x.

(** The student has a bound chat handle: a Telegram row is linked. *)
Definition has_handle (db : DB.t) (s : Student.t) : Prop :=
  exists tg, In tg (DB.telegrams db)
             /\ Student.telegram_id s = Some (Telegram.id tg).

(** Curator [cid] owns no group. *)
Definition owns_no_group (db : DB.t) (cid : Z) : Prop :=
  forall g, In g (DB.groups db) -> Group.curator_id g <> cid.

(** Curator [cid] owns no exam. *)
Definition owns_no_exam (db : DB.t) (cid : Z) : Prop :=
  forall e, In e (DB.exams db) -> Exam.curator_id e <> cid.

Definition curator_user (login : string) (cid : Z) : CurrentUser.t :=
  CurrentUser.mk login Role.CURATOR (Some cid).

Definition admin_user (login : string) (aid : Z) : CurrentUser.t :=
  CurrentUser.mk login Role.ADMIN (Some aid).



(** The chat identifier is bound: a Telegram row carries it. *)
Definition chat_bound (db : DB.t) (chat : Z) : Prop :=
  exists tg, In tg (DB.telegrams db) /\ Telegram.telegram_id tg = chat.

Section Deliveries.

Variable T : Type.
Variable send_message : T -> Z -> string -> result unit * T.


(** A transport that delivers every message. *)
Definition reliable : Prop :=
  forall t c m, fst (send_message t c m) = Ret tt.

Definition is_ret {A} (r : result A) : bool :=
  match r with Ret _ => true | Raise _ => false end.




(** The same for the mark notifier, whose items name a student: an item
    is delivered when the student has a recipient and the transport
    accepts the message. *)
Fixpoint mark_deliveries (db : DB.t) (t : T)
         (ns : list MarkService.notification)
  : list (MarkService.notification * option (Z * string) * bool) :=
  match ns with
  | [] => []
  | (sid, name, mark) :: ns' =>
      match Bot.mark_recipient db sid with
      | None => ((sid, name, mark), None, false)
                  :: mark_deliveries db t ns'
      | Some tg =>
          let msg := Bot.mark_message name mark in
          ((sid, name, mark), Some (tg, msg),
           is_ret (fst (send_message t tg msg)))
            :: mark_deliveries db (snd (send_message t tg msg)) ns'
      end
  end.



End Deliveries.

(** The state in which [batch_update_marks] enters its loop. *)
Definition start (db : DB.t) : MarkService.batch :=
  MarkService.mk_batch (MarkService.open_session db) 0 [].

(** The count is the number of notifications. *)
Definition counted (b : MarkService.batch) : Prop :=
  MarkService.updated_count b
  = Z.of_nat (List.length (MarkService.notifications b)).



End Spec.

(* ================================================================== *)
(** * A small school, used to run the code *)
(* ================================================================== *)

Module Demo.

Definition ivanov : Curator.t :=
  Curator.mk 1 "ivanov" "h1" "Иван" "Иванов" "Иванович".
Definition sidorova : Curator.t :=
  Curator.mk 2 "sidorova" "h2" "Анна" "Сидорова" "Павловна".
(** A curator who owns no group but examines group 10. *)
Definition orlov : Curator.t :=
  Curator.mk 3 "orlov" "h3" "Олег" "Орлов" "Ильич".

Definition g10 : Group.t := Group.mk 10 "ИС-21" 1.
Definition g20 : Group.t := Group.mk 20 "ПИ-22" 2.

Definition tg1 : Telegram.t := Telegram.mk 1 5001.
Definition tg2 : Telegram.t := Telegram.mk 2 5002.
Definition tg3 : Telegram.t := Telegram.mk 3 5003.

(** Two students of group 10, one with a handle and one without; two
    students of group 20, both with a handle. *)
Definition petrov : Student.t :=
  Student.mk 101 (Some "petrov") (Some "p") "Пётр" "Петров" "Петрович"
             10 (Some 1) true.
Definition smirnova : Student.t :=
  Student.mk 102 None None "Ольга" "Смирнова" "Игоревна" 10 None false.
Definition kozlov : Student.t :=
  Student.mk 103 (Some "kozlov") (Some "k") "Егор" "Козлов" "Ильич"
             20 (Some 2) true.
Definition belova : Student.t :=
  Student.mk 104 (Some "belova") (Some "b") "Инна" "Белова" "Юрьевна"
             20 (Some 3) true.

Definition today : PyDate.date := PyDate.mkdate 2025 6 4.

(** Three days ahead, for group 10. *)
Definition maths : Exam.t :=
  Exam.mk 100 "exam" 2 1 "Математика" "2025-06-07" None 10 1.
(** A stored date that does not parse. *)
Definition physics : Exam.t :=
  Exam.mk 200 "credits" 2 1 "Физика" "2025-06-31" None 20 2.
(** Tomorrow, for group 20. *)
Definition history : Exam.t :=
  Exam.mk 300 "credits" 2 1 "История" "2025-06-05" None 20 2.
(** Sixteen days ahead, examined by the curator without groups. *)
Definition logic : Exam.t :=
  Exam.mk 400 "exam" 2 1 "Логика" "2025-06-20" None 10 3.

Definition db : DB.t :=
  DB.mk [ivanov; sidorova; orlov] [g10; g20] [tg1; tg2; tg3]
        [petrov; smirnova; kozlov; belova]
        [maths; physics; history; logic]
        [Mark.mk (Some 4) 100 101; Mark.mk None 100 102;
         Mark.mk (Some 3) 300 103].

(** A batch of three items: the first re-submits the stored mark, the
    second grades an ungraded row, the third withdraws a mark. *)
Definition three_items : list MarkService.MarkUpdateItem :=
  [MarkService.mk_item 101 100 (Some "4");
   MarkService.mk_item 102 100 (Some "5");
   MarkService.mk_item 103 300 (Some "н/а")].

(** A transport that delivers everything. *)
Definition reliable : unit -> Z -> string -> result unit * unit :=
  fun _ _ _ => (Ret tt, tt).

(** A transport on which chat 5002 is an invalid chat
    ([TelegramBadRequest]). *)
Definition bad_chat : unit -> Z -> string -> result unit * unit :=
  fun _ chat _ =>
    if chat =? 5002 then (Raise TelegramBadRequest, tt) else (Ret tt, tt).

(** A transport on which the user of chat 5002 has blocked the bot
    ([TelegramForbiddenError], not a [TelegramBadRequest]). *)
Definition blocked : unit -> Z -> string -> result unit * unit :=
  fun _ chat _ =>
    if chat =? 5002 then (Raise OtherError, tt) else (Ret tt, tt).

(** [ilike] on patterns without wildcards: equality up to case. *)
Definition ilike_plain (value pattern : string) : bool :=
  String.eqb (PyStr.lower value) (PyStr.lower pattern).

Definition hash (pw : string) : string := ("bcrypt:" ++ pw)%string.

Definition delete_ok : Z -> Z -> result unit := fun _ _ => Ret tt.

(** The conversation of a user who chose the role of student and was
    asked for the full name (the prompt is message 41). *)
Definition asked_for_name : Registration.world :=
  Registration.mk_world
    (Some Registration.fio)
    (Registration.mk_data (Some "student") (Some 41) None None)
    db 42.

(** A user whose chat is not bound yet, and what they may type. *)
Definition newcomer : User.t := User.mk 5009 "Ольга".


Definition two_tokens : Message.t :=
  Message.mk newcomer 5009 "Смирнова Ольга".

Definition own_name : Message.t :=
  Message.mk newcomer 5009 "смирнова ольга игоревна".

Definition a_password : Message.t := Message.mk newcomer 5009 "secret".

Definition start_message : Message.t := Message.mk newcomer 5009 "/start".

(** The bot, and a message of the bot that carries the Back button. *)
Definition the_bot : User.t := User.mk 7000 "Навигатор".

Definition bot_message : Message.t :=
  Message.mk the_bot 5001 Registration.fio_invalid_text.

(** The registered student of chat 5001 presses the Back button. *)
Definition back_pressed : CallbackQuery.t :=
  CallbackQuery.mk (User.mk 5001 "Пётр") bot_message "menu".

Definition idle : Registration.world :=
  Registration.mk_world None Registration.no_data db 50.

End Demo.

(* ================================================================== *)
(** * Further vocabulary *)
(* ================================================================== *)

Module Facts.


(** The number of Telegram rows that carry a chat identifier. *)
Definition rows_of_chat (tgs : list Telegram.t) (chat : Z) : nat :=
  List.length (filter (fun x => Telegram.telegram_id x =? chat) tgs).

(** The pauses of a trace, in order. *)
Fixpoint sleeps (ev : list Eff.event) : list Z :=
  match ev with
  | [] => []
  | Eff.Sleep n :: ev' => n :: sleeps ev'
  | _ :: ev' => sleeps ev'
  end.

Definition is_log (e : Eff.event) : bool :=
  match e with Eff.Log _ _ => true | _ => false end.

(** What a trace does besides logging. *)
Definition actions (ev : list Eff.event) : list Eff.event :=
  filter (fun e => negb (is_log e)) ev.

(** A sequence of pairs: a delivered message, then a pause of 10. *)
Fixpoint alternates (ev : list Eff.event) : bool :=
  match ev with
  | [] => true
  | Eff.SendMessage _ _ :: Eff.Sleep n :: ev' => (n =? 10) && alternates ev'
  | _ => false
  end.

(** A trace in which every delivered message is followed at once by a
    pause of 10, and which does nothing else but logging. *)
Definition paced (ev : list Eff.event) : Prop :=
  alternates (actions ev) = true.

(** The pair a batch item addresses. *)
Definition pair_of (item : MarkService.MarkUpdateItem) : Z * Z :=
  (MarkService.student_id item, MarkService.exam_id item).

(** The rows of a (student, exam) pair. *)
Definition rows_of_pair (sid eid : Z) (l : list Mark.t) : list Mark.t :=
  filter (MarkService.same_pair sid eid) l.


(** Referential integrity, as the foreign keys of the schema state it. *)
Record links_ok (db : DB.t) : Prop :=
  { group_curator :
      forall g, In g (DB.groups db) ->
                exists c, In c (DB.curators db)
                          /\ Curator.id c = Group.curator_id g;
    student_group :
      forall s, In s (DB.students db) ->
                exists g, In g (DB.groups db)
                          /\ Group.id g = Student.group_id s;
    exam_group :
      forall e, In e (DB.exams db) ->
                exists g, In g (DB.groups db)
                          /\ Group.id g = Exam.group_id e;
    exam_curator :
      forall e, In e (DB.exams db) ->
                exists c, In c (DB.curators db)
                          /\ Curator.id c = Exam.curator_id e;
    mark_student :
      forall m, In m (DB.marks db) ->
                exists s, In s (DB.students db)
                          /\ Student.id s = Mark.student_id m;
    mark_exam :
      forall m, In m (DB.marks db) ->
                exists e, In e (DB.exams db)
                          /\ Exam.id e = Mark.exam_id m }.

Section NotifyTransport.

Variable T : Type.
Variable send_message
  : T -> Z -> string -> option string -> result unit * T.

(** The delivered messages of a trace of the exam notifications. *)
Fixpoint sent (ev : list Notify.event)
  : list (Z * string * option string) :=
  match ev with
  | [] => []
  | Notify.SendMessage c t b :: ev' => (c, t, b) :: sent ev'
  | _ :: ev' => sent ev'
  end.

Fixpoint pauses (ev : list Notify.event) : list Z :=
  match ev with
  | [] => []
  | Notify.Sleep n :: ev' => n :: pauses ev'
  | _ :: ev' => pauses ev'
  end.

Definition failures (ev : list Notify.event) : list Notify.event :=
  filter (fun e => match e with
                   | Notify.Log WARNING _ | Notify.Log ERROR _ => true
                   | _ => false
                   end) ev.

(** The transport delivers everything. *)
Definition reliable : Prop :=
  forall t c m b, fst (send_message t c m b) = Ret tt.

(** The transport delivers or rejects the request, nothing else. *)
Definition rejects_only : Prop :=
  forall t c m b,
    fst (send_message t c m b) = Ret tt
    \/ fst (send_message t c m b) = Raise TelegramBadRequest.

End NotifyTransport.

End Facts.

Module Demo2.

(** A transport with buttons on which chat 5002 is an invalid chat. *)
Definition bad_chat
  : unit -> Z -> string -> option string -> result unit * unit :=
  fun _ chat _ _ =>
    if chat =? 5002 then (Raise TelegramBadRequest, tt) else (Ret tt, tt).

(** A transport with buttons on which the user of chat 5002 has blocked
    the bot ([TelegramForbiddenError]). *)
Definition blocked
  : unit -> Z -> string -> option string -> result unit * unit :=
  fun _ chat _ _ =>
    if chat =? 5002 then (Raise OtherError, tt) else (Ret tt, tt).

(** A transport with buttons that delivers everything. *)
Definition reliable
  : unit -> Z -> string -> option string -> result unit * unit :=
  fun _ _ _ _ => (Ret tt, tt).

Definition pressed_student : CallbackQuery.t :=
  CallbackQuery.mk Demo.newcomer
                   (Message.mk Demo.the_bot 5009 "") "role_student".



End Demo2.

(* ================================================================== *)
(** * Facts about the Python library models *)
(* ================================================================== *)

Example strptime_ok :
  PyDate.strptime "2025-06-04" = Some (PyDate.mkdate 2025 6 4).
Proof. reflexivity. Qed.

Example strptime_single_digits :
  PyDate.strptime "2025-6-4" = Some (PyDate.mkdate 2025 6 4).
Proof. reflexivity. Qed.

Example strptime_feb30 : PyDate.strptime "2025-02-30" = None.
Proof. reflexivity. Qed.

Example strptime_trailing : PyDate.strptime "2025-06-04 " = None.
Proof. reflexivity. Qed.

Example toordinal_2025 : PyDate.toordinal (PyDate.mkdate 2025 6 4) = 739406.
Proof. reflexivity. Qed.

Example int_examples :
  PyStr.int "05" = Some 5 /\ PyStr.int "+3" = Some 3
  /\ PyStr.int "1_0" = Some 10 /\ PyStr.int "5_" = None
  /\ PyStr.int "" = None.
Proof. repeat split; reflexivity. Qed.

Example lower_examples :
  PyStr.lower "Н/А" = "н/а" /\ PyStr.lower "EXAM" = "exam".
Proof. split; reflexivity. Qed.

(* ================================================================== *)
(** * Lists and keys *)
(* ================================================================== *)

Section Keys.

Context {A : Type} (key : A -> Z).

Lemma existsb_eqb_false (k : Z) (l : list A) :
  existsb (Z.eqb k) (map key l) = false ->
  forall y, In y l -> key y <> k.
Proof.
  induction l as [|a l IH]; simpl; intros H y Hy; [contradiction|].
  apply orb_false_iff in H. destruct H as [Ha Hl].
  destruct Hy as [->|Hy].
  - apply Z.eqb_neq in Ha. congruence.
  - now apply IH.
Qed.

Lemma filter_key_none (k : Z) (l : list A) :
  (forall y, In y l -> key y <> k) ->
  filter (fun e => key e =? k) l = [].
Proof.
  induction l as [|a l IH]; simpl; intros H; [reflexivity|].
  destruct (Z.eqb_spec (key a) k) as [E|E].
  - exfalso. apply (H a); auto.
  - apply IH. intros y Hy. apply H. now right.
Qed.

(** With unique keys, selecting by key yields the row itself. *)
Lemma filter_key_unique (k : Z) (l : list A) (x : A) :
  DB.no_dup_ids (map key l) = true ->
  In x l -> key x = k ->
  filter (fun e => key e =? k) l = [x].
Proof.
  induction l as [|a l IH]; simpl; intros Hnd Hin Hk; [contradiction|].
  apply andb_true_iff in Hnd. destruct Hnd as [Ha Hl].
  apply negb_true_iff in Ha.
  pose proof (existsb_eqb_false _ _ Ha) as Hfresh.
  destruct Hin as [->|Hin].
  - rewrite <- Hk, Z.eqb_refl. f_equal.
    apply filter_key_none. intros y Hy E. apply (Hfresh y Hy). exact E.
  - destruct (Z.eqb_spec (key a) k) as [E|E].
    + exfalso. apply (Hfresh x Hin). congruence.
    + now apply IH.
Qed.

End Keys.

(* ================================================================== *)
(** * The Recipient Resolver *)
(* ================================================================== *)

Lemma resolver_membership (db : DB.t) (gid x : Z) :
  In x (flat_map
          (fun tg =>
             flat_map
               (fun s =>
                  if DB.eq_opt (Student.telegram_id s) (Telegram.id tg)
                     && (Student.group_id s =? gid)
                     && (match Student.telegram_id s with
                         | Some _ => true
                         | None => false
                         end)
                  then [Telegram.telegram_id tg]
                  else [])
               (DB.students db))
          (DB.telegrams db))
  <-> Spec.linked_handle db gid x.
Proof.
  unfold Spec.linked_handle. rewrite in_flat_map. split.
  - intros (tg & Htg & H). apply in_flat_map in H.
    destruct H as (s & Hs & H).
    destruct (Student.telegram_id s) as [k|] eqn:Ek; simpl in H;
      [|contradiction].
    destruct (Z.eqb_spec k (Telegram.id tg)) as [->|]; simpl in H;
      [|contradiction].
    destruct (Z.eqb_spec (Student.group_id s) gid) as [Eg|]; simpl in H;
      [|contradiction].
    destruct H as [<-|[]].
    exists s, tg. auto.
  - intros (s & tg & Hs & Htg & Eg & Ek & Ex).
    exists tg. split; [assumption|].
    apply in_flat_map. exists s. split; [assumption|].
    rewrite Ek. simpl. rewrite Z.eqb_refl. simpl.
    rewrite Eg, Z.eqb_refl. simpl. now left.
Qed.

(** The resolver on an existing exam, shared by the statements below. *)
Lemma resolver_on_existing_exam (db : DB.t) (exam_id : Z) (exam : Exam.t) :
  DB.no_dup_ids (map Exam.id (DB.exams db)) = true ->
  In exam (DB.exams db) -> Exam.id exam = exam_id ->
  exists ids,
    ExamService.get_telegram_ids_by_exam_id exam_id db = Ret ids
    /\ (forall x, In x ids
                  <-> Spec.linked_handle db (Exam.group_id exam) x).
Proof.
  intros Hnd Hin Hid.
  unfold ExamService.get_telegram_ids_by_exam_id.
  rewrite (filter_key_unique Exam.id exam_id _ exam Hnd Hin Hid).
  cbn [DB.scalar_one_or_none].
  eexists. split; [reflexivity|].
  intros x. apply resolver_membership.
Qed.

(** C2. The Recipient Resolver: with no exam of that identifier the call
    fails with the not-found error (404), which it lets through; for an
    existing exam it returns exactly the chat identifiers of the students of
    the exam's group that have a linked handle, so never one for a student
    without a handle, and the empty list when no student of the group has
    one. *)
Theorem C2_recipient_resolver (db : DB.t) (exam_id : Z) :
  ((forall e, In e (DB.exams db) -> Exam.id e <> exam_id) ->
   ExamService.get_telegram_ids_by_exam_id exam_id db
   = Raise (HTTPException 404))
  /\
  (forall exam,
      DB.no_dup_ids (map Exam.id (DB.exams db)) = true ->
      In exam (DB.exams db) -> Exam.id exam = exam_id ->
      exists ids,
        ExamService.get_telegram_ids_by_exam_id exam_id db = Ret ids
        /\ (forall x, In x ids
                      <-> Spec.linked_handle db (Exam.group_id exam) x)
        /\ ((forall s, In s (DB.students db) ->
                       Student.group_id s = Exam.group_id exam ->
                       ~ Spec.has_handle db s) ->
            ids = [])).
Proof.
  split.
  - intros Hnone. unfold ExamService.get_telegram_ids_by_exam_id.
    rewrite (filter_key_none Exam.id exam_id _ Hnone). reflexivity.
  - intros exam Hnd Hin Hid.
    unfold ExamService.get_telegram_ids_by_exam_id.
    rewrite (filter_key_unique Exam.id exam_id _ exam Hnd Hin Hid).
    cbn [DB.scalar_one_or_none].
    eexists. split; [reflexivity|]. split.
    + intros x. apply resolver_membership.
    + intros Hno.
      match goal with |- ?l = [] => destruct l as [|x l'] eqn:El end;
        [reflexivity|].
      exfalso.
      assert (Hx : Spec.linked_handle db (Exam.group_id exam) x).
      { apply resolver_membership. rewrite El. now left. }
      destruct Hx as (s & tg & Hs & Htg & Eg & Ek & _).
      apply (Hno s Hs Eg). exists tg. auto.
Qed.

Lemma C2_recipient_resolver_witness :
  ExamService.get_telegram_ids_by_exam_id 999 Demo.db
  = Raise (HTTPException 404)
  /\ exists ids,
      ExamService.get_telegram_ids_by_exam_id 100 Demo.db = Ret ids
      /\ (forall x, In x ids <-> Spec.linked_handle Demo.db 10 x)
      /\ ((forall s, In s (DB.students Demo.db) ->
                     Student.group_id s = 10 ->
                     ~ Spec.has_handle Demo.db s) ->
          ids = []).
Proof.
  split.
  - apply (proj1 (C2_recipient_resolver Demo.db 999)).
    intros e [<-|[<-|[<-|[<-|[]]]]]; simpl; discriminate.
  - apply (proj2 (C2_recipient_resolver Demo.db 100) Demo.maths).
    + reflexivity.
    + simpl. auto.
    + reflexivity.
Defined.

Example resolver_on_demo :
  ExamService.get_telegram_ids_by_exam_id 100 Demo.db = Ret [5001]
  /\ ExamService.get_telegram_ids_by_exam_id 300 Demo.db = Ret [5002; 5003].
Proof. split; reflexivity. Qed.

(* ================================================================== *)
(** * Curator scoping of the list operations *)
(* ================================================================== *)

Lemma curator_user_is_curator (login : string) (cid : Z) :
  CurrentUser.is_curator (Spec.curator_user login cid) = true.
Proof. reflexivity. Qed.

Lemma curator_user_owns (login : string) (cid owner : Z) :
  CurrentUser.owns (Spec.curator_user login cid) owner = (owner =? cid).
Proof. reflexivity. Qed.

Lemma admin_user_not_curator (login : string) (aid : Z) :
  CurrentUser.is_curator (Spec.admin_user login aid) = false.
Proof. reflexivity. Qed.

Lemma filter_nil_when {A} (p : A -> bool) (l : list A) :
  (forall x, In x l -> p x = false) -> filter p l = [].
Proof.
  induction l as [|a l IH]; simpl; intros H; [reflexivity|].
  rewrite (H a (or_introl eq_refl)). apply IH. intros x Hx. apply H. now right.
Qed.

Lemma flat_map_nil_when {A B} (f : A -> list B) (l : list A) :
  (forall x, In x l -> f x = []) -> flat_map f l = [].
Proof.
  induction l as [|a l IH]; simpl; intros H; [reflexivity|].
  rewrite (H a (or_introl eq_refl)). apply IH. intros x Hx. apply H. now right.
Qed.

(** C7 (amended). For a curator, the exam list holds only exams whose
    curator is the caller, the group list only groups the caller owns, the
    student list only students of groups the caller owns; for an admin the
    three lists are not narrowed by owner. A curator owning no group gets
    the empty group list and the empty student list, and a curator owning
    no exam gets the empty exam list; none of these is an error. *)
Theorem C7_scoped_lists
        (db : DB.t) (login : string) (cid : Z) (exam_type : string) :
  let cu := Spec.curator_user login cid in
  (forall d, In d (ExamService.get_all_exams db exam_type cu) ->
             exists e, In e (DB.exams db) /\ d = ExamService.to_dict db e
                       /\ Exam.curator_id e = cid
                       /\ Exam.type e = exam_type)
  /\ (forall g, In g (GroupService.get_all_groups db cu) ->
                GroupService.curator_id g = cid)
  /\ (forall s, In s (StudentService.get_all_students db cu) ->
                In s (DB.students db)
                /\ exists g, In g (DB.groups db)
                             /\ Group.id g = Student.group_id s
                             /\ Group.curator_id g = cid)
  /\ (forall alogin aid,
         let au := Spec.admin_user alogin aid in
         ExamService.select_exams db exam_type au
         = filter (fun e => String.eqb (Exam.type e) exam_type) (DB.exams db)
         /\ map GroupService.group_id (GroupService.get_all_groups db au)
            = map Group.id (DB.groups db)
         /\ StudentService.get_all_students db au = DB.students db)
  /\ (Spec.owns_no_group db cid ->
      GroupService.get_all_groups db cu = []
      /\ StudentService.get_all_students db cu = [])
  /\ (Spec.owns_no_exam db cid ->
      ExamService.get_all_exams db exam_type cu = []).
Proof.
  cbv zeta.
  split; [|split; [|split; [|split; [|split]]]].
  - intros d Hd. unfold ExamService.get_all_exams in Hd.
    apply in_map_iff in Hd. destruct Hd as (e & <- & He).
    unfold ExamService.select_exams in He.
    rewrite curator_user_is_curator in He.
    apply filter_In in He. destruct He as [He Hown].
    apply filter_In in He. destruct He as [He Hty].
    rewrite curator_user_owns in Hown.
    exists e. split; [assumption|]. split; [reflexivity|]. split.
    + now apply Z.eqb_eq.
    + now apply String.eqb_eq.
  - intros g Hg. unfold GroupService.get_all_groups in Hg.
    rewrite curator_user_is_curator in Hg.
    apply in_map_iff in Hg. destruct Hg as (g0 & <- & Hg0).
    apply filter_In in Hg0. destruct Hg0 as [_ Hown].
    rewrite curator_user_owns in Hown. simpl. now apply Z.eqb_eq.
  - intros s H. unfold StudentService.get_all_students in H.
    rewrite curator_user_is_curator in H.
    apply in_flat_map in H. destruct H as (s0 & Hs0 & H).
    apply in_flat_map in H. destruct H as (g & Hg & H).
    destruct (Z.eqb_spec (Group.id g) (Student.group_id s0)) as [Eg|];
      simpl in H; [|contradiction].
    rewrite curator_user_owns in H.
    destruct (Z.eqb_spec (Group.curator_id g) cid) as [Ec|];
      simpl in H; [|contradiction].
    destruct H as [<-|[]]. split; [assumption|]. exists g. auto.
  - intros alogin aid. split; [reflexivity|]. split; [|reflexivity].
    unfold GroupService.get_all_groups.
    rewrite admin_user_not_curator, map_map. reflexivity.
  - intros H. split.
    + unfold GroupService.get_all_groups.
      rewrite curator_user_is_curator.
      rewrite filter_nil_when; [reflexivity|].
      intros g Hg. rewrite curator_user_owns. apply Z.eqb_neq. now apply H.
    + unfold StudentService.get_all_students.
      rewrite curator_user_is_curator.
      apply flat_map_nil_when. intros s Hs.
      apply flat_map_nil_when. intros g Hg.
      rewrite curator_user_owns.
      destruct (Z.eqb_spec (Group.curator_id g) cid) as [Ec|Ec].
      * exfalso. now apply (H g Hg).
      * now rewrite andb_false_r.
  - intros H.
    unfold ExamService.get_all_exams, ExamService.select_exams.
    rewrite curator_user_is_curator.
    rewrite (filter_nil_when
               (fun e => CurrentUser.owns (Spec.curator_user login cid)
                                          (Exam.curator_id e)));
      [reflexivity|].
    intros e He. apply filter_In in He. destruct He as [He _].
    rewrite curator_user_owns. apply Z.eqb_neq. now apply H.
Qed.

(** The students of a group, asked by the group's identifier, are returned
    whoever asks: the operation does not take the caller. *)
Example students_of_any_group :
  exists l,
    StudentService.get_students_by_group_id 20 Demo.db None = Ret l
    /\ map fst l = [Demo.kozlov; Demo.belova].
Proof. eexists. split; [vm_compute; reflexivity|reflexivity]. Qed.

(** On the demonstration school, the curator without groups gets the empty
    group and student lists. *)
Lemma C7_scoped_lists_witness :
  Spec.owns_no_group Demo.db 3
  /\ GroupService.get_all_groups Demo.db (Spec.curator_user "orlov" 3) = []
  /\ StudentService.get_all_students Demo.db (Spec.curator_user "orlov" 3)
     = [].
Proof.
  assert (H : Spec.owns_no_group Demo.db 3).
  { intros g [<-|[<-|[]]]; simpl; discriminate. }
  split; [exact H|].
  exact (proj1 (proj2 (proj2 (proj2 (proj2
           (C7_scoped_lists Demo.db "orlov" 3 "exam"))))) H).
Defined.

(** C7 as stated fails on the exam list: a curator who owns no group still
    receives the exams whose [curator_id] is theirs. *)
Lemma C7_counterexample :
  Spec.owns_no_group Demo.db 3
  /\ ExamService.get_all_exams Demo.db "exam" (Spec.curator_user "orlov" 3)
     = [ExamService.to_dict Demo.db Demo.logic]
  /\ ExamService.get_all_exams Demo.db "exam" (Spec.curator_user "orlov" 3)
     <> [].
Proof.
  split; [|split].
  - intros g [<-|[<-|[]]]; simpl; discriminate.
  - reflexivity.
  - discriminate.
Qed.

(* ================================================================== *)
(** * Running loops in the effect monad *)
(* ================================================================== *)

Lemma sent_messages_app (a b : list event) :
  sent_messages (a ++ b) = sent_messages a ++ sent_messages b.
Proof.
  induction a as [|e a IH]; simpl; [reflexivity|].
  destruct e; simpl; rewrite ?IH; reflexivity.
Qed.

Lemma logged_failures_app (a b : list event) :
  logged_failures (a ++ b) = logged_failures a ++ logged_failures b.
Proof. apply filter_app. Qed.


Section Loops.

Context {S X : Type} (body : X -> M S unit).

(** A body that never raises. *)
Definition total_body : Prop := forall x s, outcome (body x s) = Ret tt.

Lemma for_each_cons_total (x : X) (xs : list X) (s : S) :
  outcome (body x s) = Ret tt ->
  for_each (x :: xs) body s
  = (outcome (for_each xs body (final (body x s))),
     final (for_each xs body (final (body x s))),
     events (body x s) ++ events (for_each xs body (final (body x s)))).
Proof.
  intros H. simpl. unfold bind.
  destruct (body x s) as [[r s1] ev1]. unfold outcome in H. simpl in H.
  subst r. cbn [outcome final events fst snd].
  destruct (for_each xs body s1) as [[r2 s2] ev2]. reflexivity.
Qed.



End Loops.

(* ================================================================== *)
(** * The notifiers *)
(* ================================================================== *)

Section Notifier.

Variable T : Type.
Variable send_message : T -> Z -> string -> result unit * T.

Local Abbreviation send_reminder := (Bot.send_reminder T send_message).
Local Abbreviation send_reminder_loop := (Bot.send_reminder_loop T send_message).
Local Abbreviation scan_exam := (Bot.scan_exam T send_message).
Local Abbreviation remind_exam := (Bot.remind_exam T send_message).
Local Abbreviation send_exam_reminders := (Bot.send_exam_reminders T send_message).
Local Abbreviation notify_student_mark := (Bot.notify_student_mark T send_message).
Local Abbreviation send_notification := (MarkService.send_notification T send_message).
Local Abbreviation send_notifications_with_delay :=
  (MarkService.send_notifications_with_delay T send_message).

(** What one turn of the reminder loop does, by the transport's answer. *)
Lemma send_reminder_run (text disc : string) (tg_id : Z) (t : T) :
  send_reminder text disc tg_id t
  = match send_message t tg_id text with
    | (Ret _, t') =>
        (Ret tt, t',
         [SendMessage tg_id text; Log INFO (ReminderSent tg_id disc);
          Sleep 10])
    | (Raise TelegramBadRequest, t') =>
        (Ret tt, t', [Log WARNING (ReminderSendFailed tg_id)])
    | (Raise e, t') => (Raise e, t', [])
    end.
Proof.
  unfold Bot.send_reminder, try_except, bind, Bot.bot_send_message.
  destruct (send_message t tg_id text) as [[u|e] t']; simpl;
    [reflexivity|].
  destruct e; reflexivity.
Qed.




(** [notify_student_mark] never raises: what it does, case by case. *)
Lemma notify_student_mark_run
      (db : DB.t) (sid : Z) (name : string) (mark : option Z) (t : T) :
  notify_student_mark db sid name mark t
  = match Bot.mark_recipient db sid with
    | None => (Ret tt, t, [Log WARNING (MarkNoTelegram sid)])
    | Some tg =>
        match send_message t tg (Bot.mark_message name mark) with
        | (Ret _, t') =>
            (Ret tt, t',
             [SendMessage tg (Bot.mark_message name mark);
              Log INFO (MarkSent sid)])
        | (Raise TelegramBadRequest, t') =>
            (Ret tt, t', [Log WARNING (MarkSendFailed sid)])
        | (Raise _, t') => (Ret tt, t', [Log ERROR (MarkUnknown sid)])
        end
    end.
Proof.
  unfold Bot.notify_student_mark, try_except, bind, Bot.bot_send_message.
  destruct (Bot.mark_recipient db sid) as [tg|]; [|reflexivity].
  destruct (send_message t tg (Bot.mark_message name mark))
    as [[u|e] t']; simpl; [reflexivity|].
  destruct e; reflexivity.
Qed.

Lemma send_notification_run
      (db : DB.t) (sid : Z) (name : string) (mark : option Z) (t : T) :
  send_notification db (sid, name, mark) t
  = (Ret tt,
     final (notify_student_mark db sid name mark t),
     events (notify_student_mark db sid name mark t) ++ [Sleep 10]).
Proof.
  unfold MarkService.send_notification, try_except, bind, sleep, emit.
  rewrite notify_student_mark_run.
  destruct (Bot.mark_recipient db sid) as [tg|]; [|reflexivity].
  destruct (send_message t tg (Bot.mark_message name mark))
    as [[u|e] t']; simpl; [reflexivity|].
  destruct e; reflexivity.
Qed.

Lemma send_notification_total (db : DB.t) :
  total_body (send_notification db).
Proof. intros [[sid name] mark] t. now rewrite send_notification_run. Qed.


Lemma mark_deliveries_length
      (db : DB.t) (ns : list MarkService.notification) (t : T) :
  List.length (Spec.mark_deliveries T send_message db t ns)
  = List.length ns.
Proof.
  revert t. induction ns as [|[[sid name] mark] ns IH]; intros t; simpl;
    [reflexivity|].
  destruct (Bot.mark_recipient db sid); simpl; now rewrite IH.
Qed.










End Notifier.

(* ================================================================== *)
(** * The Reminder Scheduler *)
(* ================================================================== *)





(** The scan of the demonstration school: one reminder for the exam three
    days ahead (one of its two students has a handle), two for the exam of
    tomorrow, none for the exam whose date does not parse nor for the one
    sixteen days ahead. *)
Example scan_on_demo :
  sent_messages
    (events (Bot.send_exam_reminders unit Demo.reliable Demo.db Demo.today tt))
  = [(5001,
      Bot.reminder_text "Экзамен" "Математика" "через 3 дня" "2025-06-07"
                        "Иванов Иван Иванович");
     (5002,
      Bot.reminder_text "Зачёт" "История" "завтра" "2025-06-05"
                        "Сидорова Анна Павловна");
     (5003,
      Bot.reminder_text "Зачёт" "История" "завтра" "2025-06-05"
                        "Сидорова Анна Павловна")].
Proof. vm_compute. reflexivity. Qed.



(* ================================================================== *)
(** * The Rate-Limited Notifier *)
(* ================================================================== *)




(* ================================================================== *)
(** * Batch update of marks *)
(* ================================================================== *)

Import MarkService.

Lemma mark_neq_false (a b : option Z) : mark_neq a b = false <-> a = b.
Proof.
  destruct a as [x|], b as [y|]; simpl; split; intros H;
    try discriminate; try reflexivity.
  - apply negb_false_iff, Z.eqb_eq in H. now subst.
  - injection H as ->. now rewrite Z.eqb_refl.
Qed.

Lemma mark_neq_true (a b : option Z) : mark_neq a b = true <-> a <> b.
Proof.
  split.
  - intros H E. apply mark_neq_false in E. congruence.
  - intros H. destruct (mark_neq a b) eqn:E; [reflexivity|].
    apply mark_neq_false in E. contradiction.
Qed.

Lemma ids_present (item : MarkUpdateItem) :
  student_id item <> 0 -> exam_id item <> 0 ->
  (student_id item =? 0) || (exam_id item =? 0) = false.
Proof.
  intros H1 H2. apply orb_false_iff. split; now apply Z.eqb_neq.
Qed.

Lemma update_all_app (db : DB.t) (b : batch) (l1 l2 : list MarkUpdateItem) :
  update_all db b (l1 ++ l2)
  = match update_all db b l1 with
    | Ret b1 => update_all db b1 l2
    | Raise e => Raise e
    end.
Proof.
  revert b. induction l1 as [|x l1 IH]; intros b; simpl; [reflexivity|].
  destruct (update_one db b x); [apply IH|reflexivity].
Qed.

(** The three ways a turn of the loop can end well. *)
Lemma update_one_cases (db : DB.t) (b b' : batch) (item : MarkUpdateItem) :
  update_one db b item = Ret b' ->
  exists v ex,
    parse_mark (mark item) = Ret v
    /\ ExamService.get_exam_details (exam_id item) db = Ret ex
    /\ student_id item <> 0 /\ exam_id item <> 0
    /\ ((b' = b
         /\ exists m, existing_mark (sess b) (student_id item) (exam_id item)
                      = Some m /\ Mark.mark m = v)
        \/ (b' = mk_batch
                   (mk_session
                      (assign_first (student_id item) (exam_id item) v
                                    (rows (sess b)))
                      (pending (sess b)))
                   (updated_count b + 1)
                   (notifications b
                    ++ [(student_id item, exam_name_of ex, v)])
            /\ exists m, existing_mark (sess b) (student_id item)
                                       (exam_id item) = Some m
                         /\ Mark.mark m <> v)
        \/ (b' = mk_batch
                   (mk_session
                      (rows (sess b))
                      (pending (sess b)
                       ++ [Mark.mk v (exam_id item) (student_id item)]))
                   (updated_count b + 1)
                   (notifications b
                    ++ [(student_id item, exam_name_of ex, v)])
            /\ existing_mark (sess b) (student_id item) (exam_id item)
               = None)).
Proof.
  unfold update_one.
  destruct (Z.eqb_spec (student_id item) 0) as [|Hs]; [discriminate|].
  destruct (Z.eqb_spec (exam_id item) 0) as [|He]; [discriminate|].
  cbn [orb].
  destruct (parse_mark (mark item)) as [v|]; [|discriminate].
  destruct (ExamService.get_exam_details (exam_id item) db) as [ex|];
    [|discriminate].
  intros H. exists v, ex. repeat (split; [trivial|]).
  destruct (existing_mark (sess b) (student_id item) (exam_id item))
    as [m|] eqn:Em.
  - destruct (mark_neq (Mark.mark m) v) eqn:En; injection H as <-.
    + right; left. split; [reflexivity|]. exists m. split; [reflexivity|].
      now apply mark_neq_true.
    + left. split; [reflexivity|]. exists m. split; [reflexivity|].
      now apply mark_neq_false.
  - injection H as <-. right; right. split; reflexivity.
Qed.

Lemma update_one_counted (db : DB.t) (b b' : batch) (item : MarkUpdateItem) :
  Spec.counted b -> update_one db b item = Ret b' -> Spec.counted b'.
Proof.
  unfold Spec.counted. intros Hc H.
  destruct (update_one_cases _ _ _ _ H)
    as (v & ex & _ & _ & _ & _ & [[-> _]|[[-> _]|[-> _]]]);
    [exact Hc| |]; cbn [updated_count notifications];
    rewrite length_app; cbn [List.length]; lia.
Qed.

Lemma update_all_counted (db : DB.t) (items : list MarkUpdateItem)
      (b b' : batch) :
  Spec.counted b -> update_all db b items = Ret b' -> Spec.counted b'.
Proof.
  revert b. induction items as [|x items IH]; simpl; intros b Hc H.
  - now injection H as <-.
  - destruct (update_one db b x) as [b1|] eqn:E; [|discriminate].
    eapply IH; [|exact H]. eapply update_one_counted; eassumption.
Qed.



(** An item whose row already holds the submitted value changes nothing. *)
Lemma update_one_unchanged
      (db : DB.t) (b : batch) (item : MarkUpdateItem)
      (v : option Z) (ex : option Exam.t) (m : Mark.t) :
  student_id item <> 0 -> exam_id item <> 0 ->
  parse_mark (mark item) = Ret v ->
  ExamService.get_exam_details (exam_id item) db = Ret ex ->
  existing_mark (sess b) (student_id item) (exam_id item) = Some m ->
  Mark.mark m = v ->
  update_one db b item = Ret b.
Proof.
  intros Hs He Hp Hx Hm Hv. unfold update_one.
  rewrite (ids_present _ Hs He), Hp, Hx, Hm.
  apply mark_neq_false in Hv. now rewrite Hv.
Qed.


(** C4. In a batch mark update, an item whose (student, exam) row already
    holds the submitted value changes nothing: the batch without it returns
    the same count, enqueues the same notifications and commits the same
    database. A turn of the loop either is such an item, or counts one and
    notifies once, for a row whose value changes or for a new row; the
    returned count is the number of notifications enqueued. With three items,
    one unchanged and two changed, the count is 2 and 2 notifications are
    enqueued. *)
Theorem C4_unchanged_mark_is_inert :
  (forall (db : DB.t) (items1 items2 : list MarkUpdateItem)
          (item : MarkUpdateItem) (b1 : batch)
          (v : option Z) (ex : option Exam.t) (m : Mark.t),
      update_all db (Spec.start db) items1 = Ret b1 ->
      student_id item <> 0 -> exam_id item <> 0 ->
      parse_mark (mark item) = Ret v ->
      ExamService.get_exam_details (exam_id item) db = Ret ex ->
      existing_mark (sess b1) (student_id item) (exam_id item) = Some m ->
      Mark.mark m = v ->
      update_one db b1 item = Ret b1
      /\ batch_update_marks (items1 ++ item :: items2) db
         = batch_update_marks (items1 ++ items2) db)
  /\
  (forall (db : DB.t) (b b' : batch) (item : MarkUpdateItem),
      update_one db b item = Ret b' ->
      exists v ex,
        parse_mark (mark item) = Ret v
        /\ ExamService.get_exam_details (exam_id item) db = Ret ex
        /\ ((b' = b
             /\ exists m, existing_mark (sess b) (student_id item)
                                        (exam_id item) = Some m
                          /\ Mark.mark m = v)
            \/ (updated_count b' = updated_count b + 1
                /\ notifications b'
                   = notifications b
                     ++ [(student_id item, exam_name_of ex, v)]
                /\ (existing_mark (sess b) (student_id item) (exam_id item)
                    = None
                    \/ exists m, existing_mark (sess b) (student_id item)
                                               (exam_id item) = Some m
                                 /\ Mark.mark m <> v))))
  /\
  (forall (db : DB.t) (items : list MarkUpdateItem) (r : batch_result),
      batch_update_marks items db = Ret r ->
      count r = Z.of_nat (List.length (enqueued r)))
  /\
  (exists r,
      batch_update_marks Demo.three_items Demo.db = Ret r
      /\ count r = 2
      /\ enqueued r = [(102, "Математика", Some 5); (103, "История", None)]).
Proof.
  split; [|split; [|split]].
  - intros db items1 items2 item b1 v ex m H1 Hs He Hp Hx Hm Hv.
    pose proof (update_one_unchanged db b1 item v ex m Hs He Hp Hx Hm Hv)
      as Hone.
    split; [exact Hone|].
    unfold batch_update_marks. fold (Spec.start db).
    rewrite !update_all_app, H1. cbn [update_all]. now rewrite Hone.
  - intros db b b' item H.
    destruct (update_one_cases _ _ _ _ H)
      as (v & ex & Hp & Hx & _ & _ & [[-> Hm]|[[-> Hm]|[-> Hm]]]);
      exists v, ex; (split; [exact Hp|]); (split; [exact Hx|]).
    + left. split; [reflexivity|exact Hm].
    + right. repeat split. now right.
    + right. repeat split. now left.
  - intros db items r H. unfold batch_update_marks in H.
    destruct (update_all db (mk_batch (open_session db) 0 []) items)
      as [b|] eqn:E; [|discriminate].
    injection H as <-. cbn [count enqueued].
    eapply update_all_counted; [|exact E]. reflexivity.
  - eexists. split; [vm_compute; reflexivity|]. split; reflexivity.
Qed.

Lemma C4_unchanged_mark_is_inert_witness :
  batch_update_marks Demo.three_items Demo.db
  = batch_update_marks (tl Demo.three_items) Demo.db.
Proof.
  apply (proj2 (proj1 C4_unchanged_mark_is_inert
                  Demo.db [] (tl Demo.three_items)
                  (MarkService.mk_item 101 100 (Some "4"))
                  (Spec.start Demo.db) (Some 4) (Some Demo.maths)
                  (Mark.mk (Some 4) 100 101)
                  eq_refl
                  ltac:(discriminate) ltac:(discriminate)
                  eq_refl eq_refl eq_refl eq_refl)).
Defined.

(** Two items for the same new pair in one batch: the row the first one
    adds is not flushed, the second finds no row either, and both count. *)
Example two_items_for_a_new_pair :
  exists r,
    batch_update_marks
      [mk_item 104 300 (Some "5"); mk_item 104 300 (Some "5")] Demo.db
    = Ret r
    /\ count r = 2
    /\ enqueued r = [(104, "История", Some 5); (104, "История", Some 5)].
Proof. eexists. split; [vm_compute; reflexivity|]. split; reflexivity. Qed.



(* ================================================================== *)
(** * The range of a mark *)
(* ================================================================== *)











(** The same value in the table import: reported, and nothing written. *)
Example import_out_of_range :
  import_marks_from_table Demo.ilike_plain
    [mk_entry 100 "Смирнова Ольга" (Some "1")] Demo.db
  = (0, [OutOfRange (Some "1") "Смирнова Ольга"], Demo.db).
Proof. vm_compute. reflexivity. Qed.

Example import_in_range :
  fst (import_marks_from_table Demo.ilike_plain
         [mk_entry 100 "Смирнова Ольга" (Some "5")] Demo.db)
  = (1, []).
Proof. vm_compute. reflexivity. Qed.

(* ================================================================== *)
(** * The registration conversation *)
(* ================================================================== *)

Import Registration.

Section Conversation.

Variable ilike : string -> string -> bool.
Variable hash_password : string -> string.
Variable delete_message : Z -> Z -> result unit.

Local Abbreviation fio_handler :=
  (Registration.fio_handler ilike delete_message).
Local Abbreviation pwd_handler := (Registration.pwd_handler hash_password).
Local Abbreviation find_user_id := (Registration.find_user_id ilike).
Local Abbreviation register := (Registration.register hash_password).

Ltac run_handler :=
  unfold get_data, update_data, set_state, state_clear, set_db, log, sleep;
  unfold bind, try_except, try_finally, emit, modify, get, ret, raise,
    lift, answer, answer_photo, except_exception;
  cbn [state fsm_data db next_message_id d_role d_fio_prompt_msg_id d_fio
       d_user_id app fst snd].



(** The guard of [send_welcome_photo] on a bound sender. *)
Lemma welcome_bound_sender (user : Message.t) (w : world) :
  Spec.chat_bound (db w) (User.id (Message.from_user user)) ->
  send_welcome_photo user w
  = (Ret tt,
     mk_world None no_data (db w) (next_message_id w + 1),
     [Answer already_registered_text false]).
Proof.
  intros (tg & Hin & Hid). unfold send_welcome_photo. run_handler.
  assert (Hex : existsb (Z.eqb (User.id (Message.from_user user)))
                        (map Telegram.telegram_id (DB.telegrams (db w)))
                = true).
  { apply existsb_exists. exists (Telegram.telegram_id tg). split.
    - now apply in_map.
    - rewrite Hid. apply Z.eqb_refl. }
  rewrite Hex. reflexivity.
Qed.

(** The guard on a sender that is not bound: the flow starts. *)
Lemma welcome_unbound_sender (user : Message.t) (w : world) :
  ~ Spec.chat_bound (db w) (User.id (Message.from_user user)) ->
  send_welcome_photo user w
  = (Ret tt,
     mk_world (Some choosing_role) no_data (db w) (next_message_id w + 1),
     [AnswerPhoto (User.first_name (Message.from_user user))]).
Proof.
  intros Hn. unfold send_welcome_photo. run_handler.
  destruct (existsb (Z.eqb (User.id (Message.from_user user)))
                    (map Telegram.telegram_id (DB.telegrams (db w))))
    eqn:Hex; [|reflexivity].
  exfalso. apply Hn. apply existsb_exists in Hex.
  destruct Hex as (x & Hx & Ex). apply in_map_iff in Hx.
  destruct Hx as (tg & <- & Htg). exists tg. split; [exact Htg|].
  apply Z.eqb_eq in Ex. now symmetry.
Qed.

Lemma bind_telegram_bound (chat : Z) (d : DB.t) :
  exists tg, In tg (snd (StudentService.bind_telegram chat d))
             /\ Telegram.telegram_id tg = chat.
Proof.
  unfold StudentService.bind_telegram, DB.first.
  destruct (filter (fun x => Telegram.telegram_id x =? chat)
                   (DB.telegrams d)) as [|tg l] eqn:Ef; cbn [hd_error snd].
  - eexists. split; [apply in_or_app; right; now left|reflexivity].
  - assert (Hin : In tg (filter (fun x => Telegram.telegram_id x =? chat)
                                (DB.telegrams d)))
      by (rewrite Ef; now left).
    apply filter_In in Hin. destruct Hin as [Hin Hid].
    exists tg. split; [exact Hin|now apply Z.eqb_eq].
Qed.

(** A registration that succeeds binds the chat identifier. *)
Lemma register_binds
      (role : option string) (uid : option Z) (pw : string) (chat : Z)
      (d d' : DB.t) (l : option string) :
  register role uid pw chat d = Ret (l, d') -> Spec.chat_bound d' chat.
Proof.
  unfold Registration.register,
    StudentService.set_student_password_and_telegram,
    CuratorService.set_curator_password_and_telegram.
  destruct uid as [i|]; [|discriminate].
  pose proof (bind_telegram_bound chat d) as Hb.
  destruct (StudentService.bind_telegram chat d) as [tg tgs].
  cbn [snd] in Hb.
  destruct (role_is role "student").
  - destruct (find _ (DB.students d)); [|discriminate].
    intros H. injection H as _ <-. exact Hb.
  - destruct (find _ (DB.curators d)); [|discriminate].
    intros H. injection H as _ <-. exact Hb.
Qed.

(** The handler of the password when the registration succeeds. *)
Lemma pwd_handler_registers
      (message : Message.t) (w : world) (l : option string) (d' : DB.t) :
  4 <= PyStr.len (PyStr.strip (Message.text message)) ->
  register (d_role (fsm_data w)) (d_user_id (fsm_data w))
           (PyStr.strip (Message.text message))
           (User.id (Message.from_user message)) (db w)
  = Ret (l, d') ->
  pwd_handler message w
  = (Ret tt,
     mk_world None no_data d' (next_message_id w + 1),
     [Log INFO (PwdReceived (User.id (Message.from_user message)));
      Answer (registration_done_text
                l (PyStr.strip (Message.text message))) false;
      Log INFO (RegistrationDone
                  l (User.id (Message.from_user message)))]).
Proof.
  intros Hlen Hreg. unfold Registration.pwd_handler.
  destruct (Z.ltb_spec (PyStr.len (PyStr.strip (Message.text message))) 4);
    [lia|].
  run_handler. rewrite Hreg. run_handler. reflexivity.
Qed.

End Conversation.




(** The other two ways out of EnteringFullName, on the same conversation:
    two tokens re-prompt and stay, the name of a student moves on to the
    password. *)
Example fio_handler_two_tokens :
  let run := Registration.fio_handler Demo.ilike_plain Demo.delete_ok
                                      Demo.two_tokens Demo.asked_for_name in
  final run = Registration.mk_world
                (Some fio)
                (mk_data (Some "student") (Some 41) None None) Demo.db 43
  /\ events run
     = [Log INFO (FioReceived "Смирнова Ольга" 5009);
        Answer fio_invalid_text true].
Proof. split; vm_compute; reflexivity. Qed.

Example fio_handler_found :
  let run := Registration.fio_handler Demo.ilike_plain Demo.delete_ok
                                      Demo.own_name Demo.asked_for_name in
  state (final run) = Some pwd
  /\ d_user_id (fsm_data (final run)) = Some 102.
Proof. split; vm_compute; reflexivity. Qed.

(* ================================================================== *)
(** * The guard at the start of the registration *)
(* ================================================================== *)

(** [/start] from a chat that is bound answers "already registered" and
    leaves the conversation without a state. *)
Lemma start_command_bound (message : Message.t) (w : world) :
  Spec.chat_bound (db w) (User.id (Message.from_user message)) ->
  start_command message w
  = (Ret tt,
     mk_world None no_data (db w) (next_message_id w + 1),
     [Answer already_registered_text false]).
Proof. apply welcome_bound_sender. Qed.

(** A second [/start] after a registration that succeeded. *)
Lemma second_start_after_registration
      (hash_password : string -> string)
      (pwd_message start_message : Message.t) (w : world)
      (l : option string) (d' : DB.t) :
  4 <= PyStr.len (PyStr.strip (Message.text pwd_message)) ->
  Registration.register
    hash_password (d_role (fsm_data w)) (d_user_id (fsm_data w))
    (PyStr.strip (Message.text pwd_message))
    (User.id (Message.from_user pwd_message)) (db w)
  = Ret (l, d') ->
  User.id (Message.from_user start_message)
  = User.id (Message.from_user pwd_message) ->
  start_command
    start_message
    (final (Registration.pwd_handler hash_password pwd_message w))
  = (Ret tt,
     mk_world None no_data d' (next_message_id w + 1 + 1),
     [Answer already_registered_text false]).
Proof.
  intros Hlen Hreg Hid.
  rewrite (pwd_handler_registers hash_password pwd_message w l d' Hlen Hreg).
  cbn [final fst snd].
  rewrite start_command_bound; [reflexivity|].
  cbn [db]. rewrite Hid. eapply register_binds. exact Hreg.
Qed.

(** The welcome started from the Back button looks at the sender of the
    message that carries the button, whoever pressed it. *)
Lemma menu_handler_guard (callback : CallbackQuery.t) (w : world) :
  ~ Spec.chat_bound
      (db w)
      (User.id (Message.from_user (CallbackQuery.message callback))) ->
  menu_handler callback w
  = (Ret tt,
     mk_world (Some choosing_role) no_data (db w) (next_message_id w + 1),
     [AnswerPhoto (User.first_name
                     (Message.from_user (CallbackQuery.message callback)));
      AnswerCallback]).
Proof.
  intros Hn. unfold menu_handler, bind.
  rewrite (welcome_unbound_sender _ w Hn). reflexivity.
Qed.

(** C8, at the failing input. The student of chat 5001 is registered; when
    they press the Back button of an earlier message of the bot, the welcome
    is sent again and the conversation enters ChoosingRole: the guard tested
    the sender of that message, the bot (7000), not the caller. *)
Theorem C8_menu_start_skips_guard :
  Spec.chat_bound Demo.db
                  (User.id (CallbackQuery.from_user Demo.back_pressed))
  /\ menu_handler Demo.back_pressed Demo.idle
     = (Ret tt,
        mk_world (Some choosing_role) no_data Demo.db 51,
        [AnswerPhoto "Навигатор"; AnswerCallback])
  /\ start_command (Message.mk (CallbackQuery.from_user Demo.back_pressed)
                               5001 "/start")
                   Demo.idle
     = (Ret tt,
        mk_world None no_data Demo.db 51,
        [Answer already_registered_text false]).
Proof.
  split; [|split].
  - exists Demo.tg1. split; [now left|reflexivity].
  - vm_compute. reflexivity.
  - vm_compute. reflexivity.
Qed.

(** A whole registration on the demonstration school, then [/start]
    again. *)
Example register_then_start :
  let w1 := final (Registration.fio_handler
                     Demo.ilike_plain Demo.delete_ok
                     Demo.own_name Demo.asked_for_name) in
  let w2 := final (Registration.pwd_handler Demo.hash Demo.a_password w1) in
  let run := start_command Demo.start_message w2 in
  state w2 = None
  /\ Spec.chat_bound (db w2) 5009
  /\ find (fun s => Student.id s =? 102) (DB.students (db w2))
     = Some (Student.mk 102 None (Some "bcrypt:secret")
                        "Ольга" "Смирнова" "Игоревна" 10 (Some 4) true)
  /\ state (final run) = None
  /\ events run = [Answer already_registered_text false].
Proof.
  cbv zeta. split; [vm_compute; reflexivity|]. split.
  - exists (Telegram.mk 4 5009). split; [vm_compute; auto 10|reflexivity].
  - repeat split; vm_compute; reflexivity.
Qed.

(* ================================================================== *)
(** * More on the registration conversation *)
(* ================================================================== *)

Section ConversationMore.

Variable ilike : string -> string -> bool.
Variable hash_password : string -> string.
Variable delete_message : Z -> Z -> result unit.

Ltac run_handler :=
  unfold get_data, update_data, set_state, state_clear, set_db, log, sleep;
  unfold bind, try_except, try_finally, emit, modify, get, ret, raise,
    lift, answer, answer_photo, except_exception;
  cbn [state fsm_data db next_message_id d_role d_fio_prompt_msg_id d_fio
       d_user_id app fst snd].






End ConversationMore.





Lemma split_on_no_sep (sep : ascii) (cur r : list ascii) :
  (forall c, In c r -> Ascii.eqb c sep = false) ->
  PyStr.split_on_l sep cur r = [rev cur ++ r].
Proof.
  revert cur. induction r as [|c r IH]; intros cur Hno; simpl.
  - now rewrite app_nil_r.
  - rewrite (Hno c (or_introl eq_refl)).
    rewrite IH by (intros x Hx; apply Hno; now right).
    simpl. now rewrite <- app_assoc.
Qed.

(** The role a button of the form [role_<name>] stands for. *)
Lemma role_of_button (r : string) :
  (forall c, In c (list_ascii_of_string r) -> Ascii.eqb c "_" = false) ->
  nth 1 (PyStr.split_on "_" ("role_" ++ r)%string) "" = r.
Proof.
  intros Hno. unfold PyStr.split_on.
  change (list_ascii_of_string ("role_" ++ r)%string)
    with ("r" :: "o" :: "l" :: "e" :: "_" :: list_ascii_of_string r)%char.
  cbn [PyStr.split_on_l Ascii.eqb Bool.eqb].
  rewrite (split_on_no_sep _ [] _ Hno). cbn [map nth rev app].
  apply string_of_list_ascii_of_string.
Qed.

(** X5. Pressing a role button [role_<name>] (a name without underscore)
    stores that name as the chosen role, moves the conversation to the full
    name and remembers the identifier of the prompt it sent, so that the
    prompt can be deleted later. *)
Theorem X5_choose_role_stores_role
        (callback : CallbackQuery.t) (w : world) (r : string) :
  CallbackQuery.data callback = ("role_" ++ r)%string ->
  (forall c, In c (list_ascii_of_string r) -> Ascii.eqb c "_" = false) ->
  choose_role callback w
  = (Ret tt,
     mk_world (Some fio)
              (mk_data (Some r) (Some (next_message_id w))
                       (d_fio (fsm_data w)) (d_user_id (fsm_data w)))
              (db w) (next_message_id w + 1),
     [Answer fio_prompt_text false; AnswerCallback]).
Proof.
  intros Hd Hno. unfold choose_role. rewrite Hd, (role_of_button r Hno).
  unfold update_data, set_state, bind, modify, answer, emit.
  reflexivity.
Qed.

Lemma X5_choose_role_stores_role_witness :
  d_role (fsm_data (final (choose_role Demo2.pressed_student Demo.idle)))
  = Some "student".
Proof.
  rewrite (X5_choose_role_stores_role
             Demo2.pressed_student Demo.idle "student" eq_refl).
  - reflexivity.
  - intros c Hc. vm_compute in Hc.
    repeat (destruct Hc as [<-|Hc]; [reflexivity|]). contradiction.
Defined.

(* ================================================================== *)
(** * Binding a chat to a principal *)
(* ================================================================== *)

Lemma next_id_above (ids : list Z) (x : Z) : In x ids -> x < next_id ids.
Proof.
  unfold next_id. induction ids as [|a ids IH]; cbn [fold_right In];
    [contradiction|].
  intros [->|H]; [lia|]. specialize (IH H). lia.
Qed.

Lemma no_dup_ids_snoc (ids : list Z) (x : Z) :
  DB.no_dup_ids ids = true -> (forall y, In y ids -> y <> x) ->
  DB.no_dup_ids (ids ++ [x]) = true.
Proof.
  induction ids as [|a ids IH]; simpl; intros Hnd Hx; [reflexivity|].
  apply andb_true_iff in Hnd. destruct Hnd as [Ha Hl].
  apply andb_true_iff. split.
  - rewrite existsb_app. simpl.
    apply negb_true_iff in Ha. rewrite Ha. simpl.
    rewrite orb_false_r. apply negb_true_iff, Z.eqb_neq.
    apply (Hx a). now left.
  - apply IH; [exact Hl|]. intros y Hy. apply Hx. now right.
Qed.

Lemma chat_bound_filter (db : DB.t) (chat : Z) :
  Spec.chat_bound db chat
  <-> filter (fun x => Telegram.telegram_id x =? chat) (DB.telegrams db)
      <> [].
Proof.
  split.
  - intros (tg & Hin & Hid) E.
    assert (H : In tg (filter (fun x => Telegram.telegram_id x =? chat)
                              (DB.telegrams db))).
    { apply filter_In. split; [exact Hin|]. now apply Z.eqb_eq. }
    rewrite E in H. contradiction.
  - destruct (filter _ (DB.telegrams db)) as [|tg l] eqn:Ef;
      [congruence|]. intros _.
    assert (H : In tg (filter (fun x => Telegram.telegram_id x =? chat)
                              (DB.telegrams db)))
      by (rewrite Ef; now left).
    apply filter_In in H. destruct H as [Hin Hid].
    exists tg. split; [exact Hin|now apply Z.eqb_eq].
Qed.

Lemma bind_telegram_row (chat : Z) (db : DB.t) :
  In (fst (StudentService.bind_telegram chat db))
     (snd (StudentService.bind_telegram chat db))
  /\ Telegram.telegram_id (fst (StudentService.bind_telegram chat db))
     = chat.
Proof.
  unfold StudentService.bind_telegram, DB.first.
  destruct (filter (fun x => Telegram.telegram_id x =? chat)
                   (DB.telegrams db)) as [|tg l] eqn:Ef;
    cbn [hd_error fst snd Telegram.telegram_id].
  - split; [apply in_or_app; right; now left|reflexivity].
  - assert (Hin : In tg (filter (fun x => Telegram.telegram_id x =? chat)
                                (DB.telegrams db)))
      by (rewrite Ef; now left).
    apply filter_In in Hin. destruct Hin as [Hin Hid].
    split; [exact Hin|now apply Z.eqb_eq].
Qed.

(** X6. Binding a chat never makes a second Telegram row for it: a chat
    that has a row gets that row back and the table is left as it is; a
    chat without a row gets exactly one new row, whose key is above every
    key of the table, so keys that were unique stay unique. *)
Theorem X6_bind_telegram_no_duplicate (chat : Z) (db : DB.t) :
  let tg := fst (StudentService.bind_telegram chat db) in
  let tgs := snd (StudentService.bind_telegram chat db) in
  In tg tgs
  /\ Telegram.telegram_id tg = chat
  /\ (Spec.chat_bound db chat ->
      tgs = DB.telegrams db
      /\ Facts.rows_of_chat tgs chat
         = Facts.rows_of_chat (DB.telegrams db) chat)
  /\ (~ Spec.chat_bound db chat ->
      tgs = DB.telegrams db ++ [tg]
      /\ Facts.rows_of_chat tgs chat = 1%nat
      /\ forall x, In x (DB.telegrams db) -> Telegram.id x < Telegram.id tg)
  /\ (DB.no_dup_ids (map Telegram.id (DB.telegrams db)) = true ->
      DB.no_dup_ids (map Telegram.id tgs) = true).
Proof.
  cbv zeta. unfold StudentService.bind_telegram, DB.first.
  pose proof (chat_bound_filter db chat) as Hb.
  destruct (filter (fun x => Telegram.telegram_id x =? chat)
                   (DB.telegrams db)) as [|tg l] eqn:Ef;
    cbn [hd_error fst snd Telegram.telegram_id Telegram.id].
  - assert (Hn : ~ Spec.chat_bound db chat).
    { intros H. apply Hb in H. now apply H. }
    split; [apply in_or_app; right; now left|].
    split; [reflexivity|]. split; [intros H; contradiction|].
    assert (Hfresh : forall x, In x (DB.telegrams db) ->
                               Telegram.id x
                               < next_id (map Telegram.id (DB.telegrams db))).
    { intros x Hx. apply next_id_above. now apply in_map. }
    split.
    + intros _. split; [reflexivity|]. split; [|exact Hfresh].
      unfold Facts.rows_of_chat. rewrite filter_app, Ef.
      cbn [filter Telegram.telegram_id]. now rewrite Z.eqb_refl.
    + intros Hnd. rewrite map_app. cbn [map Telegram.id].
      apply no_dup_ids_snoc; [exact Hnd|].
      intros y Hy E. apply in_map_iff in Hy. destruct Hy as (x & <- & Hx).
      specialize (Hfresh x Hx). lia.
  - assert (Hin : In tg (filter (fun x => Telegram.telegram_id x =? chat)
                                (DB.telegrams db)))
      by (rewrite Ef; now left).
    apply filter_In in Hin. destruct Hin as [Hin Hid].
    split; [exact Hin|]. split; [now apply Z.eqb_eq|].
    split; [intros _; split; reflexivity|].
    split; [|auto].
    intros Hn. exfalso. apply Hn. apply Hb. discriminate.
Qed.

Lemma X6_bind_telegram_no_duplicate_witness :
  snd (StudentService.bind_telegram 5001 Demo.db) = DB.telegrams Demo.db
  /\ Facts.rows_of_chat (snd (StudentService.bind_telegram 5009 Demo.db))
                        5009 = 1%nat.
Proof.
  split.
  - apply (proj1 (proj2 (proj2 (X6_bind_telegram_no_duplicate 5001 Demo.db)))).
    exists Demo.tg1. split; [now left|reflexivity].
  - apply (proj1 (proj2 (proj2 (proj2
             (X6_bind_telegram_no_duplicate 5009 Demo.db))))).
    intros (tg & [<-|[<-|[<-|[]]]] & H); discriminate.
Defined.

(** X7. When the registration of a student succeeds, the stored row of
    that student carries the password hash, is marked verified and is linked
    to a Telegram row of the caller's chat; groups, exams and marks are
    untouched; and from then on the Recipient Resolver returns the caller's
    chat for every exam of the student's group. *)
Theorem X7_registered_student_is_reachable
        (hash_password : string -> string)
        (student_id : Z) (password : string) (chat : Z)
        (db db' : DB.t) (student : Student.t) :
  StudentService.set_student_password_and_telegram
    hash_password student_id password chat db
  = Ret (student, db') ->
  In student (DB.students db')
  /\ Student.id student = student_id
  /\ Student.password student = Some (hash_password password)
  /\ Student.verif student = true
  /\ Spec.linked_handle db' (Student.group_id student) chat
  /\ DB.groups db' = DB.groups db
  /\ DB.exams db' = DB.exams db
  /\ DB.marks db' = DB.marks db
  /\ (forall exam,
         DB.no_dup_ids (map Exam.id (DB.exams db)) = true ->
         In exam (DB.exams db) ->
         Exam.group_id exam = Student.group_id student ->
         exists ids,
           ExamService.get_telegram_ids_by_exam_id (Exam.id exam) db'
           = Ret ids
           /\ In chat ids).
Proof.
  unfold StudentService.set_student_password_and_telegram.
  destruct (find (fun s => Student.id s =? student_id) (DB.students db))
    as [s0|] eqn:Ef; [|discriminate].
  apply find_some in Ef. destruct Ef as [Hs0 Hid]. apply Z.eqb_eq in Hid.
  destruct (bind_telegram_row chat db) as (Htg & Hchat).
  destruct (StudentService.bind_telegram chat db) as [tg tgs].
  cbn [fst snd] in Htg, Hchat.
  intros H. injection H as <- <-.
  cbn [Student.id Student.password Student.verif Student.group_id
       DB.students DB.groups DB.exams DB.marks DB.telegrams].
  assert (Hin : In (Student.mk (Student.id s0) (Student.login s0)
                               (Some (hash_password password))
                               (Student.first_name s0) (Student.last_name s0)
                               (Student.patronymic s0) (Student.group_id s0)
                               (Some (Telegram.id tg)) true)
                   (map (fun s => if Student.id s =? student_id
                                  then Student.mk
                                         (Student.id s0) (Student.login s0)
                                         (Some (hash_password password))
                                         (Student.first_name s0)
                                         (Student.last_name s0)
                                         (Student.patronymic s0)
                                         (Student.group_id s0)
                                         (Some (Telegram.id tg)) true
                                  else s)
                        (DB.students db))).
  { apply in_map_iff. exists s0. split; [|exact Hs0].
    rewrite Hid, Z.eqb_refl. reflexivity. }
  assert (Hlink : Spec.linked_handle
                    (DB.mk (DB.curators db) (DB.groups db) tgs
                           (map (fun s => if Student.id s =? student_id
                                          then Student.mk
                                                 (Student.id s0)
                                                 (Student.login s0)
                                                 (Some (hash_password password))
                                                 (Student.first_name s0)
                                                 (Student.last_name s0)
                                                 (Student.patronymic s0)
                                                 (Student.group_id s0)
                                                 (Some (Telegram.id tg)) true
                                          else s)
                                (DB.students db))
                           (DB.exams db) (DB.marks db))
                    (Student.group_id s0) chat).
  { eexists _, tg. cbn [DB.students DB.telegrams].
    split; [exact Hin|]. split; [exact Htg|]. repeat split. exact Hchat. }
  split; [exact Hin|]. split; [exact Hid|]. repeat (split; [reflexivity|]).
  split; [exact Hlink|]. repeat (split; [reflexivity|]).
  intros exam Hnd Hex Hg.
  match goal with
  | |- context [ExamService.get_telegram_ids_by_exam_id _ ?d] =>
      destruct (resolver_on_existing_exam d (Exam.id exam) exam Hnd Hex
                                          eq_refl) as (ids & Hids & Hmem)
  end.
  exists ids. split; [exact Hids|]. apply Hmem. rewrite Hg. exact Hlink.
Qed.

Lemma X7_registered_student_is_reachable_witness :
  exists student db',
    StudentService.set_student_password_and_telegram
      Demo.hash 102 "secret" 5009 Demo.db
    = Ret (student, db')
    /\ exists ids,
        ExamService.get_telegram_ids_by_exam_id 100 db' = Ret ids
        /\ In 5009 ids.
Proof.
  pose proof (X7_registered_student_is_reachable
                Demo.hash 102 "secret" 5009 Demo.db _ _ eq_refl) as H.
  eexists. eexists. split; [reflexivity|].
  destruct H as (_ & _ & _ & _ & _ & _ & _ & _ & H).
  apply (H Demo.maths); [reflexivity|simpl; auto|reflexivity].
Defined.

(** The resolver on an identifier no exam has. *)
Lemma resolver_not_found (exam_id : Z) (db : DB.t) :
  (forall e, In e (DB.exams db) -> Exam.id e <> exam_id) ->
  ExamService.get_telegram_ids_by_exam_id exam_id db
  = Raise (HTTPException 404).
Proof.
  intros Hnone. unfold ExamService.get_telegram_ids_by_exam_id.
  rewrite (filter_key_none Exam.id exam_id _ Hnone). reflexivity.
Qed.

(* ================================================================== *)
(** * The notifications about an exam *)
(* ================================================================== *)

Section NotifyFacts.

Variable T : Type.
Variable send_message
  : T -> Z -> string -> option string -> result unit * T.

Local Abbreviation deliver := (Notify.deliver T send_message).
Local Abbreviation notify := (Notify.notify T send_message).

Lemma logged_never_raises (x : Notify.run T) :
  fst (fst (Notify.logged T x)) = Ret tt.
Proof. destruct x as [[[u|e] t] ev]; reflexivity. Qed.

Lemma sent_app (a b : list Notify.event) :
  Facts.sent (a ++ b) = Facts.sent a ++ Facts.sent b.
Proof.
  induction a as [|e a IH]; simpl; [reflexivity|].
  destruct e; simpl; rewrite ?IH; reflexivity.
Qed.

Lemma failures_app (a b : list Notify.event) :
  Facts.failures (a ++ b) = Facts.failures a ++ Facts.failures b.
Proof. apply filter_app. Qed.

(** The loop on a transport that delivers or rejects: nobody is left
    out. *)
Lemma deliver_rejects_only
      (ids : list Z) (text : string) (url : option string)
      (disc : string) (t : T) :
  Facts.rejects_only T send_message ->
  fst (fst (deliver ids text url disc t)) = Ret tt
  /\ (List.length (Facts.sent (snd (deliver ids text url disc t)))
      + List.length (Facts.failures (snd (deliver ids text url disc t))))%nat
     = List.length ids
  /\ (forall c m b,
         In (c, m, b) (Facts.sent (snd (deliver ids text url disc t))) ->
         In c ids /\ m = text /\ b = url)
  /\ Facts.pauses (snd (deliver ids text url disc t))
     = map (fun _ => 10)
           (Facts.sent (snd (deliver ids text url disc t))).
Proof.
  intros Hrej. revert t. induction ids as [|a ids IH]; intros t.
  - repeat split; simpl in *; try contradiction.
  - cbn [Notify.deliver].
    destruct (Hrej t a text url) as [Ha|Ha];
      destruct (send_message t a text url) as [[u|e] t1];
      cbn [fst] in Ha; try discriminate;
      [|injection Ha as ->];
      destruct (IH t1) as (I1 & I2 & I3 & I4);
      destruct (deliver ids text url disc t1) as [[r t2] ev];
      cbn [fst snd] in *; subst r;
      cbn [Facts.sent Facts.failures Facts.pauses filter List.length map];
      fold (Facts.failures ev).
    + split; [reflexivity|]. split; [lia|]. split.
      * intros c m b [E|H].
        -- injection E as <- <- <-.
           split; [left; reflexivity|split; reflexivity].
        -- destruct (I3 c m b H) as (? & ? & ?).
           split; [right; assumption|split; assumption].
      * now rewrite I4.
    + split; [reflexivity|]. split; [lia|]. split.
      * intros c m b H. destruct (I3 c m b H) as (? & ? & ?).
        split; [right; assumption|split; assumption].
      * exact I4.
Qed.

(** The loop on a transport that delivers. *)
Lemma deliver_reliable
      (ids : list Z) (text : string) (url : option string)
      (disc : string) (t : T) :
  Facts.reliable T send_message ->
  fst (fst (deliver ids text url disc t)) = Ret tt
  /\ Facts.sent (snd (deliver ids text url disc t))
     = map (fun c => (c, text, url)) ids.
Proof.
  intros Hrel. revert t. induction ids as [|a ids IH]; intros t.
  - split; reflexivity.
  - cbn [Notify.deliver]. pose proof (Hrel t a text url) as Ha.
    destruct (send_message t a text url) as [[u|e] t1];
      cbn [fst] in Ha; [|discriminate].
    destruct (IH t1) as (I1 & I2).
    destruct (deliver ids text url disc t1) as [[r t2] ev].
    cbn [fst snd] in *. subst r. cbn [Facts.sent map]. now rewrite I2.
Qed.

(** X8. The notifications about an exam never raise to their caller,
    whatever the database and the transport do. For an exam that does not
    exist the resolver's not-found error ends the run before the exam is
    read: nothing is sent and the only line logged is the catch-all error,
    never the "exam not found" warning. *)
Theorem X8_exam_notifications_never_raise
        (exam_id : Z) (db : DB.t) (t : T) (link : string) :
  fst (fst (Notify.notify_students_about_exam_creation
              T send_message exam_id db t)) = Ret tt
  /\ fst (fst (Notify.notify_students_about_exam_link
                 T send_message exam_id link db t)) = Ret tt
  /\ ((forall e, In e (DB.exams db) -> Exam.id e <> exam_id) ->
      Notify.notify_students_about_exam_creation
        T send_message exam_id db t
      = (Ret tt, t, [Notify.Log ERROR Notify.NotifyFailed])
      /\ Notify.notify_students_about_exam_link
           T send_message exam_id link db t
         = (Ret tt, t, [Notify.Log ERROR Notify.NotifyFailed])).
Proof.
  split; [apply logged_never_raises|].
  split; [apply logged_never_raises|].
  intros Hnone.
  unfold Notify.notify_students_about_exam_creation,
    Notify.notify_students_about_exam_link, Notify.notify.
  rewrite (resolver_not_found exam_id db Hnone). split; reflexivity.
Qed.

(** X9. On a transport that only delivers or rejects the request, the
    notification that an exam was created reaches out to every recipient
    the resolver returns: each of them gets the message or a logged
    warning, every message sent is the creation text of that exam without
    a button, and each delivery is followed by a pause of 10. On a
    transport that delivers, the messages sent are exactly one per
    recipient, in the resolver's order. *)
Theorem X9_creation_reaches_every_recipient
        (exam : Exam.t) (curator : Curator.t) (db : DB.t) (t : T) :
  DB.no_dup_ids (map Exam.id (DB.exams db)) = true ->
  In exam (DB.exams db) ->
  DB.curator_of db exam = Some curator ->
  let text :=
    Notify.creation_text (Bot.exam_type_text exam) (Exam.discipline exam)
                         (Bot.curator_fio curator)
                         (Exam.holding_date exam) in
  let ev := snd (Notify.notify_students_about_exam_creation
                   T send_message (Exam.id exam) db t) in
  exists ids,
    ExamService.get_telegram_ids_by_exam_id (Exam.id exam) db = Ret ids
    /\ (Facts.rejects_only T send_message ->
        (List.length (Facts.sent ev)
         + List.length (Facts.failures ev))%nat = List.length ids
        /\ (forall c m b, In (c, m, b) (Facts.sent ev) ->
                          In c ids /\ m = text /\ b = None)
        /\ Facts.pauses ev = map (fun _ => 10) (Facts.sent ev))
    /\ (Facts.reliable T send_message ->
        Facts.sent ev = map (fun c => (c, text, None)) ids).
Proof.
  intros Hnd Hin Hc. cbv zeta.
  destruct (resolver_on_existing_exam db (Exam.id exam) exam Hnd Hin
                                      eq_refl) as (ids & Hids & _).
  exists ids. split; [exact Hids|].
  unfold Notify.notify_students_about_exam_creation, Notify.notify.
  rewrite Hids. unfold ExamService.get_exam_details.
  rewrite (filter_key_unique Exam.id (Exam.id exam) _ exam Hnd Hin
                             eq_refl).
  cbn [DB.scalar_one_or_none]. rewrite Hc.
  split.
  - intros Hrej.
    match goal with
    | |- context [Notify.deliver T send_message ids ?tx ?u ?d t] =>
        destruct (deliver_rejects_only ids tx u d t Hrej)
          as (D1 & D2 & D3 & D4);
        destruct (Notify.deliver T send_message ids tx u d t)
          as [[r t2] ev]
    end.
    cbn [fst snd] in *. subst r. cbn [Notify.logged snd].
    split; [exact D2|]. split; [exact D3|exact D4].
  - intros Hrel.
    match goal with
    | |- context [Notify.deliver T send_message ids ?tx ?u ?d t] =>
        destruct (deliver_reliable ids tx u d t Hrel) as (D1 & D2);
        destruct (Notify.deliver T send_message ids tx u d t)
          as [[r t2] ev]
    end.
    cbn [fst snd] in *. subst r. cbn [Notify.logged snd]. exact D2.
Qed.

End NotifyFacts.

Lemma X8_exam_notifications_never_raise_witness :
  Notify.notify_students_about_exam_creation
    unit Demo2.bad_chat 999 Demo.db tt
  = (Ret tt, tt, [Notify.Log ERROR Notify.NotifyFailed]).
Proof.
  apply (proj2 (proj2 (X8_exam_notifications_never_raise
                         unit Demo2.bad_chat 999 Demo.db tt ""))).
  intros e He. simpl in He.
  repeat (destruct He as [<-|He]; [discriminate|]). contradiction.
Defined.

Lemma X9_creation_reaches_every_recipient_witness :
  exists ids,
    ExamService.get_telegram_ids_by_exam_id 100 Demo.db = Ret ids
    /\ (List.length
          (Facts.sent
             (snd (Notify.notify_students_about_exam_creation
                     unit Demo2.bad_chat 100 Demo.db tt)))
        + List.length
            (Facts.failures
               (snd (Notify.notify_students_about_exam_creation
                       unit Demo2.bad_chat 100 Demo.db tt))))%nat
       = List.length ids.
Proof.
  destruct (X9_creation_reaches_every_recipient
              unit Demo2.bad_chat Demo.maths _ Demo.db tt
              eq_refl (or_introl eq_refl) eq_refl)
    as (ids & Hids & Hrej & _).
  exists ids. split; [exact Hids|].
  apply Hrej. intros t c m b. unfold Demo2.bad_chat.
  destruct (c =? 5002); [right|left]; reflexivity.
Defined.

(* ================================================================== *)
(** * The pauses of the notifiers *)
(* ================================================================== *)

Lemma actions_app (a b : list event) :
  Facts.actions (a ++ b) = Facts.actions a ++ Facts.actions b.
Proof. apply filter_app. Qed.

Lemma alternates_app (b : list event) :
  Facts.alternates b = true ->
  forall a, (Facts.alternates a = true -> Facts.alternates (a ++ b) = true)
            /\ (forall e, Facts.alternates (e :: a) = true ->
                          Facts.alternates ((e :: a) ++ b) = true).
Proof.
  intros Hb. induction a as [|x a [IH1 IH2]].
  - split; [intros _; exact Hb|].
    intros e He. destruct e; discriminate.
  - split; [apply IH2|].
    intros e He. destruct e; try discriminate.
    destruct x; try discriminate.
    cbn [Facts.alternates app] in *.
    apply andb_true_iff in He. destruct He as [Hn Ha].
    rewrite Hn. cbn [andb]. apply IH1, Ha.
Qed.

Lemma paced_app (a b : list event) :
  Facts.paced a -> Facts.paced b -> Facts.paced (a ++ b).
Proof.
  unfold Facts.paced. intros Ha Hb. rewrite actions_app.
  apply (alternates_app _ Hb), Ha.
Qed.

Section Pacing.

Context {S : Type}.

Lemma paced_bind {A B} (m : M S A) (k : A -> M S B) (s : S) :
  Facts.paced (events (m s)) ->
  (forall a s1, Facts.paced (events (k a s1))) ->
  Facts.paced (events (bind m k s)).
Proof.
  intros Hm Hk. unfold bind.
  destruct (m s) as [[[a|e] s1] ev1]; [|exact Hm].
  specialize (Hk a s1). destruct (k a s1) as [[r s2] ev2].
  unfold events in *. cbn [snd] in *. now apply paced_app.
Qed.

Lemma paced_try_except {A} (m : M S A) (h : exn -> option (M S A))
      (s : S) :
  Facts.paced (events (m s)) ->
  (forall e k s1, h e = Some k -> Facts.paced (events (k s1))) ->
  Facts.paced (events (try_except m h s)).
Proof.
  intros Hm Hh. unfold try_except.
  destruct (m s) as [[[a|e] s1] ev1]; [exact Hm|].
  destruct (h e) as [k|] eqn:Ek; [|exact Hm].
  specialize (Hh e k s1 Ek). destruct (k s1) as [[r s2] ev2].
  unfold events in *. cbn [snd] in *. now apply paced_app.
Qed.

Lemma paced_for_each {X} (body : X -> M S unit) (xs : list X) (s : S) :
  (forall x s1, Facts.paced (events (body x s1))) ->
  Facts.paced (events (for_each xs body s)).
Proof.
  intros Hb. revert s. induction xs as [|x xs IH]; intros s;
    [reflexivity|].
  cbn [for_each]. apply paced_bind; [apply Hb|intros _ s1; apply IH].
Qed.

Lemma paced_log (lvl : level) (msg : log_msg) (s : S) :
  Facts.paced (events (log lvl msg s)).
Proof. reflexivity. Qed.

End Pacing.

Section PacedNotifiers.

Variable T : Type.
Variable send_message : T -> Z -> string -> result unit * T.

Lemma paced_send_reminder (text disc : string) (tg_id : Z) (t : T) :
  Facts.paced (events (Bot.send_reminder T send_message text disc tg_id t)).
Proof.
  rewrite send_reminder_run.
  destruct (send_message t tg_id text) as [[u|e] t'];
    [reflexivity|destruct e; reflexivity].
Qed.

Lemma paced_scan_exam (db : DB.t) (today : PyDate.date) (exam : Exam.t)
      (t : T) :
  Facts.paced (events (Bot.scan_exam T send_message db today exam t)).
Proof.
  unfold Bot.scan_exam. apply paced_try_except.
  - unfold Bot.remind_exam.
    destruct (PyDate.strptime (Exam.holding_date exam)) as [d|];
      [|reflexivity].
    destruct (DB.curator_of db exam) as [c|]; [|reflexivity].
    cbv zeta.
    destruct ((PyDate.days_between d today =? 1)
              || (PyDate.days_between d today =? 3)); [|reflexivity].
    apply paced_bind.
    + destruct (ExamService.get_telegram_ids_by_exam_id (Exam.id exam) db);
        reflexivity.
    + intros ids s1. unfold Bot.send_reminder_loop.
      apply paced_for_each. intros x s2. apply paced_send_reminder.
  - intros e k s1 Hk. unfold except_value_error_then in Hk.
    destruct e; injection Hk as <-; apply paced_log.
Qed.

(** X10. Whatever the transport does, the reminder scan does nothing but
    log, deliver and pause, and every reminder it delivers is followed at
    once by a pause of 10: it never delivers two messages without a pause
    between them and never pauses after a failed delivery. *)
Theorem X10_reminders_are_paced (db : DB.t) (today : PyDate.date) (t : T) :
  Facts.paced (events (Bot.send_exam_reminders T send_message db today t)).
Proof.
  unfold Bot.send_exam_reminders. apply paced_try_except.
  - apply paced_bind; [apply paced_log|].
    intros _ s1. apply paced_for_each. intros x s2. apply paced_scan_exam.
  - intros e k s1 Hk. unfold except_exception in Hk.
    injection Hk as <-. apply paced_log.
Qed.

Lemma sleeps_app (a b : list event) :
  Facts.sleeps (a ++ b) = Facts.sleeps a ++ Facts.sleeps b.
Proof.
  induction a as [|e a IH]; simpl; [reflexivity|].
  destruct e; simpl; rewrite ?IH; reflexivity.
Qed.

(** X11. The mark notifier pauses 10 after every notification of the
    batch, delivered or not: whatever the transport does and whether or
    not the student has a chat bound, a batch of N notifications makes
    exactly N pauses of 10 and at most N deliveries. *)
Theorem X11_mark_notifier_pauses_every_item
        (db : DB.t) (ns : list MarkService.notification) (t : T) :
  Facts.sleeps (events (MarkService.send_notifications_with_delay
                          T send_message db ns t))
  = map (fun _ => 10) ns
  /\ (List.length
        (sent_messages (events (MarkService.send_notifications_with_delay
                                  T send_message db ns t)))
      <= List.length ns)%nat.
Proof.
  unfold MarkService.send_notifications_with_delay.
  revert t. induction ns as [|[[sid name] mark] ns IH]; intros t.
  - split; [reflexivity|simpl; lia].
  - rewrite for_each_cons_total by apply send_notification_total.
    cbn [events snd]. rewrite send_notification_run.
    cbn [final events fst snd].
    rewrite sleeps_app, sent_messages_app.
    match goal with
    | |- context [for_each ns ?b ?t1] =>
        destruct (IH t1) as [I1 I2];
        destruct (for_each ns b t1) as [[r2 s2] ev2]
    end.
    unfold events in *. cbn [snd] in I1, I2. cbn [snd].
    rewrite I1. rewrite length_app.
    rewrite notify_student_mark_run.
    destruct (Bot.mark_recipient db sid) as [tg|];
      [destruct (send_message t tg (Bot.mark_message name mark))
         as [[u|e] t']; [|destruct e]|];
      cbn [fst snd app Facts.sleeps sent_messages List.length map] in *;
      (split; [reflexivity|lia]).
Qed.

End PacedNotifiers.

(* ================================================================== *)
(** * The batch mark update: what it leaves alone, and running it twice *)
(* ================================================================== *)

Local Abbreviation all_rows b := (rows (sess b) ++ pending (sess b)).

Lemma same_pair_true (sid eid : Z) (m : Mark.t) :
  same_pair sid eid m = true
  <-> Mark.student_id m = sid /\ Mark.exam_id m = eid.
Proof.
  unfold same_pair. rewrite andb_true_iff, !Z.eqb_eq. tauto.
Qed.

Lemma assign_first_other (sid eid sid' eid' : Z) (v : option Z)
      (l : list Mark.t) :
  (sid, eid) <> (sid', eid') ->
  Facts.rows_of_pair sid' eid' (assign_first sid eid v l)
  = Facts.rows_of_pair sid' eid' l.
Proof.
  intros Hne. unfold Facts.rows_of_pair.
  induction l as [|a l IH]; [reflexivity|].
  simpl assign_first. destruct (same_pair sid eid a) eqn:Ea.
  - apply same_pair_true in Ea. destruct Ea as [E1 E2].
    cbn [filter].
    assert (Hf : forall x, Mark.student_id x = sid -> Mark.exam_id x = eid ->
                           same_pair sid' eid' x = false).
    { intros x X1 X2. destruct (same_pair sid' eid' x) eqn:Ex;
        [|reflexivity].
      apply same_pair_true in Ex. destruct Ex. exfalso. apply Hne.
      congruence. }
    rewrite (Hf a E1 E2).
    now rewrite (Hf (Mark.mk v (Mark.exam_id a) (Mark.student_id a)) E1 E2).
  - cbn [filter]. now rewrite IH.
Qed.


Lemma assign_first_length (sid eid : Z) (v : option Z) (l : list Mark.t) :
  List.length (assign_first sid eid v l) = List.length l.
Proof.
  induction l as [|a l IH]; [reflexivity|].
  simpl assign_first. destruct (same_pair sid eid a); simpl; congruence.
Qed.

Lemma rows_of_pair_app (sid eid : Z) (a b : list Mark.t) :
  Facts.rows_of_pair sid eid (a ++ b)
  = Facts.rows_of_pair sid eid a ++ Facts.rows_of_pair sid eid b.
Proof. apply filter_app. Qed.


Lemma first_none {A} (a : list A) : DB.first a = None -> a = [].
Proof. destruct a; [reflexivity|discriminate]. Qed.

(** One turn leaves the rows of every other pair as they are. *)
Lemma update_one_frame (db : DB.t) (b b' : batch) (item : MarkUpdateItem)
      (sid eid : Z) :
  update_one db b item = Ret b' ->
  Facts.pair_of item <> (sid, eid) ->
  Facts.rows_of_pair sid eid (all_rows b')
  = Facts.rows_of_pair sid eid (all_rows b).
Proof.
  intros H Hne.
  destruct (update_one_cases _ _ _ _ H)
    as (v & ex & _ & _ & _ & _ & [[-> _]|[[-> _]|[-> _]]]);
    [reflexivity| |]; cbn [sess rows pending].
  - rewrite !rows_of_pair_app. now rewrite assign_first_other.
  - rewrite !rows_of_pair_app. unfold Facts.rows_of_pair at 3.
    cbn [filter].
    destruct (same_pair sid eid
                        (Mark.mk v (exam_id item) (student_id item))) eqn:E.
    + apply same_pair_true in E. cbn in E. destruct E. exfalso.
      apply Hne. unfold Facts.pair_of. congruence.
    + now rewrite app_nil_r.
Qed.

Lemma update_all_frame (db : DB.t) (items : list MarkUpdateItem)
      (b b' : batch) (sid eid : Z) :
  update_all db b items = Ret b' ->
  (forall item, In item items -> Facts.pair_of item <> (sid, eid)) ->
  Facts.rows_of_pair sid eid (all_rows b')
  = Facts.rows_of_pair sid eid (all_rows b).
Proof.
  revert b. induction items as [|x items IH]; simpl; intros b H Hne.
  - now injection H as <-.
  - destruct (update_one db b x) as [b1|] eqn:E; [|discriminate].
    rewrite (IH b1 H) by (intros; apply Hne; now right).
    apply (update_one_frame _ _ _ _ _ _ E). apply Hne. now left.
Qed.

Lemma update_one_length (db : DB.t) (b b' : batch) (item : MarkUpdateItem) :
  update_one db b item = Ret b' ->
  (List.length (all_rows b) <= List.length (all_rows b'))%nat.
Proof.
  intros H.
  destruct (update_one_cases _ _ _ _ H)
    as (v & ex & _ & _ & _ & _ & [[-> _]|[[-> _]|[-> _]]]);
    cbn [sess rows pending]; rewrite ?length_app, ?assign_first_length;
    cbn [List.length]; lia.
Qed.

Lemma update_all_length (db : DB.t) (items : list MarkUpdateItem)
      (b b' : batch) :
  update_all db b items = Ret b' ->
  (List.length (all_rows b) <= List.length (all_rows b'))%nat.
Proof.
  revert b. induction items as [|x items IH]; simpl; intros b H.
  - injection H as <-. lia.
  - destruct (update_one db b x) as [b1|] eqn:E; [|discriminate].
    pose proof (update_one_length _ _ _ _ E). pose proof (IH _ H). lia.
Qed.


(** X12. A successful batch mark update touches the marks table only, and
    in it only the pairs its items address: the rows of any other (student,
    exam) pair are in the committed database exactly as they were, in the
    same order, and no row of the table is deleted. *)
Theorem X12_batch_leaves_other_pairs
        (items : list MarkUpdateItem) (db : DB.t) (r : batch_result) :
  batch_update_marks items db = Ret r ->
  DB.curators (committed r) = DB.curators db
  /\ DB.groups (committed r) = DB.groups db
  /\ DB.telegrams (committed r) = DB.telegrams db
  /\ DB.students (committed r) = DB.students db
  /\ DB.exams (committed r) = DB.exams db
  /\ (List.length (DB.marks db) <= List.length (DB.marks (committed r)))%nat
  /\ (forall sid eid,
         (forall item, In item items -> Facts.pair_of item <> (sid, eid)) ->
         Facts.rows_of_pair sid eid (DB.marks (committed r))
         = Facts.rows_of_pair sid eid (DB.marks db)).
Proof.
  unfold batch_update_marks.
  destruct (update_all db (mk_batch (open_session db) 0 []) items)
    as [b|] eqn:E; [|discriminate].
  intros H. injection H as <-. cbn [committed commit DB.curators DB.groups
                                   DB.telegrams DB.students DB.exams DB.marks].
  repeat (split; [reflexivity|]). split.
  - pose proof (update_all_length _ _ _ _ E) as L.
    cbn [sess open_session rows pending] in L. now rewrite app_nil_r in L.
  - intros sid eid Hne.
    rewrite (update_all_frame _ _ _ _ sid eid E Hne).
    cbn [sess open_session rows pending]. now rewrite app_nil_r.
Qed.

Lemma X12_batch_leaves_other_pairs_witness :
  exists r,
    batch_update_marks Demo.three_items Demo.db = Ret r
    /\ DB.exams (committed r) = DB.exams Demo.db.
Proof.
  eexists. split; [vm_compute; reflexivity|].
  apply (X12_batch_leaves_other_pairs Demo.three_items Demo.db).
  vm_compute. reflexivity.
Defined.








(** Without distinct pairs a batch need not be idempotent: the last item
    of a pair wins the first time, the first one is applied again the
    second time. *)
Example repeated_pair_is_applied_again :
  exists r r',
    batch_update_marks [mk_item 101 100 (Some "3"); mk_item 101 100 (Some "5")]
                       Demo.db = Ret r
    /\ batch_update_marks
         [mk_item 101 100 (Some "3"); mk_item 101 100 (Some "5")]
         (committed r) = Ret r'
    /\ count r' = 2.
Proof. eexists. eexists. vm_compute. repeat split. Qed.

(* ================================================================== *)
(** * What the batch endpoint answers; the count of the import *)
(* ================================================================== *)





Section ImportCount.

Variable ilike : string -> string -> bool.




End ImportCount.

(* ================================================================== *)
(** * Creating, linking and deleting an exam *)
(* ================================================================== *)

Lemma filter_map_commute {A} (p : A -> bool) (f : A -> A) (l : list A) :
  (forall x, p (f x) = p x) ->
  filter p (map f l) = map f (filter p l).
Proof.
  intros Hp. induction l as [|a l IH]; [reflexivity|].
  cbn [map filter]. rewrite Hp. destruct (p a); cbn [map]; now rewrite IH.
Qed.

Lemma first_filter_some {A} (p : A -> bool) (l : list A) (x : A) :
  DB.first (filter p l) = Some x -> In x l /\ p x = true.
Proof.
  unfold DB.first. intros H. apply filter_In.
  destruct (filter p l) as [|y l']; [discriminate|].
  injection H as ->. now left.
Qed.

Lemma first_filter_none {A} (p : A -> bool) (l : list A) :
  DB.first (filter p l) = None -> forall x, In x l -> p x = false.
Proof.
  intros H x Hx. apply first_none in H.
  destruct (p x) eqn:E; [|reflexivity].
  assert (Hin : In x (filter p l)) by (apply filter_In; auto).
  rewrite H in Hin. contradiction.
Qed.



Lemma scalar_one (A : Type) (l : list A) (x : A) :
  DB.scalar_one_or_none l = Ret (Some x) -> l = [x].
Proof.
  destruct l as [|a [|b l]]; simpl; intros H; try discriminate.
  now injection H as ->.
Qed.

Lemma scalar_none (A : Type) (l : list A) :
  DB.scalar_one_or_none l = Ret None -> l = [].
Proof. destruct l as [|a [|b l]]; simpl; intros H; now try discriminate. Qed.

Lemma scalar_raises (A : Type) (l : list A) (e : exn) :
  DB.scalar_one_or_none l = Raise e -> e = HTTPException 500.
Proof.
  destruct l as [|a [|b l]]; simpl; intros H; try discriminate.
  now injection H as <-.
Qed.

Lemma scalar_map {A} (f : A -> A) (l : list A) :
  DB.scalar_one_or_none (map f l)
  = match DB.scalar_one_or_none l with
    | Ret (Some x) => Ret (Some (f x))
    | Ret None => Ret None
    | Raise e => Raise e
    end.
Proof. destruct l as [|a [|b l]]; reflexivity. Qed.

(** X17. Attaching a link to an exam. When no exam has the identifier the
    service answers [None] and leaves the database as it is. Otherwise the
    answer carries the new link, the exam read back is the old one with
    only its link replaced, every other exam is as before, no identifier is
    added or lost, and the recipients of every exam are resolved as
    before. The only error is 500, when the identifier is not unique. *)
Theorem X17_update_exam_link_changes_only_the_link
        (exam_id : Z) (new_link : option string) (db : DB.t) :
  match ExamWrites.update_exam_link exam_id new_link db with
  | Raise e => e = HTTPException 500
  | Ret (None, db') =>
      db' = db /\ forall x, In x (DB.exams db) -> Exam.id x <> exam_id
  | Ret (Some d, db') =>
      exists exam,
        In exam (DB.exams db) /\ Exam.id exam = exam_id
        /\ ExamService.d_id d = exam_id
        /\ ExamService.d_link d = new_link
        /\ ExamService.get_exam_details exam_id db'
           = Ret (Some (ExamWrites.set_link new_link exam))
        /\ map Exam.id (DB.exams db') = map Exam.id (DB.exams db)
        /\ (forall x, In x (DB.exams db) -> Exam.id x <> exam_id ->
                      In x (DB.exams db'))
        /\ (forall k, ExamService.get_telegram_ids_by_exam_id k db'
                      = ExamService.get_telegram_ids_by_exam_id k db)
        /\ DB.marks db' = DB.marks db
        /\ DB.students db' = DB.students db
        /\ DB.groups db' = DB.groups db
  end.
Proof.
  unfold ExamWrites.update_exam_link.
  destruct (DB.scalar_one_or_none
              (filter (fun e => Exam.id e =? exam_id) (DB.exams db)))
    as [[exam|]|e] eqn:E.
  - cbv zeta. apply scalar_one in E.
    assert (Hin : In exam (filter (fun e => Exam.id e =? exam_id)
                                  (DB.exams db)))
      by (rewrite E; now left).
    apply filter_In in Hin. destruct Hin as [Hin Hid].
    apply Z.eqb_eq in Hid.
    set (f := fun e => if Exam.id e =? exam_id
                       then ExamWrites.set_link new_link e else e).
    assert (Hf : forall k x, (Exam.id (f x) =? k) = (Exam.id x =? k)).
    { intros k x. unfold f. now destruct (Exam.id x =? exam_id). }
    exists exam. split; [exact Hin|]. split; [exact Hid|].
    split; [exact Hid|]. split; [reflexivity|].
    split.
    { unfold ExamService.get_exam_details. cbn [DB.exams].
      rewrite (filter_map_commute (fun e => Exam.id e =? exam_id) f)
        by (intros x; apply Hf).
      rewrite E. cbn [map DB.scalar_one_or_none]. unfold f.
      now rewrite (proj2 (Z.eqb_eq _ _) Hid). }
    split.
    { cbn [DB.exams]. rewrite map_map. apply map_ext. intros x.
      unfold f. now destruct (Exam.id x =? exam_id). }
    split.
    { intros x Hx Hne. cbn [DB.exams]. apply in_map_iff. exists x.
      split; [|exact Hx]. unfold f.
      now rewrite (proj2 (Z.eqb_neq _ _) Hne). }
    split.
    { intros k. unfold ExamService.get_telegram_ids_by_exam_id.
      cbn [DB.exams DB.students DB.telegrams].
      rewrite (filter_map_commute (fun e => Exam.id e =? k) f)
        by (intros x; apply Hf).
      rewrite scalar_map.
      destruct (DB.scalar_one_or_none
                  (filter (fun e => Exam.id e =? k) (DB.exams db)))
        as [[x|]|e1]; try reflexivity.
      unfold f. now destruct (Exam.id x =? exam_id). }
    repeat split.
  - apply scalar_none in E. split; [reflexivity|].
    intros x Hx Hid.
    assert (Hin : In x (filter (fun e => Exam.id e =? exam_id)
                               (DB.exams db)))
      by (apply filter_In; split; [exact Hx|now apply Z.eqb_eq]).
    rewrite E in Hin. contradiction.
  - now apply scalar_raises in E.
Qed.

(** X18. Deleting an exam, under the cascading foreign keys of the schema.
    When no exam has the identifier the service raises 404 and nothing
    else. Otherwise it answers [True], the exams
    left are exactly the other exams, the marks left are exactly the marks
    of other exams, and no other table changes; afterwards the identifier
    is not found any more: reading the exam answers [None], resolving its
    recipients and deleting it again raise 404. *)
Theorem X18_delete_exam_takes_its_marks (exam_id : Z) (db : DB.t) :
  match ExamWrites.delete_exam exam_id db with
  | Raise e =>
      e = HTTPException 404
      /\ forall x, In x (DB.exams db) -> Exam.id x <> exam_id
  | Ret (deleted, db') =>
      deleted = true
      /\ (exists x, In x (DB.exams db) /\ Exam.id x = exam_id)
      /\ (forall x, In x (DB.exams db')
                    <-> In x (DB.exams db) /\ Exam.id x <> exam_id)
      /\ (forall m, In m (DB.marks db')
                    <-> In m (DB.marks db) /\ Mark.exam_id m <> exam_id)
      /\ DB.students db' = DB.students db
      /\ DB.groups db' = DB.groups db
      /\ DB.telegrams db' = DB.telegrams db
      /\ DB.curators db' = DB.curators db
      /\ ExamService.get_exam_details exam_id db' = Ret None
      /\ ExamService.get_telegram_ids_by_exam_id exam_id db'
         = Raise (HTTPException 404)
      /\ ExamWrites.delete_exam exam_id db' = Raise (HTTPException 404)
  end.
Proof.
  unfold ExamWrites.delete_exam at 1.
  destruct (DB.first (filter (fun e => Exam.id e =? exam_id) (DB.exams db)))
    as [exam|] eqn:E.
  - apply first_filter_some in E. destruct E as [Hin Hid].
    apply Z.eqb_eq in Hid.
    assert (Hgone : forall A (key : A -> Z) (l : list A) (x : A),
               In x (filter (fun e => negb (key e =? exam_id)) l)
               <-> In x l /\ key x <> exam_id).
    { intros A key l x. rewrite filter_In, negb_true_iff, Z.eqb_neq.
      tauto. }
    assert (Hnone :
              filter (fun e => Exam.id e =? exam_id)
                     (filter (fun e => negb (Exam.id e =? exam_id))
                             (DB.exams db)) = []).
    { apply filter_key_none. intros y Hy. now apply Hgone in Hy. }
    split; [reflexivity|]. split; [now exists exam|].
    cbn [DB.exams DB.marks DB.students DB.groups DB.telegrams DB.curators].
    split; [intros x; apply (Hgone _ Exam.id)|].
    split; [intros m; apply (Hgone _ Mark.exam_id)|].
    repeat (split; [reflexivity|]).
    unfold ExamService.get_exam_details,
      ExamService.get_telegram_ids_by_exam_id, ExamWrites.delete_exam.
    cbn [DB.exams]. rewrite Hnone. repeat split.
  - split; [reflexivity|]. intros x Hx.
    apply Z.eqb_neq. now apply (first_filter_none _ _ E).
Qed.

(* ================================================================== *)
(** * What the endpoints answer when something is not found *)
(* ================================================================== *)

Lemma guarded_staff {A} (u : CurrentUser.t) (h : result A) :
  PyStr.mem (CurrentUser.role u) Endpoints.staff = true ->
  Endpoints.guarded Endpoints.staff u h = h.
Proof.
  intros H. unfold Endpoints.guarded, Endpoints.require_roles.
  now rewrite H.
Qed.

(** X19. For a caller who is admin or curator, the endpoints answer 500,
    not 404 or 400, when what they are asked for does not exist: deleting
    or linking an exam no exam has the identifier of, listing the students
    of a group that does not exist or has no student, and creating a group
    for a curator that does not exist. The 404 and 400 raised by the
    service or by the handler itself are caught by the handler's own
    catch-all clause. *)
Theorem X19_not_found_is_answered_500
        (db : DB.t) (current_user : CurrentUser.t) :
  PyStr.mem (CurrentUser.role current_user) Endpoints.staff = true ->
  (forall exam_id link,
      (forall x, In x (DB.exams db) -> Exam.id x <> exam_id) ->
      ExamWrites.delete_exam exam_id db = Raise (HTTPException 404)
      /\ Endpoints.delete_exam exam_id db current_user
         = Raise (HTTPException 500)
      /\ Endpoints.update_exam_link exam_id link db current_user
         = Raise (HTTPException 500))
  /\ (forall group_id exam_id,
         (forall s, In s (DB.students db) ->
                    Student.group_id s <> group_id) ->
         Endpoints.get_students_by_id group_id exam_id db current_user
         = Raise (HTTPException 500))
  /\ (forall group,
         (forall c, In c (DB.curators db) ->
                    Curator.id c <> GroupWrites.curator_id group) ->
         GroupWrites.create_group group db = Raise (HTTPException 400)
         /\ Endpoints.create_group group db current_user
            = Raise (HTTPException 500)).
Proof.
  intros Hu. split; [|split].
  - intros exam_id link Hnone.
    unfold Endpoints.delete_exam, Endpoints.update_exam_link.
    rewrite !(guarded_staff _ _ Hu).
    unfold ExamWrites.delete_exam, ExamWrites.update_exam_link.
    rewrite (filter_key_none Exam.id exam_id _ Hnone).
    repeat split.
  - intros group_id exam_id Hnone.
    unfold Endpoints.get_students_by_id. rewrite (guarded_staff _ _ Hu).
    unfold StudentService.get_students_by_group_id.
    destruct (DB.first (filter (fun g => Group.id g =? group_id)
                               (DB.groups db))) as [g|] eqn:Eg;
      [|reflexivity].
    apply first_filter_some in Eg. destruct Eg as [_ Eg].
    apply Z.eqb_eq in Eg. rewrite Eg.
    rewrite (filter_key_none Student.group_id group_id _ Hnone).
    reflexivity.
  - intros group Hnone.
    unfold Endpoints.create_group. rewrite (guarded_staff _ _ Hu).
    unfold GroupWrites.create_group, GroupWrites.curator_exists.
    rewrite (filter_key_none Curator.id _ _ Hnone). split; reflexivity.
Qed.

Lemma X19_not_found_is_answered_500_witness :
  Endpoints.delete_exam 999 Demo.db (Spec.admin_user "root" 1)
  = Raise (HTTPException 500).
Proof.
  refine (proj1 (proj2 (proj1 (X19_not_found_is_answered_500
                                 Demo.db (Spec.admin_user "root" 1)
                                 eq_refl)
                              999 None _))).
  intros x Hx. simpl in Hx.
  repeat (destruct Hx as [<-|Hx]; [discriminate|]). contradiction.
Defined.

(* ================================================================== *)
(** * Groups: creating, updating, deleting *)
(* ================================================================== *)

Lemma existsb_false_key {A} (key : A -> Z) (k : Z) (l : list A) :
  existsb (fun x => key x =? k) l = false <->
  forall x, In x l -> key x <> k.
Proof.
  split.
  - intros H x Hx E. apply Z.eqb_eq in E.
    assert (existsb (fun x => key x =? k) l = true)
      by (apply existsb_exists; now exists x).
    congruence.
  - intros H. destruct (existsb _ l) eqn:E; [|reflexivity].
    apply existsb_exists in E. destruct E as (x & Hx & E).
    apply Z.eqb_eq in E. now destruct (H x Hx).
Qed.

(** X20. Deleting a group or an exam, under the cascading foreign keys of
    the schema, keeps the references of the database whole: if every group had its curator, every student and exam its
    group, every exam its curator and every mark its student and its exam,
    the same holds after the delete, which removes the dependent rows with
    the row itself. After deleting a group, no group, student or exam of
    that group identifier is left. *)
Theorem X20_deletes_keep_references_whole (db : DB.t) :
  Facts.links_ok db ->
  (forall group_id deleted db',
      GroupWrites.delete_group group_id db = Ret (deleted, db') ->
      Facts.links_ok db'
      /\ (forall g, In g (DB.groups db') -> Group.id g <> group_id)
      /\ (forall s, In s (DB.students db') ->
                    Student.group_id s <> group_id)
      /\ (forall e, In e (DB.exams db') -> Exam.group_id e <> group_id))
  /\ (forall exam_id deleted db',
         ExamWrites.delete_exam exam_id db = Ret (deleted, db') ->
         Facts.links_ok db').
Proof.
  intros [L1 L2 L3 L4 L5 L6].
  assert (Hgone : forall A (key : A -> Z) (k : Z) (l : list A) (x : A),
             In x (filter (fun e => negb (key e =? k)) l)
             <-> In x l /\ key x <> k).
  { intros A key k l x. rewrite filter_In, negb_true_iff, Z.eqb_neq.
    tauto. }
  split.
  - intros group_id deleted db' H. unfold GroupWrites.delete_group in H.
    destruct (DB.first _) as [g0|]; [|discriminate].
    cbv zeta in H. injection H as _ <-.
    split; [|split; [|split]].
    + constructor;
        cbn [DB.curators DB.groups DB.students DB.exams DB.marks].
      * intros g Hg. apply Hgone in Hg. now apply L1.
      * intros s Hs. apply Hgone in Hs. destruct Hs as [Hs Hne].
        destruct (L2 s Hs) as (g & Hg & Eg). exists g.
        split; [|exact Eg]. apply Hgone. split; [exact Hg|congruence].
      * intros e He. apply Hgone in He. destruct He as [He Hne].
        destruct (L3 e He) as (g & Hg & Eg). exists g.
        split; [|exact Eg]. apply Hgone. split; [exact Hg|congruence].
      * intros e He. apply Hgone in He. now apply L4.
      * intros m Hm. apply filter_In in Hm. destruct Hm as [Hm Hk].
        apply andb_true_iff in Hk. destruct Hk as [Hk _].
        apply negb_true_iff in Hk.
        destruct (L5 m Hm) as (s & Hs & Es). exists s.
        split; [|exact Es]. apply Hgone. split; [exact Hs|].
        intros Eg.
        assert (existsb (fun s => Student.id s =? Mark.student_id m)
                        (filter (fun s => Student.group_id s =? group_id)
                                (DB.students db)) = true).
        { apply existsb_exists. exists s. split.
          - apply filter_In. split; [exact Hs|now apply Z.eqb_eq].
          - now apply Z.eqb_eq. }
        congruence.
      * intros m Hm. apply filter_In in Hm. destruct Hm as [Hm Hk].
        apply andb_true_iff in Hk. destruct Hk as [_ Hk].
        apply negb_true_iff in Hk.
        destruct (L6 m Hm) as (e & He & Ee). exists e.
        split; [|exact Ee]. apply Hgone. split; [exact He|].
        intros Eg.
        assert (existsb (fun e => Exam.id e =? Mark.exam_id m)
                        (filter (fun e => Exam.group_id e =? group_id)
                                (DB.exams db)) = true).
        { apply existsb_exists. exists e. split.
          - apply filter_In. split; [exact He|now apply Z.eqb_eq].
          - now apply Z.eqb_eq. }
        congruence.
    + intros g Hg. cbn [DB.groups] in Hg. now apply Hgone in Hg.
    + intros s Hs. cbn [DB.students] in Hs. now apply Hgone in Hs.
    + intros e He. cbn [DB.exams] in He. now apply Hgone in He.
  - intros exam_id deleted db' H. unfold ExamWrites.delete_exam in H.
    destruct (DB.first _) as [e0|]; [|discriminate].
    injection H as _ <-.
    constructor; cbn [DB.curators DB.groups DB.students DB.exams DB.marks];
      auto.
    + intros e He. apply Hgone in He. now apply L3.
    + intros e He. apply Hgone in He. now apply L4.
    + intros m Hm. apply Hgone in Hm. now apply L5.
    + intros m Hm. apply Hgone in Hm. destruct Hm as [Hm Hne].
      destruct (L6 m Hm) as (e & He & Ee). exists e.
      split; [|exact Ee]. apply Hgone. split; [exact He|congruence].
Qed.

Ltac pick_row :=
  simpl;
  first [ eexists; split; [left; reflexivity|reflexivity]
        | eexists; split; [right; left; reflexivity|reflexivity]
        | eexists; split; [right; right; left; reflexivity|reflexivity]
        | eexists; split; [do 3 right; left; reflexivity|reflexivity] ].

Lemma X20_deletes_keep_references_whole_witness :
  exists db',
    GroupWrites.delete_group 10 Demo.db = Ret (true, db')
    /\ Facts.links_ok db'.
Proof.
  eexists. split; [reflexivity|].
  refine (proj1 (proj1 (X20_deletes_keep_references_whole Demo.db _)
                       10 true _ eq_refl)).
  constructor; intros x Hx; simpl in Hx;
    repeat (destruct Hx as [<-|Hx]; [pick_row|]); contradiction.
Defined.

Lemma new_group_is_fresh (db : DB.t) (g : Group.t) :
  In g (DB.groups db) -> Group.id g <> next_id (map Group.id (DB.groups db)).
Proof.
  intros Hg E.
  pose proof (next_id_above (map Group.id (DB.groups db)) (Group.id g)
                            (in_map Group.id _ _ Hg)). lia.
Qed.

(** X21. Creating a group. For a curator that does not exist the service
    raises 400 and writes nothing. Otherwise the group gets an identifier
    no group has, so that unique keys stay unique, and the name and
    curator of the request; in a database whose references are whole the
    references stay whole and the curator finds the new group in their own
    list of groups at once, with 0 students. *)
Theorem X21_create_group_is_listed
        (group_data : GroupWrites.CreateGroup) (db : DB.t) :
  match GroupWrites.create_group group_data db with
  | Raise e =>
      e = HTTPException 400
      /\ forall c, In c (DB.curators db) ->
                   Curator.id c <> GroupWrites.curator_id group_data
  | Ret (resp, db') =>
      (exists c, In c (DB.curators db)
                 /\ Curator.id c = GroupWrites.curator_id group_data)
      /\ (forall g, In g (DB.groups db) ->
                    Group.id g <> GroupWrites.r_group_id resp)
      /\ GroupWrites.r_name resp = GroupWrites.name group_data
      /\ GroupWrites.r_curator_id resp = GroupWrites.curator_id group_data
      /\ (DB.no_dup_ids (map Group.id (DB.groups db)) = true ->
          DB.no_dup_ids (map Group.id (DB.groups db')) = true)
      /\ (Facts.links_ok db ->
          Facts.links_ok db'
          /\ forall login,
              In (GroupService.mk_group_dict
                    (GroupWrites.r_group_id resp)
                    (GroupWrites.name group_data)
                    (GroupWrites.curator_id group_data) 0)
                 (GroupService.get_all_groups
                    db' (Spec.curator_user
                           login (GroupWrites.curator_id group_data))))
  end.
Proof.
  unfold GroupWrites.create_group, GroupWrites.curator_exists.
  destruct (DB.first (filter (fun c => Curator.id c
                                       =? GroupWrites.curator_id group_data)
                             (DB.curators db))) as [c|] eqn:Ec.
  - apply first_filter_some in Ec. destruct Ec as [Hc Ec].
    apply Z.eqb_eq in Ec. cbv zeta.
    cbn [GroupWrites.r_group_id GroupWrites.r_name GroupWrites.r_curator_id
         Group.id Group.name Group.curator_id DB.groups].
    pose proof (new_group_is_fresh db) as Hfresh.
    split; [now exists c|]. split; [exact Hfresh|].
    split; [reflexivity|]. split; [reflexivity|]. split.
    { intros Hnd. rewrite map_app. cbn [map Group.id].
      apply no_dup_ids_snoc; [exact Hnd|].
      intros y Hy. apply in_map_iff in Hy. destruct Hy as (g & <- & Hg).
      now apply Hfresh. }
    intros [L1 L2 L3 L4 L5 L6]. split.
    { constructor;
        cbn [DB.curators DB.groups DB.students DB.exams DB.marks]; auto.
      - intros g Hg. apply in_app_or in Hg. destruct Hg as [Hg|[<-|[]]];
          [now apply L1|]. now exists c.
      - intros s Hs. destruct (L2 s Hs) as (g & Hg & Eg). exists g.
        split; [apply in_or_app; now left|exact Eg].
      - intros e He. destruct (L3 e He) as (g & Hg & Eg). exists g.
        split; [apply in_or_app; now left|exact Eg]. }
    intros login. unfold GroupService.get_all_groups.
    cbn [Spec.curator_user CurrentUser.is_curator CurrentUser.role].
    replace (String.eqb Role.CURATOR Role.CURATOR) with true
      by reflexivity.
    apply in_map_iff.
    exists (Group.mk (next_id (map Group.id (DB.groups db)))
                     (GroupWrites.name group_data)
                     (GroupWrites.curator_id group_data)).
    split.
    + cbn [Group.id Group.name Group.curator_id DB.students]. f_equal.
      rewrite (filter_key_none Student.group_id); [reflexivity|].
      intros s Hs E. destruct (L2 s Hs) as (g & Hg & Eg).
      apply (Hfresh g Hg). congruence.
    + apply filter_In. split.
      * cbn [DB.groups]. apply in_or_app. right. now left.
      * unfold CurrentUser.owns. cbn [CurrentUser.id Group.curator_id].
        apply Z.eqb_refl.
  - split; [reflexivity|]. intros c Hc.
    apply Z.eqb_neq. now apply (first_filter_none _ _ Ec).
Qed.

(** X22. Updating a group looks the group up before the curator: for a
    group that does not exist it raises 404 even when the curator does not
    exist either, and 400 only for an existing group with an unknown
    curator; in both cases nothing is written. On success every group of
    that identifier carries the new name and curator, the identifiers of
    the table and all other groups are as before, no other table changes,
    and whole references stay whole. *)
Theorem X22_update_group_checks_group_first
        (group_id : Z) (group_data : GroupWrites.CreateGroup) (db : DB.t) :
  match GroupWrites.update_group group_id group_data db with
  | Raise e =>
      (e = HTTPException 404
       /\ forall g, In g (DB.groups db) -> Group.id g <> group_id)
      \/ (e = HTTPException 400
          /\ (exists g, In g (DB.groups db) /\ Group.id g = group_id)
          /\ forall c, In c (DB.curators db) ->
                       Curator.id c <> GroupWrites.curator_id group_data)
  | Ret (resp, db') =>
      GroupWrites.r_group_id resp = group_id
      /\ GroupWrites.r_name resp = GroupWrites.name group_data
      /\ GroupWrites.r_curator_id resp = GroupWrites.curator_id group_data
      /\ map Group.id (DB.groups db') = map Group.id (DB.groups db)
      /\ (forall g, In g (DB.groups db') -> Group.id g = group_id ->
                    Group.name g = GroupWrites.name group_data
                    /\ Group.curator_id g
                       = GroupWrites.curator_id group_data)
      /\ (forall g, In g (DB.groups db) -> Group.id g <> group_id ->
                    In g (DB.groups db'))
      /\ DB.students db' = DB.students db
      /\ DB.exams db' = DB.exams db
      /\ DB.marks db' = DB.marks db
      /\ (Facts.links_ok db -> Facts.links_ok db')
  end.
Proof.
  unfold GroupWrites.update_group, GroupWrites.curator_exists.
  destruct (DB.first (filter (fun g => Group.id g =? group_id)
                             (DB.groups db))) as [g0|] eqn:Eg.
  - apply first_filter_some in Eg. destruct Eg as [Hg0 Eg0].
    apply Z.eqb_eq in Eg0.
    destruct (DB.first (filter (fun c => Curator.id c
                                         =? GroupWrites.curator_id group_data)
                               (DB.curators db))) as [c|] eqn:Ec.
    + apply first_filter_some in Ec. destruct Ec as [Hc Ec].
      apply Z.eqb_eq in Ec. cbv zeta.
      cbn [GroupWrites.r_group_id GroupWrites.r_name
           GroupWrites.r_curator_id Group.id Group.name Group.curator_id
           DB.groups DB.students DB.exams DB.marks].
      set (f := fun g => if Group.id g =? group_id
                         then Group.mk (Group.id g0)
                                       (GroupWrites.name group_data)
                                       (GroupWrites.curator_id group_data)
                         else g).
      assert (Hid : forall g, Group.id (f g) = Group.id g).
      { intros g. unfold f. destruct (Z.eqb_spec (Group.id g) group_id);
          [cbn [Group.id]; congruence|reflexivity]. }
      split; [exact Eg0|]. split; [reflexivity|]. split; [reflexivity|].
      split; [rewrite map_map; now apply map_ext|].
      split.
      { intros g Hg Hgid. apply in_map_iff in Hg.
        destruct Hg as (g1 & <- & Hg1). revert Hgid. unfold f.
        destruct (Z.eqb_spec (Group.id g1) group_id);
          [split; reflexivity|contradiction]. }
      split.
      { intros g Hg Hne. apply in_map_iff. exists g. split; [|exact Hg].
        unfold f. now rewrite (proj2 (Z.eqb_neq _ _) Hne). }
      repeat (split; [reflexivity|]).
      intros [L1 L2 L3 L4 L5 L6].
      constructor;
        cbn [DB.curators DB.groups DB.students DB.exams DB.marks]; auto.
      * intros g Hg. apply in_map_iff in Hg.
        destruct Hg as (g1 & <- & Hg1). unfold f.
        destruct (Group.id g1 =? group_id);
          [now exists c|now apply L1].
      * intros s Hs. destruct (L2 s Hs) as (g & Hg & E). exists (f g).
        split; [now apply in_map|now rewrite Hid].
      * intros e He. destruct (L3 e He) as (g & Hg & E). exists (f g).
        split; [now apply in_map|now rewrite Hid].
    + right. split; [reflexivity|]. split; [now exists g0|].
      intros c Hc. apply Z.eqb_neq. now apply (first_filter_none _ _ Ec).
  - left. split; [reflexivity|]. intros g Hg.
    apply Z.eqb_neq. now apply (first_filter_none _ _ Eg).
Qed.

(* ================================================================== *)
(** * Reading the marks back *)
(* ================================================================== *)





Lemma student_marks_ok (db : DB.t) (ms : list Mark.t)
      (l : list ExamWrites.StudentMark) :
  ExamWrites.student_marks db ms = Ret l ->
  map ExamWrites.mark l = map Mark.mark ms
  /\ map ExamWrites.student_id l = map Mark.student_id ms.
Proof.
  revert l. induction ms as [|m ms IH]; intros l H.
  - simpl in H. injection H as <-. split; reflexivity.
  - simpl in H. unfold ExamWrites.student_mark in H.
    destruct (find (fun s => Student.id s =? Mark.student_id m)
                   (DB.students db)) as [s|] eqn:Es; [|discriminate].
    destruct (ExamWrites.student_marks db ms) as [xs|]; [|discriminate].
    injection H as <-. destruct (IH xs eq_refl) as [I1 I2].
    apply find_some in Es. destruct Es as [_ Es]. apply Z.eqb_eq in Es.
    cbn [map ExamWrites.mark ExamWrites.student_id].
    now rewrite I1, I2, Es.
Qed.

Lemma student_marks_total (db : DB.t) (ms : list Mark.t) :
  (forall m, In m ms ->
             exists s, In s (DB.students db)
                       /\ Student.id s = Mark.student_id m) ->
  exists l, ExamWrites.student_marks db ms = Ret l.
Proof.
  induction ms as [|m ms IH]; intros H; [now exists []|].
  simpl. unfold ExamWrites.student_mark.
  destruct (H m (or_introl eq_refl)) as (s & Hs & Es).
  destruct (find (fun s => Student.id s =? Mark.student_id m)
                 (DB.students db)) as [s1|] eqn:Ef.
  - destruct IH as (l & ->); [intros; apply H; now right|].
    eexists. reflexivity.
  - exfalso. pose proof (find_none _ _ Ef s Hs) as Hn. cbv beta in Hn.
    apply Z.eqb_neq in Hn. contradiction.
Qed.

(** X24. The marks of an exam. An answer lists exactly the marks of that
    exam, one entry per row and in the order of the rows, each with the row's
    student and value. In a database whose references are whole and whose
    exam identifiers are unique, the only error is 404, raised exactly
    when no exam has the identifier. *)
Theorem X24_exam_marks_lists_every_row (exam_id : Z) (db : DB.t) :
  (forall resp,
      ExamWrites.get_exam_marks exam_id db = Ret resp ->
      ExamWrites.r_exam_id resp = exam_id
      /\ map ExamWrites.mark (ExamWrites.students resp)
         = map Mark.mark
               (filter (fun m => Mark.exam_id m =? exam_id) (DB.marks db))
      /\ map ExamWrites.student_id (ExamWrites.students resp)
         = map Mark.student_id
               (filter (fun m => Mark.exam_id m =? exam_id) (DB.marks db)))
  /\ (Facts.links_ok db ->
      DB.no_dup_ids (map Exam.id (DB.exams db)) = true ->
      ((exists x, In x (DB.exams db) /\ Exam.id x = exam_id) ->
       exists resp, ExamWrites.get_exam_marks exam_id db = Ret resp)
      /\ ((forall x, In x (DB.exams db) -> Exam.id x <> exam_id) ->
          ExamWrites.get_exam_marks exam_id db
          = Raise (HTTPException 404))).
Proof.
  split.
  - intros resp H. unfold ExamWrites.get_exam_marks in H.
    destruct (DB.scalar_one_or_none _) as [[exam|]|] eqn:E;
      try discriminate.
    apply scalar_one in E.
    assert (Hin : In exam (filter (fun e => Exam.id e =? exam_id)
                                  (DB.exams db)))
      by (rewrite E; now left).
    apply filter_In in Hin. destruct Hin as [_ Hid].
    apply Z.eqb_eq in Hid. rewrite Hid in H.
    destruct (ExamWrites.student_marks db _) as [l|] eqn:El;
      [|discriminate].
    injection H as <-. cbn [ExamWrites.r_exam_id ExamWrites.students].
    split; [reflexivity|]. exact (student_marks_ok db _ _ El).
  - intros L Hnd. split.
    + intros (x & Hx & Hid). unfold ExamWrites.get_exam_marks.
      rewrite (filter_key_unique Exam.id exam_id _ x Hnd Hx Hid).
      cbn [DB.scalar_one_or_none].
      destruct (student_marks_total
                  db (filter (fun m => Mark.exam_id m =? Exam.id x)
                             (DB.marks db))) as (l & ->).
      * intros m Hm. apply filter_In in Hm.
        apply (Facts.mark_student db L). tauto.
      * eexists. reflexivity.
    + intros Hnone. unfold ExamWrites.get_exam_marks.
      now rewrite (filter_key_none Exam.id exam_id _ Hnone).
Qed.

Lemma X24_exam_marks_lists_every_row_witness :
  exists resp,
    ExamWrites.get_exam_marks 100 Demo.db = Ret resp
    /\ map ExamWrites.mark (ExamWrites.students resp) = [Some 4; None].
Proof.
  eexists. split; [reflexivity|].
  apply (proj1 (X24_exam_marks_lists_every_row 100 Demo.db)).
  reflexivity.
Defined.

(* ================================================================== *)
(** * The registration of a curator *)
(* ================================================================== *)

(** X25. When the registration of a curator succeeds, the stored row of
    that curator carries the password hash and the caller's chat is bound,
    so that a later start is recognised; but the curator becomes no
    recipient: the students are untouched and, in a database where every
    student's Telegram reference points to a row, the Recipient Resolver
    answers for every exam identifier what it answered before. *)
Theorem X25_registered_curator_is_no_recipient
        (hash_password : string -> string)
        (curator_id : Z) (password : string) (chat : Z)
        (db db' : DB.t) (curator : Curator.t) :
  CuratorService.set_curator_password_and_telegram
    hash_password curator_id password chat db
  = Ret (curator, db') ->
  (forall s k, In s (DB.students db) -> Student.telegram_id s = Some k ->
               exists tg, In tg (DB.telegrams db) /\ Telegram.id tg = k) ->
  In curator (DB.curators db')
  /\ Curator.id curator = curator_id
  /\ Curator.password curator = hash_password password
  /\ Spec.chat_bound db' chat
  /\ DB.students db' = DB.students db
  /\ DB.exams db' = DB.exams db
  /\ (forall k, ExamService.get_telegram_ids_by_exam_id k db'
                = ExamService.get_telegram_ids_by_exam_id k db).
Proof.
  unfold CuratorService.set_curator_password_and_telegram.
  destruct (find (fun c => Curator.id c =? curator_id) (DB.curators db))
    as [c0|] eqn:Ef; [|discriminate].
  apply find_some in Ef. destruct Ef as [Hc0 Hid]. apply Z.eqb_eq in Hid.
  destruct (bind_telegram_row chat db) as (Htg & Hchat).
  unfold StudentService.bind_telegram in *.
  destruct (DB.first (filter (fun x => Telegram.telegram_id x =? chat)
                             (DB.telegrams db))) as [tg|] eqn:Et;
    cbn [fst snd] in Htg, Hchat; intros H Hrefs; injection H as <- <-;
    cbn [Curator.id Curator.password DB.curators DB.students DB.exams
         DB.telegrams].
  - split.
    { apply in_map_iff. exists c0. split; [|exact Hc0].
      now rewrite (proj2 (Z.eqb_eq _ _) Hid). }
    split; [exact Hid|]. split; [reflexivity|].
    split; [exists tg; split; [exact Htg|exact Hchat]|].
    repeat split.
  - split.
    { apply in_map_iff. exists c0. split; [|exact Hc0].
      now rewrite (proj2 (Z.eqb_eq _ _) Hid). }
    split; [exact Hid|]. split; [reflexivity|].
    split.
    { eexists. split; [exact Htg|exact Hchat]. }
    split; [reflexivity|]. split; [reflexivity|].
    intros k. unfold ExamService.get_telegram_ids_by_exam_id.
    cbn [DB.exams DB.students DB.telegrams].
    destruct (DB.scalar_one_or_none _) as [[exam|]|]; try reflexivity.
    f_equal. rewrite flat_map_app. cbn [flat_map].
    rewrite app_nil_r.
    rewrite (flat_map_nil_when _ (DB.students db)); [now rewrite app_nil_r|].
    intros s Hs. cbn [Telegram.id].
    destruct (Student.telegram_id s) as [j|] eqn:Ej;
      [|reflexivity].
    destruct (Hrefs s j Hs Ej) as (tg & Hin & Htgid).
    pose proof (next_id_above (map Telegram.id (DB.telegrams db)) j) as Hlt.
    rewrite <- Htgid in Hlt. specialize (Hlt (in_map _ _ _ Hin)).
    cbn [DB.eq_opt].
    destruct (Z.eqb_spec j (next_id (map Telegram.id (DB.telegrams db))));
      [lia|reflexivity].
Qed.

Lemma X25_registered_curator_is_no_recipient_witness :
  exists curator db',
    CuratorService.set_curator_password_and_telegram
      Demo.hash 3 "secret" 5010 Demo.db
    = Ret (curator, db')
    /\ ExamService.get_telegram_ids_by_exam_id 300 db'
       = ExamService.get_telegram_ids_by_exam_id 300 Demo.db.
Proof.
  pose proof (X25_registered_curator_is_no_recipient
                Demo.hash 3 "secret" 5010 Demo.db _ _ eq_refl) as H.
  eexists. eexists. split; [reflexivity|].
  apply H. intros s k Hs Hk. simpl in Hs.
  repeat (destruct Hs as [<-|Hs];
          [try discriminate; injection Hk as <-; pick_row|]).
  contradiction.
Defined.

(* ================================================================== *)
(** * The notification about a ticket, and a failure nobody expects *)
(* ================================================================== *)

Section NotifyMore.

Variable T : Type.
Variable send_message
  : T -> Z -> string -> option string -> result unit * T.

Local Abbreviation deliver := (Notify.deliver T send_message).

Lemma reliable_rejects_only :
  Facts.reliable T send_message -> Facts.rejects_only T send_message.
Proof. intros H t c m b. left. apply H. Qed.

(** What the common body does for an exam that is there. *)
Lemma notify_on_existing_exam
      (text : Exam.t -> Curator.t -> string) (url : option string)
      (exam : Exam.t) (curator : Curator.t) (db : DB.t) (t : T)
      (ids : list Z) :
  ExamService.get_telegram_ids_by_exam_id (Exam.id exam) db = Ret ids ->
  ExamService.get_exam_details (Exam.id exam) db = Ret (Some exam) ->
  DB.curator_of db exam = Some curator ->
  Notify.notify T send_message text url (Exam.id exam) db t
  = Notify.logged T (deliver ids (text exam curator) url
                             (Exam.discipline exam) t).
Proof.
  intros H1 H2 H3. unfold Notify.notify. now rewrite H1, H2, H3.
Qed.

(** X26. On a transport that delivers, the notification that a ticket
    was attached sends to every recipient the resolver returns, in the
    resolver's order, the ticket text of that exam with a button that
    opens the link it was given, and pauses 10 after each. *)
Theorem X26_link_notification_carries_the_link
        (exam : Exam.t) (curator : Curator.t) (db : DB.t) (t : T)
        (link : string) :
  DB.no_dup_ids (map Exam.id (DB.exams db)) = true ->
  In exam (DB.exams db) ->
  DB.curator_of db exam = Some curator ->
  Facts.reliable T send_message ->
  let ev := snd (Notify.notify_students_about_exam_link
                   T send_message (Exam.id exam) link db t) in
  exists ids,
    ExamService.get_telegram_ids_by_exam_id (Exam.id exam) db = Ret ids
    /\ Facts.sent ev
       = map (fun c =>
                (c,
                 Notify.link_text (Bot.exam_type_text exam)
                                  (Exam.discipline exam)
                                  (Bot.curator_fio curator)
                                  (Exam.holding_date exam),
                 Some link))
             ids
    /\ Facts.pauses ev = map (fun _ => 10) ids
    /\ Facts.failures ev = [].
Proof.
  intros Hnd Hin Hc Hrel. cbv zeta.
  destruct (resolver_on_existing_exam db (Exam.id exam) exam Hnd Hin
                                      eq_refl) as (ids & Hids & _).
  exists ids. split; [exact Hids|].
  unfold Notify.notify_students_about_exam_link.
  rewrite (notify_on_existing_exam _ _ exam curator db t ids Hids);
    [|unfold ExamService.get_exam_details;
      now rewrite (filter_key_unique Exam.id (Exam.id exam) _ exam Hnd Hin
                                     eq_refl)
     |exact Hc].
  match goal with
  | |- context [Notify.deliver T send_message ids ?tx ?u ?d t] =>
      destruct (deliver_reliable T send_message ids tx u d t Hrel)
        as (D1 & D2);
      destruct (deliver_rejects_only T send_message ids tx u d t
                  (reliable_rejects_only Hrel))
        as (_ & D3 & _ & D4);
      destruct (Notify.deliver T send_message ids tx u d t)
        as [[r t2] ev]
  end.
  cbn [fst snd] in *. subst r. cbn [Notify.logged snd].
  split; [exact D2|]. split.
  - rewrite D4, D2, map_map. reflexivity.
  - rewrite D2, length_map in D3.
    destruct (Facts.failures ev); [reflexivity|simpl in D3; lia].
Qed.

Lemma deliver_app (l1 l2 : list Z) (text : string) (url : option string)
      (disc : string) (t : T) :
  deliver (l1 ++ l2) text url disc t
  = match deliver l1 text url disc t with
    | (Ret _, t1, ev1) =>
        match deliver l2 text url disc t1 with
        | (r, t2, ev2) => (r, t2, ev1 ++ ev2)
        end
    | (Raise e, t1, ev1) => (Raise e, t1, ev1)
    end.
Proof.
  revert t. induction l1 as [|a l1 IH]; intros t.
  - cbn [app Notify.deliver].
    now destruct (deliver l2 text url disc t) as [[r t2] ev2].
  - rewrite <- app_comm_cons. cbn [Notify.deliver].
    destruct (send_message t a text url) as [[u|e] t1].
    + rewrite IH.
      destruct (deliver l1 text url disc t1) as [[[u1|e1] t2] ev1];
        [|reflexivity].
      now destruct (deliver l2 text url disc t2) as [[r t3] ev2].
    + destruct e; try reflexivity.
      rewrite IH.
      destruct (deliver l1 text url disc t1) as [[[u1|e1] t2] ev1];
        [|reflexivity].
      now destruct (deliver l2 text url disc t2) as [[r t3] ev2].
Qed.

(** X27. In the notifications about an exam only a rejected request is
    caught per recipient. When the transport fails in any other way for
    one recipient, the loop ends there: what was done for the recipients
    before stays done, the recipients after are not written to, and the
    notification ends with one error line and without raising. *)
Theorem X27_unexpected_failure_ends_the_loop
        (pre post : list Z) (c : Z) (text : string) (url : option string)
        (disc : string) (t : T) (e : exn) :
  let before := deliver pre text url disc t in
  fst (fst before) = Ret tt ->
  fst (send_message (snd (fst before)) c text url) = Raise e ->
  e <> TelegramBadRequest ->
  deliver (pre ++ c :: post) text url disc t
  = (Raise e, snd (send_message (snd (fst before)) c text url),
     snd before)
  /\ Notify.logged T (deliver (pre ++ c :: post) text url disc t)
     = (Ret tt, snd (send_message (snd (fst before)) c text url),
        snd before ++ [Notify.Log ERROR Notify.NotifyFailed]).
Proof.
  cbv zeta. intros Hb Hs He. rewrite deliver_app.
  destruct (deliver pre text url disc t) as [[r t1] ev1].
  cbn [fst snd] in *. subst r. cbn [Notify.deliver].
  destruct (send_message t1 c text url) as [[u|e1] t2];
    cbn [fst snd] in *; [discriminate|].
  injection Hs as ->.
  destruct e; try contradiction; cbn [Notify.logged];
    rewrite app_nil_r; split; reflexivity.
Qed.



End NotifyMore.

Lemma X26_link_notification_carries_the_link_witness :
  Facts.pauses
    (snd (Notify.notify_students_about_exam_link
            unit Demo2.reliable 300 "https://t.example/1" Demo.db tt))
  = [10; 10].
Proof.
  destruct (X26_link_notification_carries_the_link
              unit Demo2.reliable Demo.history Demo.sidorova Demo.db tt
              "https://t.example/1" eq_refl
              (or_intror (or_intror (or_introl eq_refl))) eq_refl
              (fun _ _ _ _ => eq_refl))
    as (ids & Hids & _ & Hp & _).
  vm_compute in Hids. injection Hids as <-. exact Hp.
Defined.

Lemma X27_unexpected_failure_ends_the_loop_witness :
  Notify.deliver unit Demo2.blocked [5001; 5002; 5003] "m" None "d" tt
  = (Raise OtherError, tt,
     [Notify.SendMessage 5001 "m" None;
      Notify.Log INFO (Notify.Delivered 5001 "d"); Notify.Sleep 10]).
Proof.
  apply (proj1 (X27_unexpected_failure_ends_the_loop
                  unit Demo2.blocked [5001] [5003] 5002 "m" None "d" tt
                  OtherError eq_refl eq_refl
                  ltac:(discriminate))).
Defined.


(* ================================================================== *)
(** * The statements above on the example database *)
(* ================================================================== *)

Lemma demo_links_ok : Facts.links_ok Demo.db.
Proof.
  constructor; intros x Hx; simpl in Hx;
    repeat (destruct Hx as [<-|Hx]; [pick_row|]); contradiction.
Defined.


Lemma X17_update_exam_link_changes_only_the_link_witness :
  ExamService.get_exam_details
    100
    (match ExamWrites.update_exam_link 100 (Some "https://t.example/1")
                                       Demo.db with
     | Ret (_, db') => db'
     | Raise _ => Demo.db
     end)
  = Ret (Some (ExamWrites.set_link (Some "https://t.example/1")
                                   Demo.maths)).
Proof.
  generalize (X17_update_exam_link_changes_only_the_link
                100 (Some "https://t.example/1") Demo.db).
  vm_compute.
  intros (exam & [<-|[<-|[<-|[<-|[]]]]] & Hid & _ & _ & H & _);
    try discriminate Hid.
  exact H.
Defined.

Lemma X18_delete_exam_takes_its_marks_witness :
  match ExamWrites.delete_exam 100 Demo.db with
  | Ret (_, db') =>
      forall m, In m (DB.marks db') -> Mark.exam_id m <> 100
  | Raise _ => False
  end.
Proof.
  generalize (X18_delete_exam_takes_its_marks 100 Demo.db).
  destruct (ExamWrites.delete_exam 100 Demo.db) as [[deleted db']|e] eqn:E.
  - intros (_ & _ & _ & Hm & _) m Hin. now apply Hm in Hin.
  - vm_compute in E. discriminate.
Defined.

Lemma X21_create_group_is_listed_witness :
  match GroupWrites.create_group (GroupWrites.mk_create "ИС-23" 3) Demo.db
  with
  | Ret (resp, db') =>
      In (GroupService.mk_group_dict (GroupWrites.r_group_id resp)
                                     "ИС-23" 3 0)
         (GroupService.get_all_groups db' (Spec.curator_user "orlov" 3))
  | Raise _ => False
  end.
Proof.
  generalize (X21_create_group_is_listed
                (GroupWrites.mk_create "ИС-23" 3) Demo.db).
  destruct (GroupWrites.create_group (GroupWrites.mk_create "ИС-23" 3)
                                     Demo.db) as [[resp db']|e] eqn:E.
  - intros (_ & _ & _ & _ & _ & H).
    exact (proj2 (H demo_links_ok) "orlov").
  - vm_compute in E. discriminate.
Defined.

Lemma X22_update_group_checks_group_first_witness :
  GroupWrites.update_group 99 (GroupWrites.mk_create "ИС-23" 77) Demo.db
  = Raise (HTTPException 404)
  /\ match GroupWrites.update_group 10 (GroupWrites.mk_create "ИС-23" 3)
                                    Demo.db with
     | Ret (_, db') => Facts.links_ok db'
     | Raise _ => False
     end.
Proof.
  split.
  - generalize (X22_update_group_checks_group_first
                  99 (GroupWrites.mk_create "ИС-23" 77) Demo.db).
    destruct (GroupWrites.update_group 99 (GroupWrites.mk_create "ИС-23" 77)
                                       Demo.db) as [[resp db']|e] eqn:E.
    + vm_compute in E. discriminate.
    + intros [[-> _]|[-> _]]; [reflexivity|].
      vm_compute in E. discriminate.
  - generalize (X22_update_group_checks_group_first
                  10 (GroupWrites.mk_create "ИС-23" 3) Demo.db).
    destruct (GroupWrites.update_group 10 (GroupWrites.mk_create "ИС-23" 3)
                                       Demo.db) as [[resp db']|e] eqn:E.
    + intros (_ & _ & _ & _ & _ & _ & _ & _ & _ & H).
      exact (H demo_links_ok).
    + vm_compute in E. discriminate.
Defined.
